(** * Assessment lifecycle of the LMS backend

    A shallow embedding of the assessment controller
    (getAssessments, getAssessmentById, updateAssessment, deleteAssessment,
    submitAssessment, gradeSubmission, getAssessmentSubmissions) and of the
    Joi schemas it validates request bodies with, followed by the
    properties of the lifecycle engine.

    Conventions of the embedding.
    - ObjectIds are compared in the controller through [toString()], so an
      id is the string it prints as.
    - A [Date] is its epoch value in milliseconds, an integer.
    - The handlers carry the numbers of a request and of a document as
      exact rationals. What is proved of stored points on the handlers is
      what holds of the doubles of the program as well: equalities where no
      arithmetic is done, and bounds, which correct rounding keeps. The
      arithmetic of the late penalty as the program computes it, in
      binary64, is module [Double]; that its result stays between zero and
      the points entered is proved there from the definitions of the
      rounded operations.
    - What is the library's and not the controller's enters as a
      parameter: the test [Joi.string().uri()] makes of a text, what
      Mongoose makes of an update document, the users that [populate]
      finds.
    - A handler is a computation over the assessment collection which
      throws (HTTP status and message), breaks with an error of the engine
      or of Mongoose, or produces the JSON payload of the response. *)

From Stdlib Require Import ZArith QArith Qround Qminmax Qpower Lqa Lia Sorted.
From Stdlib Require SpecFloat.
From stdpp Require Import gmap strings list fin_maps.

Set Warnings "-register-all".
Local Open Scope Z_scope.
Local Open Scope string_scope.

(** ** Identifiers and time *)

Definition Id := string.
Definition Time := Z.

(** [1000 * 60 * 60 * 24], the divisor of gradeSubmission. *)
Definition msPerDay : Z := 1000 * 60 * 60 * 24.

(** [Number.MAX_SAFE_INTEGER]. *)
Definition maxSafeInteger : Z := 2 ^ 53 - 1.

(** ** Request bodies *)

(** The value [express.json()] hands to a handler. The entries of an
    object are kept in the order they were sent, each key once as in a
    parsed body; [field] reads a key. *)
Inductive JSON : Type :=
  | JNull
  | JBool (b : bool)
  | JNum (q : Q)
  | JStr (s : string)
  | JArr (items : list JSON)
  | JObj (entries : list (string * JSON)).

Fixpoint assoc {A} (k : string) (l : list (string * A)) : option A :=
  match l with
  | [] => None
  | (k', v) :: l' => if String.eqb k k' then Some v else assoc k l'
  end.

(** [obj.key]: undefined ([None]) on a missing key and on a non-object. *)
Definition field (k : string) (v : JSON) : option JSON :=
  match v with
  | JObj entries => assoc k entries
  | _ => None
  end.

(** ** Joi *)

Module Joi.

(** The rules the controller's schemas are built from. [string_ None] is
    [Joi.string()] and [string_ (Some uri)] is [Joi.string().uri()], where
    [uri] is the test of RFC 3986 syntax that Joi applies to a text;
    [number_ (Some m)] is [Joi.number().min(m)]; a key of [object_]
    carries its schema and whether it is [.required()]. A number is a
    [JNum]; what Joi makes of a numeral that is sent as text is not
    modelled, and nothing is stated of a body whose points are a text. *)
Inductive Schema : Type :=
  | string_ (uri : option (string -> bool))
  | number_ (min : option Q)
  | object_ (keys : list (string * (Schema * bool))).

(** What [error.details[0]] reports: the key and the rule it broke. *)
Inductive Rule : Type :=
  | any_required
  | string_base
  | string_empty
  | string_uri
  | number_base
  | number_unsafe
  | number_min
  | object_base
  | object_unknown.

Record ValidationError : Type := mkError { path : string; rule : Rule }.

(** [Number.MAX_SAFE_INTEGER], 2^53 - 1: [Joi.number()] refuses a number
    beyond it on either side. *)
Definition maxSafe : Q := inject_Z maxSafeInteger.

Definition safe (q : Q) : bool := Qle_bool (- maxSafe) q && Qle_bool q maxSafe.

Definition first_error (a b : option ValidationError) : option ValidationError :=
  match a with
  | Some e => Some e
  | None => b
  end.

(** Whether an object schema declares key [k]. *)
Definition declared (k : string) (keys : list (string * (Schema * bool)))
  : bool :=
  existsb (String.eqb k) (map fst keys).

(** The first entry of an object whose key the schema does not
    declare. *)
Fixpoint unknown (keys : list (string * (Schema * bool)))
    (entries : list (string * JSON)) : option ValidationError :=
  match entries with
  | [] => None
  | (k, _) :: entries' =>
      if declared k keys then unknown keys entries'
      else Some (mkError k object_unknown)
  end.

(** The declared keys of an object in schema order, each with the rule
    [rule] of its schema: a key that is there is checked, a key that is
    missing is an error only when it is required. *)
Definition children {S : Type}
    (rule : string -> S -> JSON -> option ValidationError)
    (entries : list (string * JSON))
  : list (string * (S * bool)) -> option ValidationError :=
  fix go ks :=
    match ks with
    | [] => None
    | (k, (sk, req)) :: ks' =>
        first_error
          match assoc k entries with
          | Some vk => rule k sk vk
          | None => if req then Some (mkError k any_required) else None
          end
          (go ks')
    end.

(** Validation of a value that is present, under key [p]. A text is
    refused when empty before its syntax is looked at; a number is
    refused when unsafe before it is compared with the minimum. An object
    checks its declared keys, then rejects the first entry whose key is
    not declared. *)
Fixpoint check (p : string) (s : Schema) (v : JSON) {struct s}
  : option ValidationError :=
  match s with
  | string_ uri =>
      match v with
      | JStr "" => Some (mkError p string_empty)
      | JStr t =>
          match uri with
          | Some isUri =>
              if isUri t then None else Some (mkError p string_uri)
          | None => None
          end
      | _ => Some (mkError p string_base)
      end
  | number_ min =>
      match v with
      | JNum q =>
          if safe q then
            match min with
            | Some m =>
                if Qle_bool m q then None else Some (mkError p number_min)
            | None => None
            end
          else Some (mkError p number_unsafe)
      | _ => Some (mkError p number_base)
      end
  | object_ keys =>
      match v with
      | JObj entries =>
          first_error
            (children (fun k sk vk => check k sk vk) entries keys)
            (unknown keys entries)
      | _ => Some (mkError p object_base)
      end
  end.

(** [schema.validate(req.body)] for a top-level object schema; the
    result is the [error] of the destructuring in the handlers. *)
Definition validate (s : Schema) (body : JSON) : option ValidationError :=
  check "value" s body.

End Joi.

(** ** Data model *)

(** The principal [req.user] resolved by the authentication layer. *)
Module User.
Record t : Type := mk { _id : Id; isInstructor : bool; isAdmin : bool }.
End User.

Inductive AssessmentType : Type := assignment | project | essay | coding.
Inductive SubmissionType : Type := file | text | url | github.
Inductive Status : Type := submitted | graded.

Module Rubric.
Record t : Type := mk
  { criteria : string; maxPoints : Q; description : option string }.
End Rubric.

Module Grade.
Record t : Type := mk
  { points : Q; feedback : option string; gradedAt : Time; gradedBy : Id }.
End Grade.

Module Submission.
Record t : Type := mk
  { _id : Id;
    student : Id;
    content : JSON;
    isLate : bool;
    submittedAt : Time;
    status : Status;
    grade : option Grade.t }.

(** [submission.grade = g; submission.status = 'graded']. *)
Definition graded_with (g : Grade.t) (s : t) : t :=
  {| _id := _id s; student := student s; content := content s;
     isLate := isLate s; submittedAt := submittedAt s;
     status := graded; grade := Some g |}.
End Submission.

(** Modelled from the spec: the Mongoose schema of an assessment
    (models/assessmentModel) is not among the sources; the paths and their
    types are those of the spec's data model. The [_id] of a stored
    assessment is the key it is stored under. *)
Module Assessment.
Record t : Type := mk
  { title : string;
    description : string;
    instructions : string;
    course : Id;
    instructor : Id;
    type : AssessmentType;
    maxPoints : Q;
    dueDate : Time;
    allowLateSubmission : bool;
    latePenalty : Q;
    submissionType : SubmissionType;
    allowedFileTypes : list string;
    maxFileSize : option Q;
    rubric : list Rubric.t;
    isPublished : bool;
    submissions : list Submission.t }.

(** The document with its [submissions] array replaced. *)
Definition with_submissions (l : list Submission.t) (a : t) : t :=
  {| title := title a; description := description a;
     instructions := instructions a; course := course a;
     instructor := instructor a; type := type a; maxPoints := maxPoints a;
     dueDate := dueDate a; allowLateSubmission := allowLateSubmission a;
     latePenalty := latePenalty a; submissionType := submissionType a;
     allowedFileTypes := allowedFileTypes a; maxFileSize := maxFileSize a;
     rubric := rubric a; isPublished := isPublished a;
     submissions := l |}.
End Assessment.

(** Modelled from the spec: the Mongoose schema of an assessment
    (models/assessmentModel), which decides what [findByIdAndUpdate] makes
    of a request body, is not among the sources. The spec's data model
    calls [course] and [instructor] immutable after creation: the schema
    is taken to declare both paths immutable, and Mongoose leaves an
    immutable path of a stored document out of every update. Every other
    path of the assessment is the body's to write, [submissions] among
    them. (The spec calls [isLate] and [submittedAt] of a submission
    immutable as well; they are paths of a subdocument, and nothing here
    rests on what an update may do to a submission that is there.) *)
Module Update.

(** A request body as Mongoose reads it for a stored document: the
    document with the paths and operators of the body applied, or nothing
    when Mongoose throws on the body (a value it cannot cast to the path,
    operators that conflict) and writes nothing. This is before the
    immutable paths are put back. *)
Definition t : Type := Assessment.t -> option Assessment.t.

(** A body of top-level paths, each left out or carrying a value of the
    path's type. A body with none of the paths is [Update.empty]. *)
Record Paths : Type := mk
  { title : option string;
    description : option string;
    instructions : option string;
    course : option Id;
    instructor : option Id;
    type : option AssessmentType;
    maxPoints : option Q;
    dueDate : option Time;
    allowLateSubmission : option bool;
    latePenalty : option Q;
    submissionType : option SubmissionType;
    allowedFileTypes : option (list string);
    maxFileSize : option (option Q);
    rubric : option (list Rubric.t);
    isPublished : option bool;
    submissions : option (list Submission.t) }.

Definition empty : Paths :=
  mk None None None None None None None None
     None None None None None None None None.

(** [$set] of one path: the body's value when the path is in the body. *)
Definition set {A} (new : option A) (old : A) : A :=
  match new with
  | Some v => v
  | None => old
  end.

(** The body [{ path: value, ... }]. *)
Definition paths (u : Paths) : t := fun a =>
  Some
  {| Assessment.title := set (title u) (Assessment.title a);
     Assessment.description := set (description u) (Assessment.description a);
     Assessment.instructions := set (instructions u) (Assessment.instructions a);
     Assessment.course := set (course u) (Assessment.course a);
     Assessment.instructor := set (instructor u) (Assessment.instructor a);
     Assessment.type := set (type u) (Assessment.type a);
     Assessment.maxPoints := set (maxPoints u) (Assessment.maxPoints a);
     Assessment.dueDate := set (dueDate u) (Assessment.dueDate a);
     Assessment.allowLateSubmission :=
       set (allowLateSubmission u) (Assessment.allowLateSubmission a);
     Assessment.latePenalty := set (latePenalty u) (Assessment.latePenalty a);
     Assessment.submissionType :=
       set (submissionType u) (Assessment.submissionType a);
     Assessment.allowedFileTypes :=
       set (allowedFileTypes u) (Assessment.allowedFileTypes a);
     Assessment.maxFileSize := set (maxFileSize u) (Assessment.maxFileSize a);
     Assessment.rubric := set (rubric u) (Assessment.rubric a);
     Assessment.isPublished := set (isPublished u) (Assessment.isPublished a);
     Assessment.submissions := set (submissions u) (Assessment.submissions a) |}.

(** The body [{ $push: { submissions: s } }]. *)
Definition push (s : Submission.t) : t := fun a =>
  Some (Assessment.with_submissions (Assessment.submissions a ++ [s])%list a).

(** The document [b] with the immutable paths as they are in the stored
    document [a]. *)
Definition immutable (a b : Assessment.t) : Assessment.t :=
  {| Assessment.title := Assessment.title b;
     Assessment.description := Assessment.description b;
     Assessment.instructions := Assessment.instructions b;
     Assessment.course := Assessment.course a;
     Assessment.instructor := Assessment.instructor a;
     Assessment.type := Assessment.type b;
     Assessment.maxPoints := Assessment.maxPoints b;
     Assessment.dueDate := Assessment.dueDate b;
     Assessment.allowLateSubmission := Assessment.allowLateSubmission b;
     Assessment.latePenalty := Assessment.latePenalty b;
     Assessment.submissionType := Assessment.submissionType b;
     Assessment.allowedFileTypes := Assessment.allowedFileTypes b;
     Assessment.maxFileSize := Assessment.maxFileSize b;
     Assessment.rubric := Assessment.rubric b;
     Assessment.isPublished := Assessment.isPublished b;
     Assessment.submissions := Assessment.submissions b |}.

(** What the update stores in place of [a]. *)
Definition apply (u : t) (a : Assessment.t) : option Assessment.t :=
  match u a with
  | Some b => Some (immutable a b)
  | None => None
  end.
End Update.

(** ** Handlers as computations over the collection *)

(** The assessments collection, keyed by [_id]. *)
Abbreviation Store := (gmap Id Assessment.t).

(** The text of a thrown [Error]: a literal of the controller, or
    [error.details[0].message] of a failed Joi validation. *)
Inductive Message : Type :=
  | Text (s : string)
  | Details (e : Joi.ValidationError).

(** An error the controller does not throw itself, and sets no status
    for: a [TypeError] of the engine, on reading a property of null, or
    an error of Mongoose. *)
Inductive Fault : Type :=
  | TypeError
  | MongooseError.

(** How a handler ends: [res.status(c); throw new Error(m)], an error
    that comes up from below, or [res.json(payload)]. *)
Inductive Outcome (A : Type) : Type :=
  | Threw (status : Z) (m : Message)
  | Raised (e : Fault)
  | Sent (payload : A).
Arguments Threw {A} status m.
Arguments Raised {A} e.
Arguments Sent {A} payload.

Definition M (A : Type) : Type := Store -> Outcome A * Store.

Definition ret {A} (x : A) : M A := fun st => (Sent x, st).

Definition bind {A B} (m : M A) (k : A -> M B) : M B :=
  fun st =>
    match m st with
    | (Sent x, st') => k x st'
    | (Threw c e, st') => (Threw c e, st')
    | (Raised e, st') => (Raised e, st')
    end.

Definition throw {A} (status : Z) (m : Message) : M A :=
  fun st => (Threw status m, st).

Definition raise {A} (e : Fault) : M A :=
  fun st => (Raised e, st).

Declare Scope handler_scope.
Delimit Scope handler_scope with handler.
Notation "'let!' x ':=' m 'in' k" := (bind m (fun x => k))
  (at level 10, x pattern, m at level 100, k at level 200) : handler_scope.
Notation "m ';;;' k" := (bind m (fun _ => k))
  (at level 100, k at level 200, right associativity) : handler_scope.

(** [Assessment.findById(id)]: the document, or null. *)
Definition findById (id : Id) : M (option Assessment.t) :=
  fun st => (Sent (st !! id), st).

(** [assessment.save()] of the document loaded under [id]: it replaces
    the stored one. *)
Definition save (id : Id) (a : Assessment.t) : M unit :=
  fun st => (Sent tt, <[id := a]> st).

(** [Assessment.findByIdAndUpdate(id, body, { new: true })]: the stored
    document as the body leaves it, or null when there is none. *)
Definition findByIdAndUpdate (id : Id) (u : Update.t) : M (option Assessment.t) :=
  fun st =>
    match st !! id with
    | Some a =>
        match Update.apply u a with
        | Some a' => (Sent (Some a'), <[id := a']> st)
        | None => (Raised MongooseError, st)
        end
    | None => (Sent None, st)
    end.

(** [populate(path)] of a reference: the user document, or null when
    the users collection has none under the id. [users] holds the ids of
    the users there are. *)
Definition populated (users : gset Id) (ref : Id) : option Id :=
  if bool_decide (ref ∈ users) then Some ref else None.

(** [a.toString() === b.toString()] on ids. *)
Definition sameId (a b : Id) : bool := String.eqb a b.

(** The taxonomy of failures, as the controller signals them. *)
Definition ValidationError (e : Joi.ValidationError) : Z * Message :=
  (400, Details e).
Definition AssessmentNotFound : Z * Message := (404, Text "Assessment not found").
Definition SubmissionNotFound : Z * Message := (404, Text "Submission not found").
Definition NotPublished : Z * Message := (400, Text "Assessment is not published").
Definition DuplicateSubmission : Z * Message :=
  (400, Text "Assessment already submitted").
Definition SubmissionClosed : Z * Message :=
  (400, Text "Submission deadline has passed").
Definition ViewForbidden : Z * Message := (403, Text "Assessment not published").
Definition UpdateForbidden : Z * Message :=
  (403, Text "Not authorized to update this assessment").
Definition GradeForbidden : Z * Message :=
  (403, Text "Not authorized to grade this assessment").

Definition fail {A} (e : Z * Message) : M A := throw (fst e) (snd e).

(** The outcome of a handler that failed with [e]. *)
Definition threw {A} (e : Z * Message) : Outcome A := Threw (fst e) (snd e).

Local Open Scope handler_scope.

(** *** getAssessmentById *)

(** The callback of the filter, [submission.student._id.toString() ===
    req.user._id.toString()], over the populated submissions: the ones
    kept, or nothing when a populated student is null and reading its
    [_id] throws. *)
Fixpoint filterOwn (users : gset Id) (uid : Id) (l : list Submission.t)
  : option (list Submission.t) :=
  match l with
  | [] => Some []
  | submission :: l' =>
      match populated users (Submission.student submission) with
      | None => None
      | Some student =>
          match filterOwn users uid l' with
          | None => None
          | Some kept =>
              Some (if sameId student uid then submission :: kept else kept)
          end
      end
  end.

(** The document is sent with the ids of the users it refers to, where
    the handler sends what [populate] has put in their place. *)
Definition getAssessmentById (users : gset Id) (user : User.t) (id : Id)
  : M Assessment.t :=
  let! found := findById id in
  match found with
  | None => fail AssessmentNotFound
  | Some assessment =>
      match populated users (Assessment.instructor assessment) with
      | None => raise TypeError
      | Some instructor =>
          let isInstructor := sameId instructor (User._id user) in
          let isAdmin := User.isAdmin user in
          if negb isInstructor && negb isAdmin
             && negb (Assessment.isPublished assessment)
          then fail ViewForbidden
          else
            (* For students, only show their own submissions *)
            if negb isInstructor && negb isAdmin
            then
              match filterOwn users (User._id user)
                      (Assessment.submissions assessment)
              with
              | None => raise TypeError
              | Some own =>
                  ret (Assessment.with_submissions own assessment)
              end
            else ret assessment
      end
  end.

(** *** updateAssessment *)

Definition updateAssessment (user : User.t) (id : Id) (body : Update.t)
  : M (option Assessment.t) :=
  let! found := findById id in
  match found with
  | None => fail AssessmentNotFound
  | Some assessment =>
      (* Check ownership *)
      if negb (sameId (Assessment.instructor assessment) (User._id user))
         && negb (User.isAdmin user)
      then fail UpdateForbidden
      else findByIdAndUpdate id body
  end.

(** *** submitAssessment *)

(** [uri] is the test behind [Joi.string().uri()]. *)
Definition submitSchema (uri : string -> bool) : Joi.Schema :=
  Joi.object_
    [("content",
      (Joi.object_
         [("text", (Joi.string_ None, false));
          ("fileUrl", (Joi.string_ None, false));
          ("fileName", (Joi.string_ None, false));
          ("githubUrl", (Joi.string_ (Some uri), false));
          ("websiteUrl", (Joi.string_ (Some uri), false))],
       true))].

(** The plain object the handler builds, pushes and echoes back. *)
Record NewSubmission : Type := mkNew
  { new_student : Id;
    new_content : JSON;
    new_isLate : bool;
    new_submittedAt : Time }.

(** The subdocument Mongoose makes of a pushed object, with the [_id] it
    draws for it and the schema default of [status]. *)
Definition subdocOf (oid : Id) (n : NewSubmission) : Submission.t :=
  {| Submission._id := oid;
     Submission.student := new_student n;
     Submission.content := new_content n;
     Submission.isLate := new_isLate n;
     Submission.submittedAt := new_submittedAt n;
     Submission.status := submitted;
     Submission.grade := None |}.

(** [submissions.push(submission)]. *)
Definition push (oid : Id) (n : NewSubmission) (l : list Submission.t)
  : list Submission.t :=
  l ++ [subdocOf oid n].

(** [now] is the [new Date()] of the call and [oid] the id Mongoose draws
    for the pushed subdocument. *)
Definition submitAssessment (uri : string -> bool) (user : User.t) (id : Id)
    (body : JSON) (now : Time) (oid : Id) : M (string * NewSubmission) :=
  match Joi.validate (submitSchema uri) body with
  | Some error => fail (ValidationError error)
  | None =>
      let! found := findById id in
      match found with
      | None => fail AssessmentNotFound
      | Some assessment =>
          if negb (Assessment.isPublished assessment) then fail NotPublished
          else
            (* Check if already submitted *)
            match List.find
                    (fun submission =>
                       sameId (Submission.student submission) (User._id user))
                    (Assessment.submissions assessment)
            with
            | Some existingSubmission => fail DuplicateSubmission
            | None =>
                (* Check if past due date *)
                let isLate := (now >? Assessment.dueDate assessment)%Z in
                if isLate && negb (Assessment.allowLateSubmission assessment)
                then fail SubmissionClosed
                else
                  let submission :=
                    {| new_student := User._id user;
                       new_content := default JNull (field "content" body);
                       new_isLate := isLate;
                       new_submittedAt := now |} in
                  save id (Assessment.with_submissions
                          (push oid submission (Assessment.submissions assessment))
                          assessment);;;
                  ret ("Assessment submitted successfully", submission)
            end
      end
  end.

(** *** gradeSubmission *)

Definition gradeSchema : Joi.Schema :=
  Joi.object_
    [("points", (Joi.number_ (Some 0%Q), true));
     ("feedback", (Joi.string_ None, false))].

(** [req.body.points], a number once the body has passed [gradeSchema]. *)
Definition pointsOf (body : JSON) : Q :=
  match field "points" body with
  | Some (JNum q) => q
  | _ => 0%Q
  end.

(** [req.body.feedback], a text or undefined. *)
Definition feedbackOf (body : JSON) : option string :=
  match field "feedback" body with
  | Some (JStr s) => Some s
  | _ => None
  end.

Definition Qgt_bool (a b : Q) : bool := negb (Qle_bool a b).

(** [Math.ceil((submittedAt - dueDate) / (1000 * 60 * 60 * 24))], and
    below it the penalty and the points, in exact arithmetic: what the
    handler is given to compute with. [Double], further down, has the
    same three lines in the doubles of the program. *)
Definition daysLate (assessment : Assessment.t) (submission : Submission.t) : Z :=
  Qceiling
    (inject_Z (Submission.submittedAt submission - Assessment.dueDate assessment)
     / inject_Z msPerDay).

(** [(latePenalty / 100) * daysLate]. *)
Definition penalty (assessment : Assessment.t) (submission : Submission.t) : Q :=
  (Assessment.latePenalty assessment / 100) * inject_Z (daysLate assessment submission).

(** Apply late penalty if applicable: the value of [finalPoints] after
    the conditional, for [points] the entered value. *)
Definition finalPoints (assessment : Assessment.t) (submission : Submission.t)
    (points : Q) : Q :=
  if Submission.isLate submission
     && Qgt_bool (Assessment.latePenalty assessment) 0
  then Qmax 0 (points * (1 - penalty assessment submission))
  else points.

(** [submissions.id(submissionId)]: the first subdocument with that id. *)
Definition subdoc (sid : Id) (l : list Submission.t) : option Submission.t :=
  List.find (fun s => sameId (Submission._id s) sid) l.

(** The array after the subdocument found by [subdoc] has been assigned
    to in place. *)
Fixpoint assign (sid : Id) (s' : Submission.t) (l : list Submission.t)
  : list Submission.t :=
  match l with
  | [] => []
  | s :: l' =>
      if sameId (Submission._id s) sid then s' :: l'
      else s :: assign sid s' l'
  end.

Definition gradeSubmission (user : User.t) (id submissionId : Id) (body : JSON)
    (now : Time) : M (string * Submission.t) :=
  match Joi.validate gradeSchema body with
  | Some error => fail (ValidationError error)
  | None =>
      let! found := findById id in
      match found with
      | None => fail AssessmentNotFound
      | Some assessment =>
          (* Check ownership *)
          if negb (sameId (Assessment.instructor assessment) (User._id user))
             && negb (User.isAdmin user)
          then fail GradeForbidden
          else
            match subdoc submissionId (Assessment.submissions assessment) with
            | None => fail SubmissionNotFound
            | Some submission =>
                let graded :=
                  Submission.graded_with
                    {| Grade.points :=
                         finalPoints assessment submission (pointsOf body);
                       Grade.feedback := feedbackOf body;
                       Grade.gradedAt := now;
                       Grade.gradedBy := User._id user |}
                    submission in
                save id (Assessment.with_submissions
                        (assign submissionId graded
                                (Assessment.submissions assessment))
                        assessment);;;
                ret ("Submission graded successfully", graded)
            end
      end
  end.

(** *** The late penalty in binary64 *)

(** The arithmetic of gradeSubmission as the program computes it. A
    double is a [spec_float] of precision 53; [mul], [sub] and [div] are
    the correctly rounded operations of IEEE 754, to nearest and ties to
    even. *)
Module Double.

Definition t : Type := SpecFloat.spec_float.

Definition prec : Z := 53.
Definition emax : Z := 1024.

(** The double nearest to an integer. *)
Definition ofZ (z : Z) : t := SpecFloat.binary_normalize prec emax z 0 false.

Definition mul : t -> t -> t := SpecFloat.SFmul prec emax.
Definition sub : t -> t -> t := SpecFloat.SFsub prec emax.
Definition div : t -> t -> t := SpecFloat.SFdiv prec emax.

(** [x > y]; false when one of them is NaN. *)
Definition gt (x y : t) : bool := SpecFloat.SFltb y x.

(** [Math.ceil(x)]: a double with exponent from 0 up is an integer; below
    that the mantissa is cut at the binary point, and what is cut off
    counts upwards. Between -1 and 0 the result is -0. *)
Definition ceil (x : t) : t :=
  match x with
  | SpecFloat.S754_finite negative m e =>
      if (0 <=? e)%Z then x
      else
        let unit := 2 ^ (- e) in
        let whole := Z.pos m / unit in
        let rest := Z.pos m mod unit in
        if negative
        then if (whole =? 0)%Z then SpecFloat.S754_zero true else ofZ (- whole)
        else ofZ (if (rest =? 0)%Z then whole else whole + 1)
  | _ => x
  end.

(** [Math.max(0, x)]: NaN for NaN, and +0 where [x] is -0. *)
Definition max0 (x : t) : t :=
  match x with
  | SpecFloat.S754_nan => SpecFloat.S754_nan
  | _ => if gt x (ofZ 0) then x else ofZ 0
  end.

(** [Math.ceil((submittedAt - dueDate) / (1000 * 60 * 60 * 24))]. The
    time value of a [Date] is an integer of at most 8.64e15 in magnitude,
    which a double holds exactly; their difference is the double nearest
    to the difference of the integers. *)
Definition daysLate (submittedAt dueDate : Time) : t :=
  ceil (div (ofZ (submittedAt - dueDate)) (ofZ msPerDay)).

(** [(latePenalty / 100) * daysLate]. *)
Definition penalty (latePenalty : t) (submittedAt dueDate : Time) : t :=
  mul (div latePenalty (ofZ 100)) (daysLate submittedAt dueDate).

(** Apply late penalty if applicable: the value of [finalPoints] after
    the conditional, for [points] the entered value. *)
Definition finalPoints (isLate : bool) (latePenalty : t)
    (submittedAt dueDate : Time) (points : t) : t :=
  if isLate && gt latePenalty (ofZ 0)
  then max0 (mul points (sub (ofZ 1) (penalty latePenalty submittedAt dueDate)))
  else points.

(** Neither an infinity nor NaN. *)
Definition finite (x : t) : bool :=
  match x with
  | SpecFloat.S754_zero _ | SpecFloat.S754_finite _ _ _ => true
  | _ => false
  end.

(** What every double satisfies: the mantissa fits [prec] bits and the
    exponent is one of the format, from -1074 to 971. *)
Definition inFormat (x : t) : bool :=
  match x with
  | SpecFloat.S754_finite _ m e =>
      (Z.pos m <? 2 ^ prec)%Z && (3 - emax - prec <=? e)%Z
      && (e <=? emax - prec)%Z
  | _ => true
  end.

(** The number a finite double stands for. *)
Definition toQ (x : t) : Q :=
  match x with
  | SpecFloat.S754_finite negative m e =>
      let q := (inject_Z (Z.pos m) * 2 ^ e)%Q in
      if negative then (- q)%Q else q
  | _ => 0%Q
  end.

(** [x] is the double that holds the number [q]. *)
Definition represents (x : t) (q : Q) : Prop :=
  finite x = true /\ inFormat x = true /\ (toQ x == q)%Q.

(** Zero, an infinity or a finite double of sign [s]. *)
Definition signed (s : bool) (x : t) : Prop :=
  x = SpecFloat.S754_zero s \/ x = SpecFloat.S754_infinity s
  \/ exists m e, x = SpecFloat.S754_finite s m e.

End Double.

(** *** deleteAssessment *)

Definition DeleteForbidden : Z * Message :=
  (403, Text "Not authorized to delete this assessment").

(** [assessment.deleteOne()] of the document loaded under [id]. *)
Definition deleteOne (id : Id) : M unit :=
  fun st => (Sent tt, delete id st).

Definition deleteAssessment (user : User.t) (id : Id) : M string :=
  let! found := findById id in
  match found with
  | None => fail AssessmentNotFound
  | Some assessment =>
      (* Check ownership *)
      if negb (sameId (Assessment.instructor assessment) (User._id user))
         && negb (User.isAdmin user)
      then fail DeleteForbidden
      else deleteOne id;;; ret "Assessment removed"
  end.

(** *** Paging *)

(** [parseInt(text) || fallback]. A query parameter enters as what
    [parseInt] makes of it: an integer, or NaN ([None]), which is also
    what a parameter that is not there gives. Zero and NaN are falsy.
    The integer is exact up to [maxSafeInteger]; the infinity that
    [parseInt] returns for a numeral of more than 308 digits has no value
    here, and what depends on the size of a page or of a limit is stated
    for safe integers. *)
Definition orDefault (parsed : option Z) (fallback : Z) : Z :=
  match parsed with
  | Some n => if (n =? 0)%Z then fallback else n
  | None => fallback
  end.

(** [Math.ceil(total / limit)], for a [limit] that is not zero. *)
Definition ceilOf (total limit : Z) : Z :=
  Qceiling (inject_Z total / inject_Z limit).

(** An index of [Array.prototype.slice] brought into range: a negative
    one counts from the end. *)
Definition relative (i len : Z) : Z :=
  if (i <? 0)%Z then Z.max (len + i) 0 else Z.min i len.

(** [array.slice(start, end)]. *)
Definition slice {A} (start end_ : Z) (l : list A) : list A :=
  let len := Z.of_nat (length l) in
  let k := relative start len in
  let final := relative end_ len in
  take (Z.to_nat (final - k)) (drop (Z.to_nat k) l).

(** One step of the sort: [x], which came before everything in [l],
    goes in front of the first submission that is not later than it. *)
Fixpoint insertDesc (x : Submission.t) (l : list Submission.t)
  : list Submission.t :=
  match l with
  | [] => [x]
  | y :: l' =>
      if (Submission.submittedAt y >? Submission.submittedAt x)%Z
      then y :: insertDesc x l'
      else x :: y :: l'
  end.

(** [submissions.sort((a, b) => b.submittedAt - a.submittedAt)]: latest
    first, submissions of the same instant in the order they had. *)
Fixpoint sortDesc (l : list Submission.t) : list Submission.t :=
  match l with
  | [] => []
  | x :: l' => insertDesc x (sortDesc l')
  end.

(** *** getAssessmentSubmissions *)

Definition SubmissionsForbidden : Z * Message :=
  (403, Text "Not authorized to view submissions").

Module Page.
Record t : Type := mk
  { submissions : list Submission.t; page : Z; pages : Z; total : Z }.
End Page.

(** [qpage] and [qlimit] are [parseInt(req.query.page)] and
    [parseInt(req.query.limit)]. The sort is done on the loaded document,
    which is not saved. *)
Definition getAssessmentSubmissions (user : User.t) (id : Id)
    (qpage qlimit : option Z) : M Page.t :=
  let page := orDefault qpage 1 in
  let limit := orDefault qlimit 10 in
  let skip := (page - 1) * limit in
  let! found := findById id in
  match found with
  | None => fail AssessmentNotFound
  | Some assessment =>
      (* Check ownership *)
      if negb (sameId (Assessment.instructor assessment) (User._id user))
         && negb (User.isAdmin user)
      then fail SubmissionsForbidden
      else
        let submissions :=
          slice skip (skip + limit)
            (sortDesc (Assessment.submissions assessment)) in
        let total := Z.of_nat (length (Assessment.submissions assessment)) in
        ret {| Page.submissions := submissions;
               Page.page := page;
               Page.pages := ceilOf total limit;
               Page.total := total |}
  end.

(** *** getAssessments *)

(** The query document the handler builds: a path that is set has to
    equal the value it is set to. *)
Module Filter.
Record t : Type := mk
  { course : option Id; isPublished : option bool; instructor : option Id }.

Definition matches (f : t) (a : Assessment.t) : bool :=
  match course f with
  | Some c => sameId (Assessment.course a) c
  | None => true
  end
  && match isPublished f with
     | Some b => Bool.eqb (Assessment.isPublished a) b
     | None => true
     end
  && match instructor f with
     | Some i => sameId (Assessment.instructor a) i
     | None => true
     end.
End Filter.

(** [filter] as it stands after the three conditionals; [courseId] is
    [req.query.courseId], a text or undefined, and the empty text is
    falsy. Ids that come with a request are taken to be well formed, here
    as in the other handlers: Mongoose throws on one that is not before
    any document is looked at. *)
Definition listFilter (user : User.t) (courseId : option string) : Filter.t :=
  {| Filter.course :=
       match courseId with
       | Some c => if String.eqb c "" then None else Some c
       | None => None
       end;
     (* For students, only show published assessments *)
     Filter.isPublished :=
       if negb (User.isInstructor user) && negb (User.isAdmin user)
       then Some true else None;
     (* For instructors, show only their assessments *)
     Filter.instructor :=
       if User.isInstructor user && negb (User.isAdmin user)
       then Some (User._id user) else None |}.

(** The stored documents a filter selects, with their ids. *)
Definition selected (f : Filter.t) (st : Store) : list (Id * Assessment.t) :=
  List.filter (fun d => Filter.matches f (snd d)) (map_to_list st).

(** [Assessment.countDocuments(filter)]. *)
Definition countDocuments (f : Filter.t) : M Z :=
  fun st => (Sent (Z.of_nat (length (selected f st))), st).

Module Listing.
Record t : Type := mk
  { assessments : list Assessment.t;
    page : Z;
    pages : Z;
    total : Z;
    hasNextPage : bool;
    hasPrevPage : bool }.
End Listing.

Section Listing.

(** [Assessment.find(filter).sort({ dueDate: 1 }).skip(skip).limit(limit)
    .select('-submissions')]: the page of documents the database returns
    for a filter, a skip and a limit. How it orders assessments due at
    the same instant and what it makes of a negative skip or limit is the
    database's. *)
Variable find : Filter.t -> Z -> Z -> Store -> list Assessment.t.

(** [qpage] and [qlimit] are [parseInt(req.query.page)] and
    [parseInt(req.query.limit)]; [req.query.status] is read and not
    used. *)
Definition getAssessments (user : User.t) (qpage qlimit : option Z)
    (courseId status : option string) : M Listing.t :=
  let page := orDefault qpage 1 in
  let limit := orDefault qlimit 10 in
  let skip := (page - 1) * limit in
  let filter := listFilter user courseId in
  let! assessments := (fun st => (Sent (find filter skip limit st), st)) in
  let! total := countDocuments filter in
  ret {| Listing.assessments := assessments;
         Listing.page := page;
         Listing.pages := ceilOf total limit;
         Listing.total := total;
         Listing.hasNextPage := (page <? ceilOf total limit)%Z;
         Listing.hasPrevPage := (page >? 1)%Z |}.

End Listing.

(** A database for [getAssessments]: the selected documents in the order
    of their due dates, [skip] of them passed over and at most [limit]
    returned, each without its submissions. *)
Fixpoint insertDue (x : Assessment.t) (l : list Assessment.t)
  : list Assessment.t :=
  match l with
  | [] => [x]
  | y :: l' =>
      if (Assessment.dueDate x <? Assessment.dueDate y)%Z
      then x :: y :: l'
      else y :: insertDue x l'
  end.

Definition byDueDate (l : list Assessment.t) : list Assessment.t :=
  fold_right insertDue [] l.

Definition findPage (f : Filter.t) (skip limit : Z) (st : Store)
  : list Assessment.t :=
  map (Assessment.with_submissions [])
    (take (Z.to_nat limit)
       (drop (Z.to_nat skip) (byDueDate (map snd (selected f st))))).

(** ** Worked requests *)

Module Demo.

Definition owner : User.t := User.mk "u-owner" true false.
Definition colleague : User.t := User.mk "u-colleague" true false.
Definition admin : User.t := User.mk "u-admin" false true.
Definition ana : User.t := User.mk "u-ana" false false.
Definition ben : User.t := User.mk "u-ben" false false.

(** 2024-01-10T00:00:00Z. *)
Definition due : Time := 1704844800000.

Definition mkEssay (published allowLate : bool) : Assessment.t :=
  {| Assessment.title := "Essay 1";
     Assessment.description := "d"; Assessment.instructions := "i";
     Assessment.course := "c1"; Assessment.instructor := "u-owner";
     Assessment.type := essay; Assessment.maxPoints := 100;
     Assessment.dueDate := due; Assessment.allowLateSubmission := allowLate;
     Assessment.latePenalty := 20; Assessment.submissionType := text;
     Assessment.allowedFileTypes := []; Assessment.maxFileSize := None;
     Assessment.rubric := []; Assessment.isPublished := published;
     Assessment.submissions := [] |}.

(** Published, late submissions allowed at 20% a day. *)
Definition essay1 : Assessment.t := mkEssay true true.

Definition store1 : Store := {[ "a1" := essay1 ]}.

(** The same assessment before it is published, and published with
    late submissions closed. *)
Definition draftStore : Store := {[ "a1" := mkEssay false true ]}.
Definition strictStore : Store := {[ "a1" := mkEssay true false ]}.

Definition answer : JSON := JObj [("content", JObj [("text", JStr "my essay")])].
Definition marks (q : Q) : JSON := JObj [("points", JNum q)].

(** The users there are. *)
Definition users : gset Id :=
  {[ "u-owner"; "u-colleague"; "u-admin"; "u-ana"; "u-ben" ]}.

(** No worked body carries a [githubUrl] or a [websiteUrl], so that the
    uri test is never asked; it is taken to refuse every text. *)
Definition uri (t : string) : bool := false.

(** The store after [who] has submitted [answer] at [at_], or the store
    as it was when the request failed. *)
Definition after_submit (who : User.t) (at_ : Time) (oid : Id) (st : Store)
  : Store :=
  snd (submitAssessment uri who "a1" answer at_ oid st).

(** Ana hands in two days after the due date, 2024-01-12. *)
Definition lateStore : Store := after_submit ana (due + 2 * msPerDay) "s1" store1.

(** Ana hands in one second after the due date. *)
Definition secondLateStore : Store := after_submit ana (due + 1000) "s1" store1.

(** Ana hands in six days after the due date. *)
Definition veryLateStore : Store :=
  after_submit ana (due + 6 * msPerDay) "s1" store1.

(** Ben hands in the day before, 2024-01-09. *)
Definition onTimeStore : Store := after_submit ben (due - msPerDay) "s2" store1.

(** Both of them have handed in. *)
Definition bothStore : Store := after_submit ben (due - msPerDay) "s2" lateStore.

(** Grading happens on 2024-01-20. *)
Definition gradingDay : Time := due + 10 * msPerDay.

(** What Ana handed in at [at_], as stored. *)
Definition anaSubmission (at_ : Time) (late : bool) : Submission.t :=
  {| Submission._id := "s1"; Submission.student := "u-ana";
     Submission.content := JObj [("text", JStr "my essay")];
     Submission.isLate := late; Submission.submittedAt := at_;
     Submission.status := submitted; Submission.grade := None |}.

Definition twoDaysLate : Submission.t :=
  anaSubmission (due + 2 * msPerDay) true.

Definition sixDaysLate : Submission.t :=
  anaSubmission (due + 6 * msPerDay) true.

(** [essay1] as stored once [l] has been handed in. *)
Definition essay1_with (l : list Submission.t) : Assessment.t :=
  Assessment.with_submissions l essay1.

(** Update bodies: a new title; a new course and instructor; a due date
    ten days later. *)
Definition retitle : Update.t :=
  Update.paths
    (Update.mk (Some "Essay 1, revised") None None None None None None None
               None None None None None None None None).

Definition handOver : Update.t :=
  Update.paths
    (Update.mk None None None (Some "c2") (Some "u-colleague") None None None
               None None None None None None None None).

Definition extend : Update.t :=
  Update.paths
    (Update.mk None None None None None None None (Some (due + 10 * msPerDay))
               None None None None None None None None).

(** A second submission under Ana's name, and the body that pushes it. *)
Definition anaAgain : Submission.t :=
  {| Submission._id := "s9"; Submission.student := "u-ana";
     Submission.content := JObj [("text", JStr "my essay, again")];
     Submission.isLate := false; Submission.submittedAt := due + 3 * msPerDay;
     Submission.status := submitted; Submission.grade := None |}.

Definition pushAgain : Update.t := Update.push anaAgain.

(** A late penalty of 1e-15 percent a day, and one of a third of a
    hundred, as doubles. *)
Definition tiny : Double.t := Double.div (Double.ofZ 1) (Double.ofZ (10 ^ 15)).
Definition third : Double.t := Double.div (Double.ofZ 100) (Double.ofZ 3).

Definition benSubmission : Submission.t :=
  {| Submission._id := "s2"; Submission.student := "u-ben";
     Submission.content := JObj [("text", JStr "my essay")];
     Submission.isLate := false; Submission.submittedAt := due - msPerDay;
     Submission.status := submitted; Submission.grade := None |}.

End Demo.

(** ** Runs of the lifecycle *)

(** The requests that add to or grade the submissions of an assessment. *)
Inductive Request : Type :=
  | Submit (user : User.t) (id : Id) (body : JSON) (now : Time) (oid : Id)
  | GradeIt (user : User.t) (id submissionId : Id) (body : JSON) (now : Time).

(** The collection after a request has been served. *)
Definition serve (uri : string -> bool) (st : Store) (r : Request) : Store :=
  match r with
  | Submit user id body now oid =>
      snd (submitAssessment uri user id body now oid st)
  | GradeIt user id sid body now => snd (gradeSubmission user id sid body now st)
  end.

Definition run (uri : string -> bool) (rs : list Request) (st : Store) : Store :=
  fold_left (serve uri) rs st.

(** ** Predicates of the properties *)

(** The owning instructor or an admin: the test every handler makes
    before it lets a principal manage an assessment. *)
Definition manages (user : User.t) (a : Assessment.t) : bool :=
  sameId (Assessment.instructor a) (User._id user) || User.isAdmin user.

(** The submissions of one student. *)
Definition own (uid : Id) (l : list Submission.t) : list Submission.t :=
  List.filter (fun s => sameId (Submission.student s) uid) l.

(** The ids of the students who have submitted, in arrival order. *)
Definition students (a : Assessment.t) : list Id :=
  map Submission.student (Assessment.submissions a).

(** At most one submission per student, in every stored assessment. *)
Definition onePerStudent (st : Store) : Prop :=
  forall id a, st !! id = Some a -> NoDup (students a).

(** A submission flagged late was handed in after the due date the
    assessment has now. *)
Definition lateAfterDue (a : Assessment.t) (s : Submission.t) : Prop :=
  Submission.isLate s = true ->
  Assessment.dueDate a < Submission.submittedAt s.

(** Every path of the assessment but its submissions is in [a'] what it
    is in [a]. *)
Definition keeps (a a' : Assessment.t) : Prop :=
  Assessment.title a' = Assessment.title a
  /\ Assessment.description a' = Assessment.description a
  /\ Assessment.instructions a' = Assessment.instructions a
  /\ Assessment.course a' = Assessment.course a
  /\ Assessment.instructor a' = Assessment.instructor a
  /\ Assessment.type a' = Assessment.type a
  /\ Assessment.maxPoints a' = Assessment.maxPoints a
  /\ Assessment.dueDate a' = Assessment.dueDate a
  /\ Assessment.allowLateSubmission a' = Assessment.allowLateSubmission a
  /\ Assessment.latePenalty a' = Assessment.latePenalty a
  /\ Assessment.submissionType a' = Assessment.submissionType a
  /\ Assessment.allowedFileTypes a' = Assessment.allowedFileTypes a
  /\ Assessment.maxFileSize a' = Assessment.maxFileSize a
  /\ Assessment.rubric a' = Assessment.rubric a
  /\ Assessment.isPublished a' = Assessment.isPublished a.

(** [a'] is [b] in every path but the course and the instructor, which
    are those of [a]. *)
Definition rewrites (a b a' : Assessment.t) : Prop :=
  Assessment.course a' = Assessment.course a
  /\ Assessment.instructor a' = Assessment.instructor a
  /\ Assessment.title a' = Assessment.title b
  /\ Assessment.description a' = Assessment.description b
  /\ Assessment.instructions a' = Assessment.instructions b
  /\ Assessment.type a' = Assessment.type b
  /\ Assessment.maxPoints a' = Assessment.maxPoints b
  /\ Assessment.dueDate a' = Assessment.dueDate b
  /\ Assessment.allowLateSubmission a' = Assessment.allowLateSubmission b
  /\ Assessment.latePenalty a' = Assessment.latePenalty b
  /\ Assessment.submissionType a' = Assessment.submissionType b
  /\ Assessment.allowedFileTypes a' = Assessment.allowedFileTypes b
  /\ Assessment.maxFileSize a' = Assessment.maxFileSize b
  /\ Assessment.rubric a' = Assessment.rubric b
  /\ Assessment.isPublished a' = Assessment.isPublished b
  /\ Assessment.submissions a' = Assessment.submissions b.

(** The users a get-by-id reads a property of are there: the
    instructor of the assessment, and for a principal who does not manage
    it the student of every submission. *)
Definition resolved (users : gset Id) (user : User.t) (a : Assessment.t)
  : Prop :=
  Assessment.instructor a ∈ users
  /\ (manages user a = false ->
      forall s, In s (Assessment.submissions a) -> Submission.student s ∈ users).

(** What the validation layer is to accept of a submit body, key by key:
    a body with a [content] object and nothing else, whose keys are among
    the recognised ones, each present one a non-empty text, and one that
    passes Joi's uri test when it is [githubUrl] or [websiteUrl]. *)
Definition okText (v : JSON) : Prop :=
  exists t, v = JStr t /\ t <> "".

Definition okUrl (uri : string -> bool) (v : JSON) : Prop :=
  exists t, v = JStr t /\ t <> "" /\ uri t = true.

Definition contentOk (uri : string -> bool) (c : JSON) : Prop :=
  exists entries,
    c = JObj entries
    /\ (forall k v, In (k, v) entries ->
        In k ["text"; "fileUrl"; "fileName"; "githubUrl"; "websiteUrl"])
    /\ (forall k v, In k ["text"; "fileUrl"; "fileName"] ->
        assoc k entries = Some v -> okText v)
    /\ (forall k v, In k ["githubUrl"; "websiteUrl"] ->
        assoc k entries = Some v -> okUrl uri v).

Definition submitBodyOk (uri : string -> bool) (body : JSON) : Prop :=
  exists top c,
    body = JObj top
    /\ (forall k v, In (k, v) top -> k = "content")
    /\ assoc "content" top = Some c
    /\ contentOk uri c.

(** The object submitAssessment builds for [user] at [now]. *)
Definition newSubmission (user : User.t) (body : JSON) (now : Time)
    (late : bool) : NewSubmission :=
  {| new_student := User._id user;
     new_content := default JNull (field "content" body);
     new_isLate := late;
     new_submittedAt := now |}.

(** The grade block a successful gradeSubmission writes. *)
Definition gradeOf (user : User.t) (a : Assessment.t) (s : Submission.t)
    (body : JSON) (now : Time) : Grade.t :=
  {| Grade.points := finalPoints a s (pointsOf body);
     Grade.feedback := feedbackOf body;
     Grade.gradedAt := now;
     Grade.gradedBy := User._id user |}.

(** The body [{ points: q }], with [feedback] when there is one. *)
Definition gradeBody (q : Q) (feedback : option string) : JSON :=
  JObj (("points", JNum q)
        :: match feedback with
           | Some t => [("feedback", JStr t)]
           | None => []
           end).

(** What gradeSubmission accepts of a body: an object with a number of
    points from zero up to the largest safe integer, a feedback that is a
    non-empty text when it is there, and no other key. *)
Definition gradeBodyOk (body : JSON) : Prop :=
  exists entries,
    body = JObj entries
    /\ (forall k v, In (k, v) entries -> k = "points" \/ k = "feedback")
    /\ (exists q, assoc "points" entries = Some (JNum q)
                  /\ (0 <= q)%Q /\ (q <= Joi.maxSafe)%Q)
    /\ (forall v, assoc "feedback" entries = Some v -> okText v).

(** The points of a body are not a text. *)
Definition pointsNotText (body : JSON) : Prop :=
  forall t, field "points" body <> Some (JStr t).

(** The order getAssessmentSubmissions lists in: [x] may come before
    [y] when it was not handed in earlier. *)
Definition laterFirst (x y : Submission.t) : Prop :=
  Submission.submittedAt y <= Submission.submittedAt x.

(** The submissions on page [p] of an assessment, for a principal who is
    sent them. *)
Definition pageOf (user : User.t) (id : Id) (p : Z) (qlimit : option Z)
    (st : Store) : list Submission.t :=
  match fst (getAssessmentSubmissions user id (Some p) qlimit st) with
  | Sent answer => Page.submissions answer
  | _ => []
  end.

(** What getAssessments lets a principal be listed: the assessments of
    the course asked for, when one is; published ones only for a principal
    who is neither instructor nor admin; their own only for an instructor
    who is not an admin. *)
Definition listed (user : User.t) (courseId : option string)
    (a : Assessment.t) : Prop :=
  (forall c, courseId = Some c -> c <> "" -> Assessment.course a = c)
  /\ (User.isInstructor user = false -> User.isAdmin user = false ->
      Assessment.isPublished a = true)
  /\ (User.isInstructor user = true -> User.isAdmin user = false ->
      Assessment.instructor a = User._id user).

(** What was handed in with a submission: everything but its grade and
    status. *)
Definition handedIn (s : Submission.t)
  : Id * Id * JSON * bool * Time :=
  (Submission._id s, Submission.student s, Submission.content s,
   Submission.isLate s, Submission.submittedAt s).

(** What has been handed in for an assessment, in arrival order. *)
Definition handIns (a : Assessment.t) : list (Id * Id * JSON * bool * Time) :=
  map handedIn (Assessment.submissions a).

(** ** More worked requests *)

Module Tour.

(** The essay once Ana, late, and Ben, on time, have handed in. *)
Definition bothEssay : Assessment.t :=
  Demo.essay1_with [Demo.twoDaysLate; Demo.benSubmission].

(** Ana's submission as the owner's 90 leaves it. *)
Definition gradedAna : Submission.t :=
  Submission.graded_with
    (gradeOf Demo.owner bothEssay Demo.twoDaysLate (Demo.marks 90)
       Demo.gradingDay)
    Demo.twoDaysLate.

(** Page 2 of that essay's submissions, one a page: Ben's, the earlier. *)
Definition secondPage : Page.t := Page.mk [Demo.benSubmission] 2 2 2.

(** A second assessment, the colleague's, for another course, due a
    month later and not published. *)
Definition project2 : Assessment.t :=
  {| Assessment.title := "Project 2";
     Assessment.description := "d"; Assessment.instructions := "i";
     Assessment.course := "c2"; Assessment.instructor := "u-colleague";
     Assessment.type := project; Assessment.maxPoints := 100;
     Assessment.dueDate := Demo.due + 30 * msPerDay;
     Assessment.allowLateSubmission := true;
     Assessment.latePenalty := 20; Assessment.submissionType := text;
     Assessment.allowedFileTypes := []; Assessment.maxFileSize := None;
     Assessment.rubric := []; Assessment.isPublished := false;
     Assessment.submissions := [] |}.

(** The collection with the essay both have handed in and that
    project. *)
Definition catalog : Store := <["a2" := project2]> Demo.bothStore.

(** The essay as a listing shows it. *)
Definition essayListed : Assessment.t := Demo.essay1_with [].

(** What Ana is listed: the essay, on the only page. *)
Definition anaListing : Listing.t :=
  Listing.mk [essayListed] 1 1 1 false false.

End Tour.

(** * Properties *)

(** ** Arithmetic of the late penalty *)

Section LatePenalty.

Variable a : Assessment.t.
Variable s : Submission.t.

Local Abbreviation elapsed :=
  (Submission.submittedAt s - Assessment.dueDate a).

Lemma msPerDay_pos : 0 < msPerDay.
Proof. reflexivity. Qed.

(** The day count is the least number of whole days that cover the
    elapsed time. *)
Lemma daysLate_ceil :
  (daysLate a s - 1) * msPerDay < elapsed <= daysLate a s * msPerDay.
Proof.
  unfold daysLate.
  set (x := (inject_Z elapsed / inject_Z msPerDay)%Q).
  assert (HD : (0 < inject_Z msPerDay)%Q) by reflexivity.
  assert (Hx : (x * inject_Z msPerDay == inject_Z elapsed)%Q).
  { unfold x. field. discriminate. }
  split.
  - pose proof (Qceiling_lt x) as Hlt.
    apply (Qmult_lt_compat_r _ _ _ HD) in Hlt.
    rewrite Hx, <- inject_Z_mult, <- Zlt_Qlt in Hlt. exact Hlt.
  - pose proof (Qle_ceiling x) as Hle.
    apply (Qmult_le_compat_r _ _ (inject_Z msPerDay)) in Hle;
      [| apply Qlt_le_weak, HD].
    rewrite Hx, <- inject_Z_mult, <- Zle_Qle in Hle. exact Hle.
Qed.

Lemma daysLate_pos : 0 < elapsed -> 1 <= daysLate a s.
Proof.
  pose proof daysLate_ceil as H. pose proof msPerDay_pos as HD.
  intros He. nia.
Qed.

Lemma Qgt_bool_iff (x y : Q) : Qgt_bool x y = true <-> (y < x)%Q.
Proof.
  unfold Qgt_bool. rewrite negb_true_iff, <- not_true_iff_false, Qle_bool_iff.
  split; [apply Qnot_le_lt | apply Qlt_not_le].
Qed.

Lemma Qgt_bool_false (x y : Q) : Qgt_bool x y = false <-> (x <= y)%Q.
Proof.
  unfold Qgt_bool. rewrite negb_false_iff. apply Qle_bool_iff.
Qed.

(** Without the penalty the entered points are stored as they are. *)
Lemma finalPoints_on_time (p : Q) :
  Submission.isLate s = false \/ (Assessment.latePenalty a <= 0)%Q ->
  finalPoints a s p = p.
Proof.
  unfold finalPoints. intros [-> | H]; [reflexivity |].
  apply Qgt_bool_false in H. rewrite H, andb_false_r. reflexivity.
Qed.

Lemma finalPoints_nonneg (p : Q) : (0 <= p)%Q -> (0 <= finalPoints a s p)%Q.
Proof.
  intros Hp. unfold finalPoints.
  destruct (_ && _); [apply Q.le_max_l | exact Hp].
Qed.

Lemma penalty_pos :
  (0 < Assessment.latePenalty a)%Q -> 0 < elapsed -> (0 < penalty a s)%Q.
Proof.
  intros HL He. unfold penalty.
  apply daysLate_pos in He.
  assert (Hd : (1 <= inject_Z (daysLate a s))%Q).
  { change 1%Q with (inject_Z 1). rewrite <- Zle_Qle. exact He. }
  apply Qmult_lt_0_compat; [apply Qlt_shift_div_l; lra | lra].
Qed.

(** The penalty only reduces. *)
Lemma finalPoints_le (p : Q) :
  (0 <= p)%Q -> lateAfterDue a s -> (finalPoints a s p <= p)%Q.
Proof.
  intros Hp Hlate. unfold finalPoints.
  destruct (Submission.isLate s) eqn:El; [| apply Qle_refl].
  destruct (Qgt_bool _ _) eqn:Eg; [| apply Qle_refl]. cbn [andb].
  apply Qgt_bool_iff in Eg.
  assert (Hpen : (0 < penalty a s)%Q).
  { apply penalty_pos; [exact Eg |]. specialize (Hlate El). lia. }
  apply Q.max_lub; [exact Hp |].
  assert (0 <= p * penalty a s)%Q by (apply Qmult_le_0_compat; lra).
  lra.
Qed.

End LatePenalty.

(** ** What the schemas accept *)

Section JoiFacts.

Import Joi.

Lemma first_error_None (x y : option ValidationError) :
  first_error x y = None <-> x = None /\ y = None.
Proof. destruct x; cbn; intuition congruence. Qed.

Lemma children_None {S : Type}
    (rule : string -> S -> JSON -> option ValidationError) entries ks :
  children rule entries ks = None <->
  forall k sk req, In (k, (sk, req)) ks ->
    match assoc k entries with
    | Some vk => rule k sk vk = None
    | None => req = false
    end.
Proof.
  induction ks as [| [k [sk req]] ks IH]; cbn [children].
  - split; [intros _ k sk req [] | reflexivity].
  - fold (children rule entries ks).
    rewrite first_error_None, IH. split.
    + intros [Hk Hks] k' sk' req' [E | Hin].
      * injection E as <- <- <-.
        destruct (assoc k entries); [exact Hk |].
        destruct req; [discriminate Hk | reflexivity].
      * apply Hks, Hin.
    + intros H. split.
      * specialize (H k sk req (or_introl eq_refl)).
        destruct (assoc k entries); [exact H |]. rewrite H. reflexivity.
      * intros k' sk' req' Hin. apply H. right. exact Hin.
Qed.

Lemma declared_In k (keys : list (string * (Schema * bool))) :
  declared k keys = true <-> In k (map fst keys).
Proof.
  unfold declared. rewrite existsb_exists. split.
  - intros [x [Hin E]]. apply String.eqb_eq in E. subst x. exact Hin.
  - intros Hin. exists k. split; [exact Hin | apply String.eqb_refl].
Qed.

Lemma unknown_None keys entries :
  unknown keys entries = None <->
  forall k v, In (k, v) entries -> In k (map fst keys).
Proof.
  induction entries as [| [k v] entries IH]; cbn [unknown].
  - split; [intros _ k v [] | reflexivity].
  - destruct (declared k keys) eqn:E.
    + rewrite IH. apply declared_In in E. split.
      * intros H k' v' [Eq | Hin]; [injection Eq as <- <-; exact E | eauto].
      * intros H k' v' Hin. apply (H k' v'). right. exact Hin.
    + split; [discriminate |].
      intros H. specialize (H k v (or_introl eq_refl)).
      apply declared_In in H. congruence.
Qed.

Lemma check_string p uri v :
  check p (string_ uri) v = None <->
  exists t, v = JStr t /\ t <> "" /\ (forall f, uri = Some f -> f t = true).
Proof.
  cbn [check]. split.
  - destruct v as [| | | t | |]; try discriminate.
    destruct t as [| c t]; [discriminate |].
    destruct uri as [f |].
    + destruct (f _) eqn:E; [| discriminate].
      intros _. exists (String c t). repeat split; [discriminate |].
      intros f' Ef. injection Ef as <-. exact E.
    + intros _. exists (String c t). repeat split; [discriminate | discriminate].
  - intros [t [-> [Hne Huri]]].
    destruct t as [| c t]; [congruence |].
    destruct uri as [f |]; [| reflexivity].
    rewrite (Huri f eq_refl). reflexivity.
Qed.

Lemma safe_iff q : safe q = true <-> (- maxSafe <= q)%Q /\ (q <= maxSafe)%Q.
Proof. unfold safe. rewrite andb_true_iff, !Qle_bool_iff. reflexivity. Qed.

Lemma check_number_min p m v :
  check p (number_ (Some m)) v = None <->
  exists q, v = JNum q /\ safe q = true /\ (m <= q)%Q.
Proof.
  cbn [check]. split.
  - destruct v as [| | q | | |]; try discriminate.
    destruct (safe q) eqn:Es; [| discriminate].
    destruct (Qle_bool m q) eqn:E; [| discriminate].
    intros _. exists q. split; [reflexivity |].
    split; [exact Es | apply Qle_bool_iff, E].
  - intros [q [-> [Hs Hq]]]. apply Qle_bool_iff in Hq. rewrite Hs, Hq.
    reflexivity.
Qed.

Lemma check_object p keys v :
  check p (object_ keys) v = None <->
  exists entries,
    v = JObj entries
    /\ children (fun k sk vk => check k sk vk) entries keys = None
    /\ unknown keys entries = None.
Proof.
  cbn [check]. split.
  - destruct v as [| | | | | entries]; try discriminate.
    rewrite first_error_None. intros H. exists entries. tauto.
  - intros [entries [-> H]]. apply first_error_None. exact H.
Qed.

(** A body that passes [gradeSchema] carries a number of points that
    is not negative, and safe. *)
Lemma gradeSchema_points body :
  validate gradeSchema body = None ->
  exists q,
    field "points" body = Some (JNum q) /\ (0 <= q)%Q /\ (q <= maxSafe)%Q.
Proof.
  unfold validate, gradeSchema. rewrite check_object.
  intros [entries [-> [Hc _]]].
  rewrite children_None in Hc.
  specialize (Hc "points" _ _ (or_introl eq_refl)).
  cbn [field]. destruct (assoc "points" entries) as [v |]; [| discriminate Hc].
  apply check_number_min in Hc. destruct Hc as [q [-> [Hs Hq]]].
  apply safe_iff in Hs.
  exists q. split; [reflexivity |]. split; [exact Hq | apply Hs].
Qed.

Lemma pointsOf_nonneg body :
  validate gradeSchema body = None -> (0 <= pointsOf body)%Q.
Proof.
  intros H. apply gradeSchema_points in H. destruct H as [q [E [Hq _]]].
  unfold pointsOf. rewrite E. exact Hq.
Qed.

(** Any safe number of points from zero up passes, whatever the
    assessment. *)
Lemma gradeBody_valid q fb :
  (0 <= q)%Q -> (q <= maxSafe)%Q -> fb <> Some "" ->
  validate gradeSchema (gradeBody q fb) = None.
Proof.
  intros Hq Hmax Hfb.
  assert (Hs : safe q = true).
  { apply safe_iff. split; [| exact Hmax].
    apply Qle_trans with 0%Q; [discriminate | exact Hq]. }
  apply Qle_bool_iff in Hq.
  unfold validate, gradeSchema, gradeBody.
  destruct fb as [[| c t] |]; [congruence | |];
    cbn [check children unknown declared assoc first_error String.eqb
         Ascii.eqb Bool.eqb existsb map fst];
    rewrite Hs, Hq; reflexivity.
Qed.

(** A number of points beyond the largest safe integer is refused. *)
Lemma gradeBody_unsafe q fb :
  (maxSafe < q)%Q ->
  validate gradeSchema (gradeBody q fb)
  = Some (mkError "points" number_unsafe).
Proof.
  intros Hq.
  assert (Hs : safe q = false).
  { apply not_true_iff_false. rewrite safe_iff. intros [_ H].
    apply (Qlt_not_le _ _ Hq H). }
  unfold validate, gradeSchema, gradeBody.
  destruct fb as [t |];
    cbn [check children unknown declared assoc first_error String.eqb
         Ascii.eqb Bool.eqb existsb map fst];
    rewrite Hs; reflexivity.
Qed.

Lemma pointsOf_gradeBody q fb : pointsOf (gradeBody q fb) = q.
Proof. reflexivity. Qed.

End JoiFacts.

Lemma okText_check k v : Joi.check k (Joi.string_ None) v = None <-> okText v.
Proof.
  rewrite check_string. unfold okText.
  split; intros [t H]; exists t; intuition discriminate.
Qed.

Section SubmitSchema.

Import Joi.

(** Joi's test of a text for the syntax of a URI. *)
Variable uri : string -> bool.

Local Abbreviation contentKeys :=
  [("text", (string_ None, false));
   ("fileUrl", (string_ None, false));
   ("fileName", (string_ None, false));
   ("githubUrl", (string_ (Some uri), false));
   ("websiteUrl", (string_ (Some uri), false))].

Lemma okUrl_check k v : check k (string_ (Some uri)) v = None <-> okUrl uri v.
Proof.
  rewrite check_string. unfold okUrl. split; intros [t H]; exists t.
  - destruct H as [-> [Hne Hu]]. repeat split; [exact Hne | auto].
  - destruct H as [-> [Hne Hu]]. repeat split; [exact Hne |].
    intros f E. injection E as <-. exact Hu.
Qed.

Lemma content_check p c :
  check p (object_ contentKeys) c = None <-> contentOk uri c.
Proof.
  rewrite check_object. unfold contentOk.
  split; intros [entries [-> H]]; exists entries; (split; [reflexivity |]).
  - destruct H as [Hc Hu]. rewrite children_None in Hc.
    rewrite unknown_None in Hu. split; [exact Hu |]. split.
    + intros k v Hk E.
      assert (Hin : In (k, (string_ None, false)) contentKeys).
      { cbn in Hk |- *. intuition (subst; auto). }
      specialize (Hc _ _ _ Hin). rewrite E in Hc.
      apply okText_check in Hc. exact Hc.
    + intros k v Hk E.
      assert (Hin : In (k, (string_ (Some uri), false)) contentKeys).
      { cbn in Hk |- *. intuition (subst; auto 10). }
      specialize (Hc _ _ _ Hin). rewrite E in Hc.
      apply okUrl_check in Hc. exact Hc.
  - destruct H as [Hu [Ht Hl]]. split.
    + apply children_None. intros k sk req Hin.
      destruct (assoc k entries) as [v |] eqn:E.
      * cbn in Hin.
        repeat (destruct Hin as [Hin | Hin];
                [injection Hin as <- <- <- |]); try contradiction.
        all: first [ apply okText_check; refine (Ht _ v _ E); cbn; auto 10
                   | apply okUrl_check; refine (Hl _ v _ E); cbn; auto 10 ].
      * cbn in Hin.
        repeat (destruct Hin as [Hin | Hin];
                [injection Hin as <- <- <-; reflexivity |]).
        contradiction.
    + apply unknown_None. exact Hu.
Qed.

(** The bodies [submitSchema] lets through are those described key by
    key in [submitBodyOk]. *)
Lemma submitSchema_ok body :
  validate (submitSchema uri) body = None <-> submitBodyOk uri body.
Proof.
  unfold validate, submitSchema, submitBodyOk. rewrite check_object. split.
  - intros [top [-> [Hc Hu]]].
    rewrite children_None in Hc. rewrite unknown_None in Hu.
    specialize (Hc "content" _ _ (or_introl eq_refl)).
    destruct (assoc "content" top) as [c |] eqn:E; [| discriminate Hc].
    exists top, c. split; [reflexivity |]. split; [| split; [exact E |]].
    + intros k v Hin. specialize (Hu k v Hin). cbn in Hu. intuition.
    + apply content_check in Hc. exact Hc.
  - intros [top [c [-> [Hk [E Hc]]]]]. exists top. split; [reflexivity |]. split.
    + apply children_None. intros k sk req [Hin | []].
      injection Hin as <- <- <-. rewrite E. apply content_check, Hc.
    + apply unknown_None. intros k v Hin. rewrite (Hk k v Hin). cbn. tauto.
Qed.

End SubmitSchema.

(** ** The late penalty in binary64 *)

(** What correct rounding keeps of the bounds of the late penalty, from
    the definitions of the operations: a mantissa is shifted to the right,
    rounded to nearest and shifted again, and neither step passes a number
    that the format holds. *)

Section Binary64.

Import SpecFloat.

Local Abbreviation fexp := (SpecFloat.fexp Double.prec Double.emax).
Local Abbreviation digits m := (Z.pos (digits2_pos m)).

(** *** Shifting and rounding a mantissa *)

Lemma iter_pos_nat {A} (f : A -> A) p x :
  iter_pos f p x = Nat.iter (Pos.to_nat p) f x.
Proof.
  revert x. induction p as [p IH | p IH |]; intros x; cbn [iter_pos].
  - rewrite !IH, Pos2Nat.inj_xI.
    replace (S (2 * Pos.to_nat p))%nat with (Pos.to_nat p + (Pos.to_nat p + 1))%nat by lia.
    rewrite !Nat.iter_add. reflexivity.
  - rewrite !IH, Pos2Nat.inj_xO.
    replace (2 * Pos.to_nat p)%nat with (Pos.to_nat p + Pos.to_nat p)%nat by lia.
    rewrite Nat.iter_add. reflexivity.
  - reflexivity.
Qed.

(** One step to the right halves the mantissa. *)
Lemma shr_1_m mrs : 0 <= shr_m mrs -> shr_m (shr_1 mrs) = shr_m mrs / 2.
Proof.
  destruct mrs as [m r s]. cbn [shr_m shr_1]. intros Hm.
  destruct m as [| [p | p |] | p]; cbn [shr_m]; try reflexivity; try lia.
  - rewrite Pos2Z.inj_xI. apply Z.div_unique with 1; lia.
  - rewrite Pos2Z.inj_xO. apply Z.div_unique with 0; lia.
Qed.

Lemma shr_n_m n mrs :
  0 <= shr_m mrs -> shr_m (Nat.iter n shr_1 mrs) = shr_m mrs / 2 ^ Z.of_nat n.
Proof.
  intros Hm. induction n as [| n IH].
  - change (Nat.iter 0 shr_1 mrs) with mrs.
    rewrite Nat2Z.inj_0, Z.pow_0_r, Z.div_1_r. reflexivity.
  - rewrite Nat.iter_succ, shr_1_m.
    + rewrite IH, Nat2Z.inj_succ, Z.pow_succ_r by lia.
      rewrite Z.div_div by lia. f_equal. lia.
    + rewrite IH. apply Z.div_pos; lia.
Qed.

(** Shifting a multiple of [2 ^ n] by [n] loses nothing. *)
Lemma shr_n_exact n m :
  0 <= m -> m mod 2 ^ Z.of_nat n = 0 ->
  Nat.iter n shr_1 (Build_shr_record m false false)
  = Build_shr_record (m / 2 ^ Z.of_nat n) false false.
Proof.
  revert m. induction n as [| n IH]; intros m Hm Hmod.
  - change (Nat.iter 0 shr_1 ?x) with x.
    rewrite Nat2Z.inj_0, Z.pow_0_r, Z.div_1_r. reflexivity.
  - rewrite Nat2Z.inj_succ, Z.pow_succ_r in Hmod |- * by lia.
    assert (H2 : m mod 2 = 0).
    { apply Z.mod_divide in Hmod; [| lia]. apply Z.mod_divide; [lia |].
      destruct Hmod as [c ->]. exists (c * 2 ^ Z.of_nat n). lia. }
    rewrite Nat.iter_succ_r.
    assert (E1 : shr_1 (Build_shr_record m false false)
                 = Build_shr_record (m / 2) false false).
    { destruct m as [| [p | p |] | p]; try lia; cbn [shr_1 orb].
      - reflexivity.
      - rewrite Pos2Z.inj_xI in H2. exfalso.
        rewrite Z.add_comm, Z.mul_comm, Z.mod_add in H2 by lia. discriminate H2.
      - f_equal. rewrite Pos2Z.inj_xO. apply Z.div_unique with 0; lia.
      - discriminate H2. }
    rewrite E1, IH.
    + f_equal. rewrite Z.div_div by lia. reflexivity.
    + apply Z.div_pos; lia.
    + apply Z.mod_divide in Hmod; [| lia]. apply Z.mod_divide; [lia |].
      destruct Hmod as [c ->]. exists c.
      replace (c * (2 * 2 ^ Z.of_nat n)) with (c * 2 ^ Z.of_nat n * 2) by lia.
      apply Z.div_mul. lia.
Qed.

Lemma round_nearest_even_bounds m l :
  m <= round_nearest_even m l <= m + 1.
Proof.
  destruct l as [| []]; cbn [round_nearest_even]; try lia.
  destruct (Z.even m); lia.
Qed.

(** *** Rounding does not pass a number the format holds *)

(** A mantissa of [d] digits lies between [2 ^ (d - 1)] and [2 ^ d]. *)
Lemma digits_spec m : 2 ^ (digits m - 1) <= Z.pos m < 2 ^ digits m.
Proof.
  induction m as [m IH | m IH |]; cbn [digits2_pos].
  - rewrite Pos2Z.inj_succ. change (Z.pos m~1) with (2 * Z.pos m + 1).
    replace (Z.succ (digits m) - 1) with (Z.succ (digits m - 1)) by lia.
    rewrite !Z.pow_succ_r by lia. lia.
  - rewrite Pos2Z.inj_succ. change (Z.pos m~0) with (2 * Z.pos m).
    replace (Z.succ (digits m) - 1) with (Z.succ (digits m - 1)) by lia.
    rewrite !Z.pow_succ_r by lia. lia.
  - split; [vm_compute; discriminate | reflexivity].
Qed.

Lemma digits_below m n : 0 <= n -> Z.pos m < 2 ^ n -> digits m <= n.
Proof.
  intros Hn Hm. pose proof (digits_spec m) as [Hl _].
  destruct (Z.le_gt_cases (digits m) n) as [H | H]; [exact H |].
  exfalso. assert (2 ^ n <= 2 ^ (digits m - 1)) by (apply Z.pow_le_mono_r; lia).
  lia.
Qed.

Lemma Zdigits2_pos m : Zdigits2 (Z.pos m) = digits m.
Proof. reflexivity. Qed.

Lemma shr_nat mrs e k :
  shr mrs e k = (Nat.iter (Z.to_nat k) shr_1 mrs, e + Z.max 0 k).
Proof.
  unfold shr. destruct k as [| p | p].
  - rewrite Z.add_0_r. reflexivity.
  - rewrite iter_pos_nat. rewrite Z.max_r by lia. reflexivity.
  - rewrite Z.max_l by lia. rewrite Z.add_0_r. reflexivity.
Qed.

(** Rounding a mantissa keeps it below whatever it was below that the
    rounding leaves as it is. *)
Lemma round_aux_anchor (s : bool) (m : positive) (e A dA : Z) :
  Z.pos m <= A ->
  (2 ^ Z.max 0 (fexp (digits m + e) - e) | A) ->
  A < 2 ^ dA ->
  dA + e <= 1024 ->
  e <= 971 ->
  binary_round_aux Double.prec Double.emax s (Z.pos m) e loc_Exact
  = S754_zero s
  \/ exists m' e',
       binary_round_aux Double.prec Double.emax s (Z.pos m) e loc_Exact
       = S754_finite s m' e'
       /\ e <= e'
       /\ Z.pos m' * 2 ^ (e' - e) <= A.
Proof.
  intros HmA Hdiv HA HdA He.
  unfold binary_round_aux, shr_fexp. rewrite Zdigits2_pos.
  cbn [shr_record_of_loc]. rewrite shr_nat.
  set (K := Z.max 0 (fexp (digits m + e) - e)) in *.
  assert (HK : 0 <= K) by (unfold K; lia).
  assert (EK : Z.of_nat (Z.to_nat (fexp (digits m + e) - e)) = K)
    by (unfold K; lia).
  set (mrs1 := Nat.iter _ shr_1 _).
  assert (Hm1 : shr_m mrs1 = Z.pos m / 2 ^ K).
  { unfold mrs1. rewrite shr_n_m by (cbn; lia). rewrite EK. reflexivity. }
  set (m1 := round_nearest_even (shr_m mrs1) (loc_of_shr_record mrs1)).
  assert (H2K : 0 < 2 ^ K) by (apply Z.pow_pos_nonneg; lia).
  pose proof (Z.div_mod (Z.pos m) (2 ^ K) ltac:(lia)) as Hdm.
  pose proof (Z.mod_pos_bound (Z.pos m) (2 ^ K) H2K) as Hmod.
  assert (Hq : 0 <= Z.pos m / 2 ^ K) by (apply Z.div_pos; lia).
  assert (Hm1A : 0 <= m1 /\ m1 * 2 ^ K <= A).
  { destruct Hdiv as [c Hc].
    destruct (Z.eq_dec (Z.pos m mod 2 ^ K) 0) as [E0 | E0].
    - assert (Eloc : mrs1 = Build_shr_record (Z.pos m / 2 ^ K) false false).
      { unfold mrs1. rewrite <- EK.
        apply shr_n_exact; [lia | rewrite EK; exact E0]. }
      unfold m1. rewrite Eloc. cbn [shr_m loc_of_shr_record round_nearest_even].
      split; [exact Hq | nia].
    - pose proof (round_nearest_even_bounds (shr_m mrs1) (loc_of_shr_record mrs1))
        as Hb. fold m1 in Hb. rewrite Hm1 in Hb.
      split; [lia |].
      assert (Z.pos m / 2 ^ K < c) by nia. nia. }
  destruct Hm1A as [Hm1p Hm1A].
  set (e1 := e + K).
  rewrite shr_nat.
  set (K2 := Z.max 0 (fexp (Zdigits2 m1 + e1) - e1)).
  assert (HK2 : 0 <= K2) by (unfold K2; lia).
  assert (EK2 : Z.of_nat (Z.to_nat (fexp (Zdigits2 m1 + e1) - e1)) = K2)
    by (unfold K2; lia).
  rewrite shr_n_m by (cbn; lia). cbn [shr_m]. rewrite EK2.
  assert (H2K2 : 0 < 2 ^ K2) by (apply Z.pow_pos_nonneg; lia).
  pose proof (Z.div_mod m1 (2 ^ K2) ltac:(lia)) as Hdm2.
  pose proof (Z.mod_pos_bound m1 (2 ^ K2) H2K2) as Hmod2.
  assert (Hq2 : 0 <= m1 / 2 ^ K2) by (apply Z.div_pos; lia).
  destruct (m1 / 2 ^ K2) as [| m3 | m3] eqn:E3; [left; reflexivity | | lia].
  right.
  (* the exponent stays in range *)
  assert (Hd1 : digits m + e <= 1024).
  { assert (digits m <= dA); [| lia].
    assert (0 < dA).
    { destruct (Z.le_gt_cases dA 0) as [H | H]; [| exact H].
      exfalso. destruct dA as [| p | p]; [cbn in HA; lia | lia |].
      rewrite Z.pow_neg_r in HA by lia. lia. }
    apply digits_below; lia. }
  assert (He1 : e1 <= 971).
  { unfold e1, K, SpecFloat.fexp, emin, Double.prec, Double.emax in *. lia. }
  assert (Hd2 : Zdigits2 m1 + e1 <= 1024).
  { destruct m1 as [| p1 | p1]; [cbn; lia | | lia].
    rewrite Zdigits2_pos.
    assert (Z.pos p1 < 2 ^ (dA - K)).
    { destruct (Z.le_gt_cases K dA) as [HKd | HKd].
      - replace dA with (dA - K + K) in HA by lia.
        rewrite Z.pow_add_r in HA by lia. nia.
      - exfalso. assert (2 ^ dA <= 2 ^ K) by (apply Z.pow_le_mono_r; lia). nia. }
    assert (0 <= dA - K).
    { destruct (Z.le_gt_cases 0 (dA - K)) as [H' | H']; [exact H' |].
      rewrite Z.pow_neg_r in H by lia. lia. }
    pose proof (digits_below p1 (dA - K) ltac:(lia) H). unfold e1. lia. }
  assert (He2 : e1 + K2 <= 971).
  { unfold K2, SpecFloat.fexp, emin, Double.prec, Double.emax in *. lia. }
  replace (e1 + K2 <=? Double.emax - Double.prec)%Z with true
    by (symmetry; apply Z.leb_le; unfold Double.emax, Double.prec; lia).
  exists m3, (e1 + K2). split; [reflexivity |]. split; [unfold e1; lia |].
  replace (e1 + K2 - e) with (K2 + K) by (unfold e1; lia).
  rewrite Z.pow_add_r by lia. nia.
Qed.

(** *** Signs of the results *)

Lemma shr_record_of_loc_m m l : shr_m (shr_record_of_loc m l) = m.
Proof. destruct l as [| []]; reflexivity. Qed.

(** Whatever is rounded, the result has the sign asked for and fits the
    format. *)
Lemma round_aux_class s m e l :
  0 <= m ->
  Double.signed s (binary_round_aux Double.prec Double.emax s m e l)
  /\ Double.inFormat (binary_round_aux Double.prec Double.emax s m e l) = true.
Proof.
  intros Hm. unfold binary_round_aux, shr_fexp. rewrite shr_nat.
  set (mrs1 := Nat.iter _ shr_1 _).
  set (e1 := e + Z.max 0 _).
  assert (Hm1 : 0 <= shr_m mrs1).
  { unfold mrs1. rewrite shr_n_m by (rewrite shr_record_of_loc_m; exact Hm).
    rewrite shr_record_of_loc_m.
    apply Z.div_pos; [lia | apply Z.pow_pos_nonneg; lia]. }
  set (m1 := round_nearest_even _ _).
  assert (Hm1' : 0 <= m1).
  { pose proof (round_nearest_even_bounds (shr_m mrs1) (loc_of_shr_record mrs1)).
    unfold m1. lia. }
  clearbody m1. rewrite shr_nat.
  set (K2 := Z.max 0 (fexp (Zdigits2 m1 + e1) - e1)).
  rewrite shr_n_m by (cbn; lia). cbn [shr_m shr_record_of_loc].
  replace (Z.of_nat (Z.to_nat (fexp (Zdigits2 m1 + e1) - e1))) with K2
    by (unfold K2; lia).
  assert (H2K2 : 0 < 2 ^ K2) by (apply Z.pow_pos_nonneg; unfold K2; lia).
  destruct (m1 / 2 ^ K2) as [| m3 | m3] eqn:E3.
  - split; [left; reflexivity | reflexivity].
  - destruct (e1 + K2 <=? Double.emax - Double.prec)%Z eqn:El.
    + split; [right; right; eauto |].
      cbn [Double.inFormat]. rewrite El.
      destruct m1 as [| p1 | p1]; [rewrite Z.div_0_l in E3 by lia; discriminate | | lia].
      pose proof (digits_spec p1) as [_ Hp1].
      assert (Hlt : Z.pos m3 < 2 ^ Double.prec).
      { rewrite <- E3. apply Z.div_lt_upper_bound; [lia |].
        rewrite <- Z.pow_add_r by (unfold K2, Double.prec; lia).
        eapply Z.lt_le_trans; [exact Hp1 |].
        apply Z.pow_le_mono_r; [lia |].
        unfold K2, SpecFloat.fexp, Double.prec. rewrite Zdigits2_pos. lia. }
      apply Z.ltb_lt in Hlt. rewrite Hlt.
      replace (3 - Double.emax - Double.prec <=? e1 + K2)%Z with true; [reflexivity |].
      symmetry. apply Z.leb_le.
      unfold K2, SpecFloat.fexp, emin, Double.prec, Double.emax. lia.
    + split; [right; left; reflexivity | reflexivity].
  - exfalso. assert (0 <= m1 / 2 ^ K2) by (apply Z.div_pos; lia). lia.
Qed.

Lemma round_class s m e :
  Double.signed s (binary_round Double.prec Double.emax s m e)
  /\ Double.inFormat (binary_round Double.prec Double.emax s m e) = true.
Proof.
  unfold binary_round. destruct (shl_align _ _ _) as [mz ez].
  apply round_aux_class. lia.
Qed.

Lemma ofZ_class n :
  0 <= n ->
  Double.signed false (Double.ofZ n) /\ Double.inFormat (Double.ofZ n) = true.
Proof.
  intros Hn. unfold Double.ofZ, binary_normalize.
  destruct n as [| p | p]; [| apply round_class | lia].
  split; [left; reflexivity | reflexivity].
Qed.

Lemma div_class x y my ey :
  Double.signed false x -> y = S754_finite false my ey ->
  Double.signed false (Double.div x y)
  /\ Double.inFormat (Double.div x y) = true.
Proof.
  intros [-> | [-> | (m & e & ->)]] ->; unfold Double.div; cbn [SFdiv xorb].
  - split; [left; reflexivity | reflexivity].
  - split; [right; left; reflexivity | reflexivity].
  - unfold SFdiv_core_binary.
    set (m' := match _ - _ - _ with Z0 => _ | Z.pos _ => _ | Z.neg _ => _ end).
    assert (Hm' : 0 <= m').
    { unfold m'. destruct (_ - _ - _); [lia | | lia].
      apply Z.shiftl_nonneg. lia. }
    pose proof (Z.div_pos m' (Z.pos my) Hm' ltac:(lia)) as Hq.
    unfold Z.div in Hq.
    destruct (Z.div_eucl m' (Z.pos my)) as [q r]. cbn [fst] in Hq.
    apply round_aux_class. exact Hq.
Qed.

Lemma ceil_class x :
  Double.signed false x -> Double.inFormat x = true ->
  Double.signed false (Double.ceil x)
  /\ Double.inFormat (Double.ceil x) = true.
Proof.
  intros [-> | [-> | (m & e & ->)]] Hf; cbn [Double.ceil].
  - split; [left; reflexivity | reflexivity].
  - split; [right; left; reflexivity | reflexivity].
  - destruct (0 <=? e)%Z eqn:Ee; [split; [right; right; eauto | exact Hf] |].
    apply Z.leb_gt in Ee. apply ofZ_class.
    assert (0 <= Z.pos m / 2 ^ (- e))
      by (apply Z.div_pos; [lia | apply Z.pow_pos_nonneg; lia]).
    destruct (_ =? 0)%Z; lia.
Qed.

Lemma mul_class x y :
  Double.signed false x -> Double.signed false y ->
  Double.finite (Double.mul x y) = true ->
  (Double.mul x y = S754_zero false
   \/ exists m e, Double.mul x y = S754_finite false m e)
  /\ Double.inFormat (Double.mul x y) = true.
Proof.
  intros [-> | [-> | (mx & ex & ->)]] [-> | [-> | (my & ey & ->)]];
    unfold Double.mul; cbn [SFmul xorb Double.finite];
    try discriminate; try (intros _; split; [left; reflexivity | reflexivity]).
  intros Hfin.
  destruct (round_aux_class false (Z.pos (mx * my)) (ex + ey) loc_Exact ltac:(lia))
    as [[E | [E | (m & e & E)]] Hf].
  - split; [left; exact E | exact Hf].
  - rewrite E in Hfin. discriminate.
  - split; [right; eauto | exact Hf].
Qed.

Lemma gt_zero x :
  Double.gt x (Double.ofZ 0) = true ->
  x = S754_infinity false \/ exists m e, x = S754_finite false m e.
Proof.
  destruct x as [[] | [] | | [] m e]; cbn; try discriminate; eauto.
Qed.

(** The fraction taken off is zero or positive when it is a number. *)
Lemma penalty_class latePenalty submittedAt dueDate :
  Double.gt latePenalty (Double.ofZ 0) = true ->
  dueDate < submittedAt ->
  Double.finite (Double.penalty latePenalty submittedAt dueDate) = true ->
  (Double.penalty latePenalty submittedAt dueDate = S754_zero false
   \/ exists m e,
        Double.penalty latePenalty submittedAt dueDate = S754_finite false m e)
  /\ Double.inFormat (Double.penalty latePenalty submittedAt dueDate) = true.
Proof.
  intros HL Hlate. unfold Double.penalty.
  assert (E100 : exists m e, Double.ofZ 100 = S754_finite false m e)
    by (vm_compute; eauto).
  destruct E100 as (m100 & e100 & E100).
  assert (Eday : exists m e, Double.ofZ msPerDay = S754_finite false m e)
    by (vm_compute; eauto).
  destruct Eday as (mday & eday & Eday).
  assert (Ha : Double.signed false (Double.div latePenalty (Double.ofZ 100))).
  { eapply div_class; [| exact E100].
    destruct (gt_zero _ HL) as [-> | (m & e & ->)];
      [right; left; reflexivity | right; right; eauto]. }
  assert (Hd : Double.signed false (Double.daysLate submittedAt dueDate)).
  { unfold Double.daysLate.
    destruct (ofZ_class (submittedAt - dueDate) ltac:(lia)) as [Hn _].
    destruct (div_class _ _ _ _ Hn Eday) as [Hq Hqf].
    apply ceil_class; assumption. }
  apply mul_class; assumption.
Qed.

(** *** One minus the fraction *)

Lemma iter_xO m d : Z.pos (Pos.iter xO m d) = Z.pos m * 2 ^ Z.pos d.
Proof.
  induction d as [| d IH] using Pos.peano_ind.
  - cbn [Pos.iter]. change (2 ^ 1) with 2. lia.
  - rewrite Pos.iter_succ, Pos2Z.inj_succ, Z.pow_succ_r by lia.
    change (Z.pos (Pos.iter xO m d)~0) with (2 * Z.pos (Pos.iter xO m d)).
    rewrite IH. lia.
Qed.

(** Aligning to a lower exponent multiplies the mantissa by the power of two
    between them. *)
Lemma shl_align_spec m e e' :
  snd (shl_align m e e') = Z.min e e'
  /\ Z.pos (fst (shl_align m e e')) = Z.pos m * 2 ^ (e - Z.min e e').
Proof.
  unfold shl_align. destruct (e' - e) as [| d | d] eqn:E; cbn [fst snd].
  - rewrite Z.min_l by lia. rewrite Z.sub_diag. lia.
  - rewrite Z.min_l by lia. rewrite Z.sub_diag. lia.
  - rewrite Z.min_r by lia. split; [reflexivity |].
    rewrite iter_xO. f_equal. f_equal. lia.
Qed.

Lemma fexp_mono a b : a <= b -> fexp a <= fexp b.
Proof. unfold SpecFloat.fexp. lia. Qed.

Lemma pow2_divide a b : 0 <= a <= b -> (2 ^ a | 2 ^ b).
Proof.
  intros H. exists (2 ^ (b - a)). rewrite <- Z.pow_add_r by lia.
  f_equal. lia.
Qed.

(** [binary_round] aligns first, then rounds: the anchor holds for it too. *)
Lemma round_anchor (s : bool) (m : positive) (e A dA : Z) :
  Z.pos m <= A ->
  (2 ^ Z.max 0 (fexp (digits m + e) - e) | A) ->
  A < 2 ^ dA ->
  dA + e <= 1024 ->
  e <= 971 ->
  binary_round Double.prec Double.emax s m e = S754_zero s
  \/ exists m' e' e0,
       binary_round Double.prec Double.emax s m e = S754_finite s m' e'
       /\ e0 <= e /\ e0 <= e'
       /\ Z.pos m' * 2 ^ (e' - e0) <= A * 2 ^ (e - e0).
Proof.
  intros HmA Hdiv HA HdA He. unfold binary_round.
  pose proof (shl_align_spec m e (fexp (digits m + e))) as [Ez Em].
  destruct (shl_align m e (fexp (digits m + e))) as [mz ez].
  cbn [fst snd] in Ez, Em.
  destruct (Z.le_gt_cases e (fexp (digits m + e))) as [Hc | Hc].
  - rewrite Z.min_l in Ez, Em by lia. rewrite Z.sub_diag in Em.
    assert (mz = m) by lia. subst mz ez.
    destruct (round_aux_anchor s m e A dA HmA Hdiv HA HdA He)
      as [E | (m' & e' & E & He' & Hb)]; [left; exact E | right].
    exists m', e', e. rewrite Z.sub_diag. repeat split; try lia; exact E.
  - rewrite Z.min_r in Ez, Em by lia. subst ez.
    set (f := fexp (digits m + e)) in *.
    assert (H2f : 0 < 2 ^ (e - f)) by (apply Z.pow_pos_nonneg; lia).
    pose proof (digits_spec m) as [_ Hdm].
    assert (Hdz : digits mz <= digits m + (e - f)).
    { apply digits_below; [lia |]. rewrite Em, Z.pow_add_r by lia. nia. }
    assert (HK : Z.max 0 (fexp (digits mz + f) - f) = 0).
    { assert (fexp (digits mz + f) <= f); [| lia].
      unfold f at 2. apply fexp_mono. lia. }
    assert (HdA0 : 0 < dA).
    { destruct (Z.le_gt_cases dA 0) as [H | H]; [| exact H].
      exfalso. destruct dA as [| p | p]; [cbn in HA; lia | lia |].
      rewrite Z.pow_neg_r in HA by lia. lia. }
    destruct (round_aux_anchor s mz f (A * 2 ^ (e - f)) (dA + (e - f)))
      as [E | (m' & e' & E & He' & Hb)].
    + rewrite Em. nia.
    + rewrite HK. apply Z.divide_1_l.
    + rewrite Z.pow_add_r by lia. nia.
    + lia.
    + lia.
    + left; exact E.
    + right. exists m', e', f. repeat split; try lia; exact E.
Qed.

(** Taking a positive fraction from one gives nothing, a negative number
    or a number that is at most one. *)
Lemma sub_one m e :
  Double.inFormat (S754_finite false m e) = true ->
  let y := Double.sub (Double.ofZ 1) (S754_finite false m e) in
  (exists s, y = S754_zero s)
  \/ (exists m' e', y = S754_finite true m' e')
  \/ (exists m' e', y = S754_finite false m' e' /\ e' <= 0
                    /\ Z.pos m' <= 2 ^ (- e')).
Proof.
  intros Hf y.
  cbn [Double.inFormat] in Hf. apply andb_prop in Hf as [Hf He2].
  apply andb_prop in Hf as [Hm He1].
  apply Z.ltb_lt in Hm. apply Z.leb_le in He1, He2.
  unfold Double.prec, Double.emax in Hm, He1, He2.
  assert (E1 : Double.ofZ 1 = S754_finite false 4503599627370496 (-52))
    by (vm_compute; reflexivity).
  unfold y, Double.sub. rewrite E1. cbn [SFsub cond_Zopp].
  set (ez := Z.min (-52) e).
  pose proof (shl_align_spec 4503599627370496 (-52) ez) as [_ EX].
  pose proof (shl_align_spec m e ez) as [_ EY].
  rewrite Z.min_r in EX by (unfold ez; lia).
  rewrite Z.min_r in EY by (unfold ez; lia).
  set (X := Z.pos (fst (shl_align 4503599627370496 (-52) ez))) in *.
  set (Y := Z.pos (fst (shl_align m e ez))) in *.
  assert (Hez : ez <= -52 /\ ez <= e) by (unfold ez; lia).
  assert (EX' : X = 2 ^ (- ez)).
  { rewrite EX. change 4503599627370496 with (2 ^ 52).
    rewrite <- Z.pow_add_r by lia. f_equal. lia. }
  assert (H2 : 0 < 2 ^ (e - ez)) by (apply Z.pow_pos_nonneg; lia).
  assert (HY : 0 < Y) by (rewrite EY; nia).
  clearbody X Y. unfold binary_normalize.
  destruct (X - Y) as [| S | S] eqn:ES.
  - left. eauto.
  - assert (HS : Z.pos S < 2 ^ (- ez)) by lia.
    assert (HdS : digits S <= - ez) by (apply digits_below; lia).
    destruct (round_anchor false S ez (2 ^ (- ez)) (- ez + 1))
      as [E | (m' & e' & e0 & E & H0 & H0' & Hb)].
    + lia.
    + apply pow2_divide.
      pose proof (fexp_mono (digits S + ez) 0 ltac:(lia)) as Hfe.
      unfold SpecFloat.fexp, emin, Double.prec, Double.emax in *. lia.
    + apply Z.pow_lt_mono_r; lia.
    + lia.
    + lia.
    + left. eauto.
    + right; right. exists m', e'. split; [exact E |].
      rewrite <- Z.pow_add_r in Hb by lia.
      replace (- ez + (ez - e0)) with (- e0) in Hb by lia.
      assert (He' : e' <= 0).
      { destruct (Z.le_gt_cases e' 0) as [H | H]; [exact H | exfalso].
        assert (2 ^ (- e0) < 2 ^ (e' - e0)) by (apply Z.pow_lt_mono_r; lia).
        nia. }
      split; [exact He' |].
      replace (- e0) with (- e' + (e' - e0)) in Hb by lia.
      rewrite Z.pow_add_r in Hb by lia.
      assert (0 < 2 ^ (e' - e0)) by (apply Z.pow_pos_nonneg; lia).
      nia.
  - assert (HYb : Y < 2 ^ (53 + (e - ez))).
    { rewrite EY, Z.pow_add_r by lia. nia. }
    assert (HdS : digits S <= 53 + (e - ez)) by (apply digits_below; lia).
    destruct (round_anchor true S ez Y (53 + (e - ez)))
      as [E | (m' & e' & e0 & E & _)].
    + lia.
    + rewrite EY. apply Z.divide_mul_r. apply pow2_divide.
      pose proof (fexp_mono (digits S + ez) (53 + e) ltac:(lia)) as Hfe.
      unfold SpecFloat.fexp, emin, Double.prec, Double.emax in *. lia.
    + exact HYb.
    + lia.
    + lia.
    + left. eauto.
    + right; left. eauto.
Qed.

(** *** The stored points *)

(** A product with a number that is at most one is at most the other
    factor. *)
Lemma mul_below mp ep my ey :
  Double.inFormat (S754_finite false mp ep) = true ->
  ey <= 0 -> Z.pos my <= 2 ^ (- ey) ->
  let r := Double.mul (S754_finite false mp ep) (S754_finite false my ey) in
  r = S754_zero false
  \/ exists m' e',
       r = S754_finite false m' e' /\ ep + ey <= e'
       /\ Z.pos m' * 2 ^ (e' - (ep + ey)) <= Z.pos mp * 2 ^ (- ey).
Proof.
  intros Hf Hey Hmy r.
  cbn [Double.inFormat] in Hf. apply andb_prop in Hf as [Hf He2].
  apply andb_prop in Hf as [Hm He1].
  apply Z.ltb_lt in Hm. apply Z.leb_le in He1, He2.
  unfold Double.prec, Double.emax in Hm, He1, He2.
  unfold r, Double.mul. cbn [SFmul xorb].
  assert (H2 : 0 < 2 ^ (- ey)) by (apply Z.pow_pos_nonneg; lia).
  assert (Hprod : Z.pos (mp * my) <= Z.pos mp * 2 ^ (- ey))
    by (rewrite Pos2Z.inj_mul; nia).
  assert (HA : Z.pos mp * 2 ^ (- ey) < 2 ^ (53 + - ey))
    by (rewrite Z.pow_add_r by lia; nia).
  assert (Hd : digits (mp * my) <= 53 + - ey) by (apply digits_below; lia).
  destruct (round_aux_anchor false (mp * my) (ep + ey)
              (Z.pos mp * 2 ^ (- ey)) (53 + - ey))
    as [E | (m' & e' & E & He' & Hb)].
  - exact Hprod.
  - apply Z.divide_mul_r. apply pow2_divide.
    pose proof (fexp_mono (digits (mp * my) + (ep + ey)) (53 + ep) ltac:(lia))
      as Hfe.
    unfold SpecFloat.fexp, emin, Double.prec, Double.emax in *. lia.
  - exact HA.
  - lia.
  - lia.
  - left; exact E.
  - right. eauto.
Qed.

Lemma toQ_below m' e' mp ep ey :
  ey <= 0 -> ep + ey <= e' ->
  Z.pos m' * 2 ^ (e' - (ep + ey)) <= Z.pos mp * 2 ^ (- ey) ->
  (inject_Z (Z.pos m') * 2 ^ e' <= inject_Z (Z.pos mp) * 2 ^ ep)%Q.
Proof.
  intros Hey He Hb.
  assert (N2 : ~ (2 == 0)%Q) by (intros H; discriminate H).
  assert (E1 : (2 ^ e' == 2 ^ (ep + ey) * inject_Z (2 ^ (e' - (ep + ey))))%Q).
  { rewrite Zpower_Qpower by lia. change (inject_Z 2) with 2%Q.
    rewrite <- Qpower_plus by exact N2.
    replace (ep + ey + (e' - (ep + ey))) with e' by lia. reflexivity. }
  assert (E2 : (2 ^ ep == 2 ^ (ep + ey) * inject_Z (2 ^ (- ey)))%Q).
  { rewrite Zpower_Qpower by lia. change (inject_Z 2) with 2%Q.
    rewrite <- Qpower_plus by exact N2.
    replace (ep + ey + - ey) with ep by lia. reflexivity. }
  rewrite E1, E2.
  rewrite !(Qmult_comm (2 ^ (ep + ey))), !Qmult_assoc.
  apply Qmult_le_compat_r.
  - rewrite <- !inject_Z_mult, <- Zle_Qle. exact Hb.
  - apply Qlt_le_weak, Qpower_0_lt. reflexivity.
Qed.

Lemma toQ_positive m e : (0 < inject_Z (Z.pos m) * 2 ^ e)%Q.
Proof.
  apply Qmult_lt_0_compat; [| apply Qpower_0_lt; reflexivity].
  change 0%Q with (inject_Z 0). rewrite <- Zlt_Qlt. lia.
Qed.

(** [x > 0] is what it says of the number. *)
Lemma gt_zero_iff x :
  Double.finite x = true ->
  Double.gt x (Double.ofZ 0) = true <-> (0 < Double.toQ x)%Q.
Proof.
  destruct x as [[] | [] | | [] m e]; try discriminate; intros _;
    cbn [Double.toQ].
  1, 2: split; [discriminate | intros H; inversion H].
  - split; [discriminate |]. intros H. exfalso.
    pose proof (toQ_positive m e) as Hp.
    set (q := (inject_Z (Z.pos m) * 2 ^ e)%Q) in *. clearbody q. lra.
  - split; [intros _; apply toQ_positive | reflexivity].
Qed.

Lemma max0_signed_true x :
  Double.signed true x -> Double.max0 x = S754_zero false.
Proof. intros [-> | [-> | (m & e & ->)]]; reflexivity. Qed.

Lemma max0_zero s : Double.max0 (S754_zero s) = S754_zero false.
Proof. destruct s; reflexivity. Qed.

(** Lines 303-307 in binary64: for raw points that are a number and not
    negative, a submission handed in after the due date and a fraction
    that is a number, what is stored is a number between zero and the raw
    points. *)
Lemma double_points_within_raw (latePenalty points : Double.t)
    (submittedAt dueDate : Time) :
  Double.gt latePenalty (Double.ofZ 0) = true ->
  dueDate < submittedAt ->
  Double.finite (Double.penalty latePenalty submittedAt dueDate) = true ->
  Double.finite points = true ->
  Double.inFormat points = true ->
  (0 <= Double.toQ points)%Q ->
  let final := Double.finalPoints true latePenalty submittedAt dueDate points in
  Double.finite final = true
  /\ Double.inFormat final = true
  /\ (0 <= Double.toQ final)%Q
  /\ (Double.toQ final <= Double.toQ points)%Q.
Proof.
  intros HL Hlate Hpen Hfin Hfmt Hpos final.
  unfold final, Double.finalPoints. rewrite HL. cbn [andb].
  destruct (penalty_class _ _ _ HL Hlate Hpen) as [Hcls Hpf].
  set (pen := Double.penalty latePenalty submittedAt dueDate) in *.
  clearbody pen.
  assert (Zero : forall x, x = S754_zero false ->
            Double.finite x = true /\ Double.inFormat x = true
            /\ (0 <= Double.toQ x)%Q /\ (Double.toQ x <= Double.toQ points)%Q).
  { intros x ->. cbn. repeat split; try reflexivity; try exact Hpos.
    apply Qle_refl. }
  destruct points as [sp | sp | | sp mp ep]; try discriminate Hfin.
  - (* nothing to take from *)
    apply Zero.
    assert (Ey : exists s, Double.mul (S754_zero sp) (Double.sub (Double.ofZ 1) pen)
                           = S754_zero s).
    { destruct Hcls as [-> | (m & e & ->)].
      - vm_compute. eauto.
      - destruct (sub_one m e Hpf) as [[s E] | [(m' & e' & E) | (m' & e' & E & _)]];
          cbn zeta in E; rewrite E; cbn [Double.mul SFmul]; eauto. }
    destruct Ey as [s ->]. apply max0_zero.
  - destruct sp.
    { exfalso. cbn [Double.toQ] in Hpos.
      pose proof (toQ_positive mp ep) as H. apply Qlt_not_le in H. apply H.
      apply Qopp_le_compat in Hpos. rewrite Qopp_involutive in Hpos.
      exact Hpos. }
    assert (Below : forall my ey, ey <= 0 -> Z.pos my <= 2 ^ (- ey) ->
              let x := Double.max0 (Double.mul (S754_finite false mp ep)
                                      (S754_finite false my ey)) in
              Double.finite x = true /\ Double.inFormat x = true
              /\ (0 <= Double.toQ x)%Q
              /\ (Double.toQ x <= Double.toQ (S754_finite false mp ep))%Q).
    { intros my ey Hey Hmy x.
      pose proof (round_aux_class false (Z.pos (mp * my)) (ep + ey) loc_Exact
                    ltac:(lia)) as [_ Hrf].
      destruct (mul_below mp ep my ey Hfmt Hey Hmy)
        as [E | (m' & e' & E & He' & Hb)]; cbn zeta in E.
      - apply Zero. unfold x. rewrite E. reflexivity.
      - unfold x. rewrite E.
        change (Double.max0 (S754_finite false m' e')) with (S754_finite false m' e').
        change (Double.mul _ _) with
          (binary_round_aux Double.prec Double.emax false (Z.pos (mp * my))
             (ep + ey) loc_Exact) in E.
        rewrite E in Hrf.
        split; [reflexivity |]. split; [exact Hrf |].
        cbn [Double.toQ]. split.
        + apply Qlt_le_weak, toQ_positive.
        + eapply toQ_below; eassumption. }
    destruct Hcls as [-> | (m & e & ->)].
    + (* nothing is taken off *)
      change (Double.sub (Double.ofZ 1) (S754_zero false))
        with (S754_finite false 4503599627370496 (-52)).
      apply Below; [lia | reflexivity].
    + destruct (sub_one m e Hpf)
        as [[s E] | [(m' & e' & E) | (m' & e' & E & He' & Hm')]];
        cbn zeta in E; rewrite E.
      * apply Zero. cbn [Double.mul SFmul]. apply max0_zero.
      * apply Zero. apply max0_signed_true.
        apply (round_aux_class true (Z.pos (mp * m')) (ep + e') loc_Exact).
        lia.
      * apply Below; assumption.
Qed.

End Binary64.

(** ** gradeSubmission *)

(** Conjunctions and existentials over worked requests, settled by
    evaluation from left to right. *)
Ltac evaluate :=
  lazymatch goal with
  | |- _ /\ _ => split; [vm_compute; reflexivity | evaluate]
  | |- ex _ => eexists; evaluate
  | |- _ => vm_compute; reflexivity
  end.

Ltac handler :=
  unfold getAssessmentById, updateAssessment, submitAssessment,
    gradeSubmission, fail, bind, findById, findByIdAndUpdate, save, ret,
    throw, raise;
  cbn [fst snd].

Lemma manages_negb user a :
  negb (sameId (Assessment.instructor a) (User._id user))
  && negb (User.isAdmin user) = negb (manages user a).
Proof. unfold manages. symmetry. apply negb_orb. Qed.

Lemma subdoc_id sid l s : subdoc sid l = Some s -> Submission._id s = sid.
Proof.
  unfold subdoc. intros H. apply find_some in H. destruct H as [_ H].
  apply String.eqb_eq in H. exact H.
Qed.

Lemma subdoc_assign sid s g l :
  subdoc sid l = Some s -> Submission._id g = sid ->
  subdoc sid (assign sid g l) = Some g.
Proof.
  unfold subdoc. intros H Hg.
  induction l as [| x l IH]; cbn [assign find] in *; [discriminate H |].
  destruct (sameId (Submission._id x) sid) eqn:E; cbn [find].
  - unfold sameId. rewrite Hg, String.eqb_refl. reflexivity.
  - rewrite E. apply IH, H.
Qed.

Lemma assign_students sid s g l :
  subdoc sid l = Some s -> Submission.student g = Submission.student s ->
  map Submission.student (assign sid g l) = map Submission.student l.
Proof.
  unfold subdoc. intros H Hg.
  induction l as [| x l IH]; cbn [assign find map] in *; [reflexivity |].
  destruct (sameId (Submission._id x) sid); cbn [map].
  - injection H as ->. rewrite Hg. reflexivity.
  - rewrite (IH H). reflexivity.
Qed.

(** The whole of gradeSubmission, outcome and collection, on every
    request. *)
Lemma gradeSubmission_cases user id sid body now st :
  gradeSubmission user id sid body now st =
  match Joi.validate gradeSchema body with
  | Some e => (Threw 400 (Details e), st)
  | None =>
      match st !! id with
      | None => (Threw 404 (Text "Assessment not found"), st)
      | Some a =>
          if manages user a then
            match subdoc sid (Assessment.submissions a) with
            | None => (Threw 404 (Text "Submission not found"), st)
            | Some s =>
                let g := Submission.graded_with (gradeOf user a s body now) s in
                (Sent ("Submission graded successfully", g),
                 <[id := Assessment.with_submissions
                           (assign sid g (Assessment.submissions a)) a]> st)
            end
          else (Threw 403 (Text "Not authorized to grade this assessment"), st)
      end
  end.
Proof.
  handler. destruct (Joi.validate _ _); [reflexivity |].
  destruct (st !! id) as [a |]; [| reflexivity].
  rewrite manages_negb. destruct (manages user a); cbn [negb]; [| reflexivity].
  destruct (subdoc _ _); reflexivity.
Qed.

(** What is known once a grade request has been answered. *)
Lemma gradeSubmission_Sent user id sid body now st r :
  fst (gradeSubmission user id sid body now st) = Sent r ->
  exists a s,
    Joi.validate gradeSchema body = None
    /\ st !! id = Some a
    /\ manages user a = true
    /\ subdoc sid (Assessment.submissions a) = Some s
    /\ r = ("Submission graded successfully",
            Submission.graded_with (gradeOf user a s body now) s)
    /\ exists a',
         snd (gradeSubmission user id sid body now st) !! id = Some a'
         /\ subdoc sid (Assessment.submissions a') = Some (snd r).
Proof.
  rewrite gradeSubmission_cases.
  destruct (Joi.validate _ _) eqn:Ev; [discriminate |].
  destruct (st !! id) as [a |] eqn:Ea; [| discriminate].
  destruct (manages user a) eqn:Em; [| discriminate].
  destruct (subdoc _ _) as [s |] eqn:Es; [| discriminate].
  cbn [fst snd]. intros H. injection H as <-.
  exists a, s. do 5 (split; [first [reflexivity | assumption] |]).
  eexists. split; [apply lookup_insert_eq |].
  cbn [Assessment.with_submissions Assessment.submissions snd].
  apply (subdoc_assign _ s); [exact Es |].
  cbn. apply (subdoc_id _ _ _ Es).
Qed.

(** C1 (as amended). A successful gradeSubmission on a submission whose
    late flag agrees with the due date in force stores a number of points
    between 0 and the points entered. The stored points are the entered
    points whenever the submission is not late or the late penalty is not
    positive; they are the entered points also when these are 0, so that
    this is no "only when". The same holds of what lines 302-307 compute
    in binary64 from the doubles that hold the late penalty of the
    assessment and the points entered, as long as the fraction taken off
    is a number: the result is a double between 0 and the points entered,
    and it is the double entered without a penalty. *)
Theorem grade_points_within_raw user id sid body now st a s m g
    (latePenalty points : Double.t) :
  st !! id = Some a ->
  subdoc sid (Assessment.submissions a) = Some s ->
  lateAfterDue a s ->
  fst (gradeSubmission user id sid body now st) = Sent (m, g) ->
  Double.represents latePenalty (Assessment.latePenalty a) ->
  Double.represents points (pointsOf body) ->
  Double.finite
    (Double.penalty latePenalty (Submission.submittedAt s)
       (Assessment.dueDate a)) = true ->
  (exists gr a',
     snd (gradeSubmission user id sid body now st) !! id = Some a'
     /\ subdoc sid (Assessment.submissions a') = Some g
     /\ Submission.grade g = Some gr
     /\ (0 <= Grade.points gr)%Q
     /\ (Grade.points gr <= pointsOf body)%Q
     /\ (Submission.isLate s = false \/ (Assessment.latePenalty a <= 0)%Q ->
         Grade.points gr = pointsOf body)
     /\ ((pointsOf body == 0)%Q -> (Grade.points gr == 0)%Q))
  /\ (let final :=
        Double.finalPoints (Submission.isLate s) latePenalty
          (Submission.submittedAt s) (Assessment.dueDate a) points in
      Double.finite final = true
      /\ Double.inFormat final = true
      /\ (0 <= Double.toQ final)%Q
      /\ (Double.toQ final <= pointsOf body)%Q
      /\ (Submission.isLate s = false \/ (Assessment.latePenalty a <= 0)%Q ->
          final = points)).
Proof.
  intros Ha Hs Hlate Hr (HLf & HLi & HLq) (Hpf & Hpi & Hpq) Hpen.
  apply gradeSubmission_Sent in Hr.
  destruct Hr as [a0 [s0 [Hv [Ha0 [_ [Hs0 [Hr [a' [Ha' Hg]]]]]]]]].
  rewrite Ha in Ha0. injection Ha0 as <-.
  rewrite Hs in Hs0. injection Hs0 as <-.
  injection Hr as _ ->.
  pose proof (pointsOf_nonneg body Hv) as Hp.
  split.
  - exists (gradeOf user a s body now), a'.
    split; [exact Ha' |]. split; [exact Hg |].
    cbn [Submission.graded_with Submission.grade gradeOf Grade.points].
    split; [reflexivity |].
    split; [apply finalPoints_nonneg, Hp |].
    split; [apply finalPoints_le; assumption |].
    split.
    + intros H. apply finalPoints_on_time, H.
    + intros H0.
      pose proof (finalPoints_nonneg a s _ Hp).
      pose proof (finalPoints_le a s _ Hp Hlate). lra.
  - cbn zeta.
    destruct (Submission.isLate s) eqn:El;
      [destruct (Double.gt latePenalty (Double.ofZ 0)) eqn:Eg |].
    + (* late under a positive penalty *)
      destruct (double_points_within_raw latePenalty points
                  (Submission.submittedAt s) (Assessment.dueDate a))
        as (Hf & Hi & H0 & H1); try assumption.
      * apply Hlate, El.
      * rewrite Hpq. exact Hp.
      * do 2 (split; [assumption |]). split; [exact H0 |].
        split; [rewrite <- Hpq; exact H1 |].
        intros [H | H]; [discriminate H |].
        apply gt_zero_iff in Eg; [| exact HLf]. rewrite HLq in Eg. lra.
    + unfold Double.finalPoints. rewrite Eg. cbn [andb].
      do 2 (split; [assumption |]). rewrite Hpq.
      split; [exact Hp |]. split; [apply Qle_refl | reflexivity].
    + unfold Double.finalPoints. cbn [andb].
      do 2 (split; [assumption |]). rewrite Hpq.
      split; [exact Hp |]. split; [apply Qle_refl | reflexivity].
Qed.

(** The bounds at work: Ana, two days late, graded 90 by the owner under
    a late penalty of 20% a day. *)
Lemma grade_points_within_raw_witness :
  (exists gr a',
     snd (gradeSubmission Demo.owner "a1" "s1" (Demo.marks 90) Demo.gradingDay
            Demo.lateStore) !! "a1" = Some a'
     /\ subdoc "s1" (Assessment.submissions a')
        = Some (Submission.graded_with
                  (gradeOf Demo.owner (Demo.essay1_with [Demo.twoDaysLate])
                     Demo.twoDaysLate (Demo.marks 90) Demo.gradingDay)
                  Demo.twoDaysLate)
     /\ Submission.grade
          (Submission.graded_with
             (gradeOf Demo.owner (Demo.essay1_with [Demo.twoDaysLate])
                Demo.twoDaysLate (Demo.marks 90) Demo.gradingDay)
             Demo.twoDaysLate) = Some gr
     /\ (0 <= Grade.points gr)%Q
     /\ (Grade.points gr <= pointsOf (Demo.marks 90))%Q
     /\ (Submission.isLate Demo.twoDaysLate = false
         \/ (Assessment.latePenalty (Demo.essay1_with [Demo.twoDaysLate]) <= 0)%Q ->
         Grade.points gr = pointsOf (Demo.marks 90))
     /\ ((pointsOf (Demo.marks 90) == 0)%Q -> (Grade.points gr == 0)%Q))
  /\ (let final :=
        Double.finalPoints (Submission.isLate Demo.twoDaysLate)
          (Double.ofZ 20) (Submission.submittedAt Demo.twoDaysLate)
          (Assessment.dueDate (Demo.essay1_with [Demo.twoDaysLate]))
          (Double.ofZ 90) in
      Double.finite final = true
      /\ Double.inFormat final = true
      /\ (0 <= Double.toQ final)%Q
      /\ (Double.toQ final <= pointsOf (Demo.marks 90))%Q
      /\ (Submission.isLate Demo.twoDaysLate = false
          \/ (Assessment.latePenalty (Demo.essay1_with [Demo.twoDaysLate]) <= 0)%Q ->
          final = Double.ofZ 90)).
Proof.
  apply (grade_points_within_raw Demo.owner "a1" "s1" (Demo.marks 90)
           Demo.gradingDay Demo.lateStore _ _
           "Submission graded successfully" _
           (Double.ofZ 20) (Double.ofZ 90)).
  - vm_compute. reflexivity.
  - vm_compute. reflexivity.
  - intros _. vm_compute. reflexivity.
  - vm_compute. reflexivity.
  - repeat split; vm_compute; reflexivity.
  - repeat split; vm_compute; reflexivity.
  - vm_compute. reflexivity.
Defined.

(** The scenarios of the spec: 90 points two days late at 20% a day are
    stored as 54, 80 points on time as 80. *)
Example scenario_two_days_late :
  exists g gr,
    fst (gradeSubmission Demo.owner "a1" "s1" (Demo.marks 90) Demo.gradingDay
           Demo.lateStore)
    = Sent ("Submission graded successfully", g)
    /\ Submission.grade g = Some gr
    /\ (Grade.points gr == 54)%Q.
Proof. evaluate. Qed.

Example scenario_on_time :
  exists g gr,
    fst (gradeSubmission Demo.owner "a1" "s2" (Demo.marks 80) Demo.gradingDay
           Demo.onTimeStore)
    = Sent ("Submission graded successfully", g)
    /\ Submission.grade g = Some gr
    /\ Grade.points gr = 80%Q.
Proof. evaluate. Qed.

(** C1, counterexample. Stored points that equal the entered points
    although the submission is late and the penalty is positive: zero
    points entered under a 20% penalty are stored as zero; and in the
    doubles of the program, 90 points one day late under a penalty of
    1e-15 percent are stored as 90, the factor [1 - 1e-17] being the
    double 1. *)
Lemma late_zero_points_equal_raw :
  (exists a s g gr,
     Demo.lateStore !! "a1" = Some a
     /\ subdoc "s1" (Assessment.submissions a) = Some s
     /\ fst (gradeSubmission Demo.owner "a1" "s1" (Demo.marks 0) Demo.gradingDay
               Demo.lateStore)
        = Sent ("Submission graded successfully", g)
     /\ Submission.grade g = Some gr
     /\ (Grade.points gr == pointsOf (Demo.marks 0))%Q
     /\ ~ (Submission.isLate s = false \/ (Assessment.latePenalty a == 0)%Q))
  /\ Double.gt Demo.tiny (Double.ofZ 0) = true
  /\ Double.sub (Double.ofZ 1)
       (Double.penalty Demo.tiny (Demo.due + msPerDay) Demo.due)
     = Double.ofZ 1
  /\ Double.finalPoints true Demo.tiny (Demo.due + msPerDay) Demo.due
       (Double.ofZ 90)
     = Double.ofZ 90.
Proof.
  split.
  - do 4 eexists.
    do 5 (split; [vm_compute; reflexivity |]).
    intros [H | H]; discriminate H.
  - repeat split; vm_compute; reflexivity.
Qed.



(** The scenarios of the spec in doubles: 90 points two days late at 20%
    a day are 54, and one second late 72. *)
Example double_scenarios :
  Double.finalPoints true (Double.ofZ 20) (Demo.due + 2 * msPerDay) Demo.due
    (Double.ofZ 90)
  = Double.ofZ 54
  /\ Double.finalPoints true (Double.ofZ 20) (Demo.due + 1000) Demo.due
       (Double.ofZ 90)
     = Double.ofZ 72
  /\ Double.finalPoints false (Double.ofZ 20) (Demo.due - msPerDay) Demo.due
       (Double.ofZ 80)
     = Double.ofZ 80.
Proof. repeat split; vm_compute; reflexivity. Qed.

(** Where the doubles part from the fractions: 100 points two days late
    at 35% a day are stored as 30.000000000000004, the double next above
    30; and three days at a third of a hundred percent make a fraction of
    exactly 1, which leaves +0. *)
Example double_rounding :
  Double.finalPoints true (Double.ofZ 35) (Demo.due + 2 * msPerDay) Demo.due
    (Double.ofZ 100)
  = SpecFloat.S754_finite false 8444249301319681 (-48)
  /\ Double.ofZ 30 = SpecFloat.S754_finite false 8444249301319680 (-48)
  /\ Double.penalty Demo.third (Demo.due + 3 * msPerDay) Demo.due
     = Double.ofZ 1
  /\ Double.finalPoints true Demo.third (Demo.due + 3 * msPerDay) Demo.due
       (Double.ofZ 90)
     = Double.ofZ 0.
Proof. repeat split; vm_compute; reflexivity. Qed.

(** The day count is cut at the binary point and counted upwards. *)
Example double_ceil :
  Double.daysLate (Demo.due + msPerDay) Demo.due = Double.ofZ 1
  /\ Double.daysLate (Demo.due + msPerDay + 1) Demo.due = Double.ofZ 2
  /\ Double.daysLate (Demo.due + 1) Demo.due = Double.ofZ 1
  /\ Double.daysLate Demo.due Demo.due = Double.ofZ 0
  /\ Double.daysLate (Demo.due - 1) Demo.due = SpecFloat.S754_zero true
  /\ Double.daysLate (Demo.due - msPerDay - 1) Demo.due = Double.ofZ (-1).
Proof. repeat split; vm_compute; reflexivity. Qed.

(** The floor at zero: what is stored for a late submission is never
    below zero. It is not a number only where the product is not. *)
Lemma double_max0_floor (x : Double.t) :
  Double.gt (Double.ofZ 0) (Double.max0 x) = false
  /\ (Double.max0 x = SpecFloat.S754_nan -> x = SpecFloat.S754_nan).
Proof.
  split.
  - destruct x as [[|] | [|] | | [|] m e]; reflexivity.
  - destruct x as [[|] | [|] | | [|] m e]; try discriminate; reflexivity.
Qed.

(** One second past the due date is charged a full day: 90 points at 20%
    a day are stored as 72. *)
Example one_second_late :
  exists a s g gr,
    Demo.secondLateStore !! "a1" = Some a
    /\ subdoc "s1" (Assessment.submissions a) = Some s
    /\ Submission.submittedAt s - Assessment.dueDate a = 1000
    /\ daysLate a s = 1
    /\ fst (gradeSubmission Demo.owner "a1" "s1" (Demo.marks 90)
              Demo.gradingDay Demo.secondLateStore)
       = Sent ("Submission graded successfully", g)
    /\ Submission.grade g = Some gr
    /\ (Grade.points gr == 72)%Q.
Proof. evaluate. Qed.

(** Six days late at 20% a day is a fraction above 1: nothing is left. *)
Example six_days_late :
  exists a s g gr,
    Demo.veryLateStore !! "a1" = Some a
    /\ subdoc "s1" (Assessment.submissions a) = Some s
    /\ daysLate a s = 6
    /\ (1 < penalty a s)%Q
    /\ fst (gradeSubmission Demo.owner "a1" "s1" (Demo.marks 90)
              Demo.gradingDay Demo.veryLateStore)
       = Sent ("Submission graded successfully", g)
    /\ Submission.grade g = Some gr
    /\ (Grade.points gr == 0)%Q.
Proof. evaluate. Qed.

(** C10 (as amended). gradeSubmission takes any safe number of points
    from zero up and never looks at [maxPoints]: for a submission that is
    on time, or under no late penalty, the entered points are stored as
    they are, also when they exceed [maxPoints]. *)
Theorem grade_points_unbounded user id sid q fb now st a s :
  st !! id = Some a ->
  manages user a = true ->
  subdoc sid (Assessment.submissions a) = Some s ->
  (0 <= q)%Q ->
  (q <= Joi.maxSafe)%Q ->
  fb <> Some "" ->
  Submission.isLate s = false \/ (Assessment.latePenalty a <= 0)%Q ->
  exists g gr a',
    fst (gradeSubmission user id sid (gradeBody q fb) now st)
    = Sent ("Submission graded successfully", g)
    /\ snd (gradeSubmission user id sid (gradeBody q fb) now st) !! id = Some a'
    /\ subdoc sid (Assessment.submissions a') = Some g
    /\ Submission.grade g = Some gr
    /\ Grade.points gr = q
    /\ Assessment.maxPoints a' = Assessment.maxPoints a
    /\ ((Assessment.maxPoints a < q)%Q ->
        (Assessment.maxPoints a' < Grade.points gr)%Q).
Proof.
  intros Ha Hm Hs Hq Hmax Hfb Hon.
  rewrite gradeSubmission_cases, (gradeBody_valid q fb Hq Hmax Hfb), Ha, Hm, Hs.
  cbn [fst snd].
  eexists. eexists. eexists.
  split; [reflexivity |].
  split; [apply lookup_insert_eq |].
  cbn [Assessment.with_submissions Assessment.submissions Assessment.maxPoints
       Submission.graded_with Submission.grade].
  split.
  { apply (subdoc_assign _ s); [exact Hs |]. apply (subdoc_id _ _ _ Hs). }
  split; [reflexivity |].
  cbn [gradeOf Grade.points]. rewrite pointsOf_gradeBody.
  rewrite (finalPoints_on_time a s q Hon).
  repeat split. intros H. exact H.
Qed.

(** 150 points entered for Ben, who was on time, out of 100. *)
Lemma grade_points_unbounded_witness :
  exists g gr a',
    fst (gradeSubmission Demo.owner "a1" "s2" (gradeBody 150 None)
           Demo.gradingDay Demo.onTimeStore)
    = Sent ("Submission graded successfully", g)
    /\ snd (gradeSubmission Demo.owner "a1" "s2" (gradeBody 150 None)
              Demo.gradingDay Demo.onTimeStore) !! "a1" = Some a'
    /\ subdoc "s2" (Assessment.submissions a') = Some g
    /\ Submission.grade g = Some gr
    /\ Grade.points gr = 150%Q
    /\ Assessment.maxPoints a'
       = Assessment.maxPoints (Demo.essay1_with [Demo.benSubmission])
    /\ ((Assessment.maxPoints (Demo.essay1_with [Demo.benSubmission]) < 150)%Q ->
        (Assessment.maxPoints a' < Grade.points gr)%Q).
Proof.
  apply (grade_points_unbounded Demo.owner "a1" "s2" 150 None Demo.gradingDay
           Demo.onTimeStore (Demo.essay1_with [Demo.benSubmission])
           Demo.benSubmission).
  - vm_compute. reflexivity.
  - reflexivity.
  - vm_compute. reflexivity.
  - discriminate.
  - discriminate.
  - discriminate.
  - left. reflexivity.
Defined.

(** C10, counterexample. Ten to the sixteenth points entered for Ben by
    the owner: the number is from zero up and the request is refused, 400
    with Joi's error for an unsafe number, and nothing is stored. *)
Lemma unsafe_points_rejected :
  (0 <= 10000000000000000)%Q
  /\ (Joi.maxSafe < 10000000000000000)%Q
  /\ manages Demo.owner (Demo.essay1_with [Demo.benSubmission]) = true
  /\ Demo.onTimeStore !! "a1" = Some (Demo.essay1_with [Demo.benSubmission])
  /\ subdoc "s2" (Assessment.submissions (Demo.essay1_with [Demo.benSubmission]))
     = Some Demo.benSubmission
  /\ gradeSubmission Demo.owner "a1" "s2" (gradeBody 10000000000000000 None)
       Demo.gradingDay Demo.onTimeStore
     = (threw (ValidationError (Joi.mkError "points" Joi.number_unsafe)),
        Demo.onTimeStore).
Proof.
  split; [discriminate |].
  split; [reflexivity |].
  split; [reflexivity |].
  split; [vm_compute; reflexivity |].
  split; [reflexivity |].
  rewrite gradeSubmission_cases. reflexivity.
Qed.

(** 150 points on an assessment out of 100. *)
Example over_the_maximum :
  exists g gr,
    fst (gradeSubmission Demo.owner "a1" "s2" (Demo.marks 150) Demo.gradingDay
           Demo.onTimeStore)
    = Sent ("Submission graded successfully", g)
    /\ Submission.grade g = Some gr
    /\ Grade.points gr = 150%Q
    /\ (Assessment.maxPoints Demo.essay1 < Grade.points gr)%Q.
Proof. evaluate. Qed.

(** C4 (as amended). A grade request with a well-formed body that names a
    submission the assessment does not have fails with "Submission not
    found" when the principal is the owning instructor or an admin, and
    with "Not authorized" otherwise: ownership is checked first. A
    principal who does not manage the assessment is refused whatever
    submission id is named. The collection is left as it was. *)
Theorem grade_missing_submission user id sid body now st a :
  st !! id = Some a ->
  Joi.validate gradeSchema body = None ->
  subdoc sid (Assessment.submissions a) = None ->
  gradeSubmission user id sid body now st
  = (if manages user a then threw SubmissionNotFound else threw GradeForbidden,
     st)
  /\ (manages user a = false ->
      forall sid',
        gradeSubmission user id sid' body now st = (threw GradeForbidden, st)).
Proof.
  intros Ha Hv Hs. split.
  - rewrite gradeSubmission_cases, Hv, Ha, Hs.
    destruct (manages user a); reflexivity.
  - intros Hm sid'. rewrite gradeSubmission_cases, Hv, Ha, Hm. reflexivity.
Qed.

(** The owner grades a submission id nobody has. *)
Lemma grade_missing_submission_witness :
  gradeSubmission Demo.owner "a1" "s9" (Demo.marks 5) Demo.gradingDay
    Demo.lateStore
  = (if manages Demo.owner (Demo.essay1_with [Demo.twoDaysLate])
     then threw SubmissionNotFound else threw GradeForbidden,
     Demo.lateStore)
  /\ (manages Demo.owner (Demo.essay1_with [Demo.twoDaysLate]) = false ->
      forall sid',
        gradeSubmission Demo.owner "a1" sid' (Demo.marks 5) Demo.gradingDay
          Demo.lateStore
        = (threw GradeForbidden, Demo.lateStore)).
Proof.
  apply (grade_missing_submission Demo.owner "a1" "s9" (Demo.marks 5)
           Demo.gradingDay Demo.lateStore (Demo.essay1_with [Demo.twoDaysLate])).
  - vm_compute. reflexivity.
  - reflexivity.
  - reflexivity.
Defined.

(** C4, counterexample. Ben, who is neither an admin nor the owning
    instructor, grades a submission id the assessment does not have: the
    answer is 403 "Not authorized", not 404 "Submission not found". *)
Lemma grade_absent_submission_forbidden :
  subdoc "s9" (Assessment.submissions (Demo.essay1_with [Demo.twoDaysLate]))
  = None
  /\ Demo.lateStore !! "a1" = Some (Demo.essay1_with [Demo.twoDaysLate])
  /\ fst (gradeSubmission Demo.ben "a1" "s9" (Demo.marks 5) Demo.gradingDay
            Demo.lateStore)
     = threw GradeForbidden
  /\ fst (gradeSubmission Demo.ben "a1" "s9" (Demo.marks 5) Demo.gradingDay
            Demo.lateStore)
     <> threw SubmissionNotFound.
Proof.
  split; [reflexivity |].
  split; [vm_compute; reflexivity |].
  split; [vm_compute; reflexivity |].
  vm_compute. discriminate.
Qed.

(** ** submitAssessment *)

Lemma find_student_None uid l :
  List.find (fun s => sameId (Submission.student s) uid) l = None <->
  ~ In uid (map Submission.student l).
Proof.
  induction l as [| x l IH]; cbn [find map In]; [tauto |].
  unfold sameId at 1. destruct (String.eqb_spec (Submission.student x) uid) as [E | E].
  - split; [discriminate | intros H; exfalso; apply H; left; exact E].
  - rewrite IH. tauto.
Qed.

(** The whole of submitAssessment, outcome and collection, on every
    request. *)
Lemma submitAssessment_cases uri user id body now oid st :
  submitAssessment uri user id body now oid st =
  match Joi.validate (submitSchema uri) body with
  | Some e => (threw (ValidationError e), st)
  | None =>
      match st !! id with
      | None => (threw AssessmentNotFound, st)
      | Some a =>
          if Assessment.isPublished a then
            match List.find
                    (fun s => sameId (Submission.student s) (User._id user))
                    (Assessment.submissions a)
            with
            | Some _ => (threw DuplicateSubmission, st)
            | None =>
                if (now >? Assessment.dueDate a)
                   && negb (Assessment.allowLateSubmission a)
                then (threw SubmissionClosed, st)
                else
                  let n := newSubmission user body now
                             (now >? Assessment.dueDate a) in
                  (Sent ("Assessment submitted successfully", n),
                   <[id := Assessment.with_submissions
                             (Assessment.submissions a ++ [subdocOf oid n])%list a]> st)
            end
          else (threw NotPublished, st)
      end
  end.
Proof.
  handler. destruct (Joi.validate _ _); [reflexivity |].
  destruct (st !! id) as [a |]; [| reflexivity].
  destruct (Assessment.isPublished a); cbn [negb]; [| reflexivity].
  destruct (find _ _); [reflexivity |].
  destruct (_ && _); reflexivity.
Qed.

(** A request that is not answered leaves the collection as it was. *)
Lemma submitAssessment_Threw uri user id body now oid st c m :
  fst (submitAssessment uri user id body now oid st) = Threw c m ->
  snd (submitAssessment uri user id body now oid st) = st.
Proof.
  rewrite submitAssessment_cases.
  destruct (Joi.validate _ _); [reflexivity |].
  destruct (st !! id) as [a |]; [| reflexivity].
  destruct (Assessment.isPublished a); [| reflexivity].
  destruct (find _ _); [reflexivity |].
  destruct (_ && _); [reflexivity | discriminate].
Qed.

(** What is known once a submit has been answered. *)
Lemma submitAssessment_Sent uri user id body now oid st a r :
  st !! id = Some a ->
  fst (submitAssessment uri user id body now oid st) = Sent r ->
  Assessment.isPublished a = true
  /\ List.find (fun s => sameId (Submission.student s) (User._id user))
       (Assessment.submissions a) = None
  /\ r = ("Assessment submitted successfully",
          newSubmission user body now (now >? Assessment.dueDate a))
  /\ snd (submitAssessment uri user id body now oid st)
     = <[id := Assessment.with_submissions
                 (Assessment.submissions a ++ [subdocOf oid (snd r)])%list a]> st.
Proof.
  intros Ha. rewrite submitAssessment_cases, Ha.
  destruct (Joi.validate _ _); [discriminate |].
  destruct (Assessment.isPublished a); [| discriminate].
  destruct (find _ _); [discriminate |].
  destruct (_ && _); [discriminate |].
  cbn [fst snd]. intros H. injection H as <-. repeat split.
Qed.

(** Replacing the submissions leaves every other path as it was. *)
Lemma with_submissions_keeps l a : keeps a (Assessment.with_submissions l a).
Proof. repeat split. Qed.

(** What is handed in late is handed in after the due date of the
    moment. *)
Lemma submit_lateAfterDue uri user id body now oid st a r :
  st !! id = Some a ->
  fst (submitAssessment uri user id body now oid st) = Sent r ->
  exists a',
    snd (submitAssessment uri user id body now oid st) !! id = Some a'
    /\ Assessment.submissions a'
       = (Assessment.submissions a ++ [subdocOf oid (snd r)])%list
    /\ lateAfterDue a' (subdocOf oid (snd r)).
Proof.
  intros Ha. rewrite submitAssessment_cases, Ha.
  destruct (Joi.validate _ _); [discriminate |].
  destruct (Assessment.isPublished a); [| discriminate].
  destruct (find _ _); [discriminate |].
  destruct (_ && _); [discriminate |].
  cbn [fst snd]. intros H. injection H as <-.
  eexists. split; [apply lookup_insert_eq |].
  split; [reflexivity |].
  unfold lateAfterDue. cbn. intros H. apply Z.gtb_lt in H. exact H.
Qed.

(** ** One submission per student *)

Lemma serve_onePerStudent uri st r :
  onePerStudent st -> onePerStudent (serve uri st r).
Proof.
  intros Hinv. destruct r as [user id body now oid | user id sid body now];
    cbn [serve].
  - rewrite submitAssessment_cases.
    destruct (Joi.validate _ _); [exact Hinv |].
    destruct (st !! id) as [a |] eqn:Ea; [| exact Hinv].
    destruct (Assessment.isPublished a); [| exact Hinv].
    destruct (find _ _) eqn:Ef; [exact Hinv |].
    destruct (_ && _); [exact Hinv |].
    cbn [snd]. intros id' a' Hl.
    destruct (decide (id = id')) as [<- | Hne].
    + rewrite lookup_insert_eq in Hl. injection Hl as <-.
      unfold students. cbn [Assessment.with_submissions Assessment.submissions].
      rewrite map_app. cbn [map subdocOf Submission.student newSubmission
                              new_student].
      apply NoDup_app. split; [apply (Hinv id a Ea) |].
      split; [| apply NoDup_singleton].
      intros x Hx Hx'. apply list_elem_of_In in Hx, Hx'.
      destruct Hx' as [<- | []].
      apply find_student_None in Ef. apply Ef, Hx.
    + rewrite lookup_insert_ne in Hl by exact Hne. apply (Hinv id' a' Hl).
  - rewrite gradeSubmission_cases.
    destruct (Joi.validate _ _); [exact Hinv |].
    destruct (st !! id) as [a |] eqn:Ea; [| exact Hinv].
    destruct (manages user a); [| exact Hinv].
    destruct (subdoc _ _) as [s |] eqn:Es; [| exact Hinv].
    cbn [snd]. intros id' a' Hl.
    destruct (decide (id = id')) as [<- | Hne].
    + rewrite lookup_insert_eq in Hl. injection Hl as <-.
      unfold students. cbn [Assessment.with_submissions Assessment.submissions].
      rewrite (assign_students sid s); [apply (Hinv id a Ea) | exact Es |].
      reflexivity.
    + rewrite lookup_insert_ne in Hl by exact Hne. apply (Hinv id' a' Hl).
Qed.

Lemma run_onePerStudent uri rs st :
  onePerStudent st -> onePerStudent (run uri rs st).
Proof.
  unfold run. revert st.
  induction rs as [| r rs IH]; intros st Hinv; cbn [fold_left];
    [exact Hinv |].
  apply IH, serve_onePerStudent, Hinv.
Qed.

(** Assessments are created without submissions, and such a collection
    has one submission per student. *)
Lemma fresh_onePerStudent (st : Store) :
  (forall id a, st !! id = Some a -> Assessment.submissions a = []) ->
  onePerStudent st.
Proof.
  intros H id a Ha. unfold students. rewrite (H id a Ha). apply NoDup_nil_2.
Qed.

(** C5 (as amended). On a published assessment, a submit by a student
    who has a submission there already is never answered and leaves the
    collection, and so the submissions, as they were; with a well-formed
    body it fails with "Assessment already submitted". So a collection
    with at most one submission per student in each assessment stays so
    under whatever submit and grade requests follow. *)
Theorem duplicate_submit_rejected uri user id body now oid st a :
  st !! id = Some a ->
  Assessment.isPublished a = true ->
  In (User._id user) (students a) ->
  snd (submitAssessment uri user id body now oid st) = st
  /\ (forall r, fst (submitAssessment uri user id body now oid st) <> Sent r)
  /\ (Joi.validate (submitSchema uri) body = None ->
      submitAssessment uri user id body now oid st
      = (threw DuplicateSubmission, st))
  /\ (onePerStudent st -> forall rs, onePerStudent (run uri rs st)).
Proof.
  intros Ha Hp Hin.
  assert (Hf : exists x,
             List.find (fun s => sameId (Submission.student s) (User._id user))
               (Assessment.submissions a) = Some x).
  { destruct (find _ _) as [x |] eqn:E; [exists x; reflexivity |].
    apply find_student_None in E. contradiction. }
  destruct Hf as [x Hf].
  rewrite submitAssessment_cases, Ha, Hp, Hf.
  split; [destruct (Joi.validate _ _); reflexivity |].
  split; [intros r; destruct (Joi.validate _ _); discriminate |].
  split; [intros ->; reflexivity |].
  intros Hinv rs. apply run_onePerStudent, Hinv.
Qed.

(** Ana, who has handed in, submits again. *)
Lemma duplicate_submit_rejected_witness :
  snd (submitAssessment Demo.uri Demo.ana "a1" Demo.answer Demo.gradingDay "s3"
         Demo.lateStore) = Demo.lateStore
  /\ (forall r,
        fst (submitAssessment Demo.uri Demo.ana "a1" Demo.answer Demo.gradingDay
               "s3" Demo.lateStore) <> Sent r)
  /\ (Joi.validate (submitSchema Demo.uri) Demo.answer = None ->
      submitAssessment Demo.uri Demo.ana "a1" Demo.answer Demo.gradingDay "s3"
        Demo.lateStore
      = (threw DuplicateSubmission, Demo.lateStore))
  /\ (onePerStudent Demo.lateStore ->
      forall rs, onePerStudent (run Demo.uri rs Demo.lateStore)).
Proof.
  apply (duplicate_submit_rejected Demo.uri Demo.ana "a1" Demo.answer
           Demo.gradingDay "s3" Demo.lateStore
           (Demo.essay1_with [Demo.twoDaysLate])).
  - vm_compute. reflexivity.
  - reflexivity.
  - left. reflexivity.
Defined.

(** C6. A submit on an assessment that is not published is never
    answered and leaves the collection as it was, whatever the time of the
    call and the due date; with a well-formed body it fails with
    "Assessment is not published". *)
Theorem unpublished_rejects_submit uri user id body now oid st a :
  st !! id = Some a ->
  Assessment.isPublished a = false ->
  snd (submitAssessment uri user id body now oid st) = st
  /\ (forall r, fst (submitAssessment uri user id body now oid st) <> Sent r)
  /\ (Joi.validate (submitSchema uri) body = None ->
      submitAssessment uri user id body now oid st = (threw NotPublished, st)).
Proof.
  intros Ha Hp. rewrite submitAssessment_cases, Ha, Hp.
  split; [destruct (Joi.validate _ _); reflexivity |].
  split; [intros r; destruct (Joi.validate _ _); discriminate |].
  intros ->. reflexivity.
Qed.

(** Ana submits to the draft. *)
Lemma unpublished_rejects_submit_witness :
  snd (submitAssessment Demo.uri Demo.ana "a1" Demo.answer Demo.gradingDay "s1"
         Demo.draftStore) = Demo.draftStore
  /\ (forall r,
        fst (submitAssessment Demo.uri Demo.ana "a1" Demo.answer Demo.gradingDay
               "s1" Demo.draftStore) <> Sent r)
  /\ (Joi.validate (submitSchema Demo.uri) Demo.answer = None ->
      submitAssessment Demo.uri Demo.ana "a1" Demo.answer Demo.gradingDay "s1"
        Demo.draftStore
      = (threw NotPublished, Demo.draftStore)).
Proof.
  apply (unpublished_rejects_submit Demo.uri Demo.ana "a1" Demo.answer
           Demo.gradingDay "s1" Demo.draftStore (Demo.mkEssay false true)).
  - vm_compute. reflexivity.
  - reflexivity.
Defined.

(** C7. A first, well-formed submit on a published assessment at [now]:
    after the due date it fails with "Submission deadline has passed" and
    appends nothing when late submissions are not allowed, and when they
    are it is answered and appends a submission with [isLate] true and
    [submittedAt] the time of the call; up to and at the due date it is
    answered and appends a submission with [isLate] false. To append is
    to store the assessment with the submissions it had followed by the
    new one, the submitter's, not graded, and with every other path as it
    was; the answer reports the same flag and time. *)
Theorem submit_late_policy uri user id body now oid st a :
  st !! id = Some a ->
  Assessment.isPublished a = true ->
  ~ In (User._id user) (students a) ->
  Joi.validate (submitSchema uri) body = None ->
  (Assessment.dueDate a < now ->
   Assessment.allowLateSubmission a = false ->
   submitAssessment uri user id body now oid st = (threw SubmissionClosed, st))
  /\ (Assessment.dueDate a < now ->
      Assessment.allowLateSubmission a = true ->
      exists n a' s',
        fst (submitAssessment uri user id body now oid st)
        = Sent ("Assessment submitted successfully", n)
        /\ snd (submitAssessment uri user id body now oid st) !! id = Some a'
        /\ Assessment.submissions a' = (Assessment.submissions a ++ [s'])%list
        /\ keeps a a'
        /\ Submission.isLate s' = true
        /\ Submission.submittedAt s' = now
        /\ Submission.student s' = User._id user
        /\ Submission._id s' = oid
        /\ Submission.content s' = default JNull (field "content" body)
        /\ Submission.status s' = submitted
        /\ Submission.grade s' = None
        /\ new_isLate n = true
        /\ new_submittedAt n = now
        /\ new_student n = User._id user)
  /\ (now <= Assessment.dueDate a ->
      exists n a' s',
        fst (submitAssessment uri user id body now oid st)
        = Sent ("Assessment submitted successfully", n)
        /\ snd (submitAssessment uri user id body now oid st) !! id = Some a'
        /\ Assessment.submissions a' = (Assessment.submissions a ++ [s'])%list
        /\ keeps a a'
        /\ Submission.isLate s' = false
        /\ Submission.submittedAt s' = now
        /\ Submission.student s' = User._id user
        /\ Submission._id s' = oid
        /\ Submission.content s' = default JNull (field "content" body)
        /\ Submission.status s' = submitted
        /\ Submission.grade s' = None
        /\ new_isLate n = false
        /\ new_submittedAt n = now
        /\ new_student n = User._id user).
Proof.
  intros Ha Hp Hfirst Hv.
  apply find_student_None in Hfirst.
  rewrite submitAssessment_cases, Hv, Ha, Hp, Hfirst.
  split; [| split].
  - intros Hlate Hallow. apply Z.gtb_lt in Hlate. rewrite Hlate, Hallow.
    reflexivity.
  - intros Hlate Hallow. apply Z.gtb_lt in Hlate. rewrite Hlate, Hallow.
    cbn [andb negb fst snd].
    eexists. eexists. eexists.
    split; [reflexivity |].
    split; [apply lookup_insert_eq |].
    split; [reflexivity |].
    split; [apply with_submissions_keeps |].
    repeat split.
  - intros Hon.
    assert (E : (now >? Assessment.dueDate a) = false).
    { rewrite Z.gtb_ltb. apply Z.ltb_ge, Hon. }
    rewrite E. cbn [andb negb fst snd].
    eexists. eexists. eexists.
    split; [reflexivity |].
    split; [apply lookup_insert_eq |].
    split; [reflexivity |].
    split; [apply with_submissions_keeps |].
    repeat split.
Qed.

(** Ana submits to the published assessment ten days late. *)
Lemma submit_late_policy_witness :
  (Assessment.dueDate Demo.essay1 < Demo.gradingDay ->
   Assessment.allowLateSubmission Demo.essay1 = false ->
   submitAssessment Demo.uri Demo.ana "a1" Demo.answer Demo.gradingDay "s1"
     Demo.store1
   = (threw SubmissionClosed, Demo.store1))
  /\ (Assessment.dueDate Demo.essay1 < Demo.gradingDay ->
      Assessment.allowLateSubmission Demo.essay1 = true ->
      exists n a' s',
        fst (submitAssessment Demo.uri Demo.ana "a1" Demo.answer
               Demo.gradingDay "s1" Demo.store1)
        = Sent ("Assessment submitted successfully", n)
        /\ snd (submitAssessment Demo.uri Demo.ana "a1" Demo.answer
                  Demo.gradingDay "s1" Demo.store1) !! "a1" = Some a'
        /\ Assessment.submissions a'
           = (Assessment.submissions Demo.essay1 ++ [s'])%list
        /\ keeps Demo.essay1 a'
        /\ Submission.isLate s' = true
        /\ Submission.submittedAt s' = Demo.gradingDay
        /\ Submission.student s' = User._id Demo.ana
        /\ Submission._id s' = "s1"
        /\ Submission.content s' = default JNull (field "content" Demo.answer)
        /\ Submission.status s' = submitted
        /\ Submission.grade s' = None
        /\ new_isLate n = true
        /\ new_submittedAt n = Demo.gradingDay
        /\ new_student n = User._id Demo.ana)
  /\ (Demo.gradingDay <= Assessment.dueDate Demo.essay1 ->
      exists n a' s',
        fst (submitAssessment Demo.uri Demo.ana "a1" Demo.answer
               Demo.gradingDay "s1" Demo.store1)
        = Sent ("Assessment submitted successfully", n)
        /\ snd (submitAssessment Demo.uri Demo.ana "a1" Demo.answer
                  Demo.gradingDay "s1" Demo.store1) !! "a1" = Some a'
        /\ Assessment.submissions a'
           = (Assessment.submissions Demo.essay1 ++ [s'])%list
        /\ keeps Demo.essay1 a'
        /\ Submission.isLate s' = false
        /\ Submission.submittedAt s' = Demo.gradingDay
        /\ Submission.student s' = User._id Demo.ana
        /\ Submission._id s' = "s1"
        /\ Submission.content s' = default JNull (field "content" Demo.answer)
        /\ Submission.status s' = submitted
        /\ Submission.grade s' = None
        /\ new_isLate n = false
        /\ new_submittedAt n = Demo.gradingDay
        /\ new_student n = User._id Demo.ana).
Proof.
  apply (submit_late_policy Demo.uri Demo.ana "a1" Demo.answer Demo.gradingDay
           "s1" Demo.store1 Demo.essay1).
  - vm_compute. reflexivity.
  - reflexivity.
  - intros [].
  - reflexivity.
Defined.

(** The three cases on the worked assessment. *)
Example late_and_closed :
  submitAssessment Demo.uri Demo.ana "a1" Demo.answer (Demo.due + 1) "s1"
    Demo.strictStore
  = (threw SubmissionClosed, Demo.strictStore).
Proof. vm_compute. reflexivity. Qed.

Example late_and_allowed :
  Demo.lateStore !! "a1" = Some (Demo.essay1_with [Demo.twoDaysLate]).
Proof. vm_compute. reflexivity. Qed.

Example at_the_due_date :
  snd (submitAssessment Demo.uri Demo.ana "a1" Demo.answer Demo.due "s1"
         Demo.strictStore)
  !! "a1"
  = Some (Assessment.with_submissions [Demo.anaSubmission Demo.due false]
            (Demo.mkEssay true false)).
Proof. vm_compute. reflexivity. Qed.

(** C9 (as amended). Submit validation lets through the bodies that
    have a [content] object and no other key, where [content] has only
    recognised keys, each present one a non-empty text, and for
    [githubUrl] and [websiteUrl] one that passes Joi's uri test; every
    other body fails with the Joi error, status 400, and leaves the
    collection as it was. No field of [content] is required: the empty
    object passes. This for whatever Joi's uri test accepts. *)
Theorem submit_validation uri user id body now oid st :
  (submitBodyOk uri body <-> Joi.validate (submitSchema uri) body = None)
  /\ (~ submitBodyOk uri body ->
      exists e,
        Joi.validate (submitSchema uri) body = Some e
        /\ submitAssessment uri user id body now oid st
           = (threw (ValidationError e), st))
  /\ (submitBodyOk uri body ->
      forall e,
        fst (submitAssessment uri user id body now oid st)
        <> threw (ValidationError e))
  /\ submitBodyOk uri (JObj [("content", JObj [])]).
Proof.
  split; [symmetry; apply submitSchema_ok |].
  split; [| split].
  - intros Hno. destruct (Joi.validate (submitSchema uri) body) as [e |] eqn:E.
    + exists e. split; [reflexivity |].
      rewrite submitAssessment_cases, E. reflexivity.
    + apply submitSchema_ok in E. contradiction.
  - intros Hok e. apply submitSchema_ok in Hok.
    rewrite submitAssessment_cases, Hok.
    destruct (st !! id) as [a |]; [| discriminate].
    destruct (Assessment.isPublished a); [| discriminate].
    destruct (find _ _); [discriminate |].
    destruct (_ && _); discriminate.
  - apply submitSchema_ok. reflexivity.
Qed.

(** C9, counterexample. A body whose content is the empty object passes
    validation and is stored as Ana's submission. *)
Lemma empty_content_accepted :
  Joi.validate (submitSchema Demo.uri) (JObj [("content", JObj [])]) = None
  /\ submitAssessment Demo.uri Demo.ana "a1" (JObj [("content", JObj [])])
       (Demo.due - 1) "s1" Demo.store1
     = (Sent ("Assessment submitted successfully",
              {| new_student := "u-ana"; new_content := JObj [];
                 new_isLate := false; new_submittedAt := Demo.due - 1 |}),
        <["a1" := Demo.essay1_with
                    [ {| Submission._id := "s1"; Submission.student := "u-ana";
                         Submission.content := JObj [];
                         Submission.isLate := false;
                         Submission.submittedAt := Demo.due - 1;
                         Submission.status := submitted;
                         Submission.grade := None |} ]]> Demo.store1)
  /\ <["a1" := Demo.essay1_with
                 [ {| Submission._id := "s1"; Submission.student := "u-ana";
                      Submission.content := JObj [];
                      Submission.isLate := false;
                      Submission.submittedAt := Demo.due - 1;
                      Submission.status := submitted;
                      Submission.grade := None |} ]]> Demo.store1
     <> Demo.store1.
Proof.
  split; [reflexivity |].
  split; [vm_compute; reflexivity |].
  intros E.
  assert (H : (<["a1" := Demo.essay1_with
                 [ {| Submission._id := "s1"; Submission.student := "u-ana";
                      Submission.content := JObj [];
                      Submission.isLate := false;
                      Submission.submittedAt := Demo.due - 1;
                      Submission.status := submitted;
                      Submission.grade := None |} ]]> Demo.store1) !! "a1"
              = Demo.store1 !! "a1") by (rewrite E; reflexivity).
  vm_compute in H. discriminate H.
Qed.

(** What validation does reject, whatever the uri test. *)
Example content_missing uri :
  Joi.validate (submitSchema uri) (JObj [])
  = Some (Joi.mkError "content" Joi.any_required).
Proof. reflexivity. Qed.

Example text_empty uri :
  Joi.validate (submitSchema uri) (JObj [("content", JObj [("text", JStr "")])])
  = Some (Joi.mkError "text" Joi.string_empty).
Proof. reflexivity. Qed.

Example url_empty uri :
  Joi.validate (submitSchema uri)
    (JObj [("content", JObj [("githubUrl", JStr "")])])
  = Some (Joi.mkError "githubUrl" Joi.string_empty).
Proof. reflexivity. Qed.

Example url_refused uri t :
  t <> "" -> uri t = false ->
  Joi.validate (submitSchema uri)
    (JObj [("content", JObj [("websiteUrl", JStr t)])])
  = Some (Joi.mkError "websiteUrl" Joi.string_uri).
Proof.
  intros Hne Hu. destruct t as [| c t]; [congruence |].
  cbn. rewrite Hu. reflexivity.
Qed.

Example key_not_recognised uri :
  Joi.validate (submitSchema uri)
    (JObj [("content", JObj [("notes", JStr "x")])])
  = Some (Joi.mkError "notes" Joi.object_unknown).
Proof. reflexivity. Qed.

(** ** getAssessmentById *)

Lemma own_In uid l s :
  In s (own uid l) <-> In s l /\ Submission.student s = uid.
Proof.
  unfold own. rewrite filter_In. unfold sameId.
  rewrite String.eqb_eq. reflexivity.
Qed.

Lemma own_cons uid x l :
  own uid (x :: l)
  = if sameId (Submission.student x) uid then x :: own uid l else own uid l.
Proof. reflexivity. Qed.

Lemma own_at_most_one uid l :
  NoDup (map Submission.student l) -> (length (own uid l) <= 1)%nat.
Proof.
  induction l as [| x l IH]; [intros _; cbn; lia |].
  cbn [map]. intros Hnd. apply NoDup_cons in Hnd as [Hx Hnd].
  rewrite own_cons. unfold sameId.
  destruct (String.eqb_spec (Submission.student x) uid) as [E | E];
    [| apply IH, Hnd].
  destruct (own uid l) as [| y l'] eqn:Ey; [cbn; lia |].
  exfalso. apply Hx. apply list_elem_of_In.
  assert (Hy : In y (own uid l)) by (rewrite Ey; left; reflexivity).
  apply own_In in Hy. destruct Hy as [Hy1 Hy2].
  rewrite E, <- Hy2. apply in_map, Hy1.
Qed.

Lemma populated_Some users ref : ref ∈ users -> populated users ref = Some ref.
Proof. intros H. unfold populated. rewrite bool_decide_eq_true_2; auto. Qed.

Lemma populated_None users ref : ref ∉ users -> populated users ref = None.
Proof. intros H. unfold populated. rewrite bool_decide_eq_false_2; auto. Qed.

(** The filter goes through when every student is there, and then keeps
    the submissions of the principal; it breaks when one is not. *)
Lemma filterOwn_Some users uid l :
  (forall s, In s l -> Submission.student s ∈ users) ->
  filterOwn users uid l = Some (own uid l).
Proof.
  induction l as [| x l IH]; intros H; cbn [filterOwn]; [reflexivity |].
  rewrite populated_Some by (apply H; left; reflexivity).
  rewrite IH by (intros s Hs; apply H; right; exact Hs).
  rewrite own_cons. reflexivity.
Qed.

Lemma filterOwn_None users uid l :
  ~ (forall s, In s l -> Submission.student s ∈ users) ->
  filterOwn users uid l = None.
Proof.
  induction l as [| x l IH]; intros H; cbn [filterOwn].
  - exfalso. apply H. intros s [].
  - destruct (decide (Submission.student x ∈ users)) as [Hx | Hx];
      [| rewrite populated_None by exact Hx; reflexivity].
    rewrite populated_Some by exact Hx.
    rewrite IH; [reflexivity |].
    intros Hl. apply H. intros s [<- | Hs]; [exact Hx | apply Hl, Hs].
Qed.

Lemma getAssessmentById_cases users user id st :
  getAssessmentById users user id st =
  match st !! id with
  | None => (threw AssessmentNotFound, st)
  | Some a =>
      match populated users (Assessment.instructor a) with
      | None => (Raised TypeError, st)
      | Some _ =>
          if manages user a then (Sent a, st)
          else if Assessment.isPublished a
               then match filterOwn users (User._id user)
                            (Assessment.submissions a)
                    with
                    | Some l => (Sent (Assessment.with_submissions l a), st)
                    | None => (Raised TypeError, st)
                    end
               else (threw ViewForbidden, st)
      end
  end.
Proof.
  handler. destruct (st !! id) as [a |]; [| reflexivity].
  unfold populated.
  destruct (bool_decide _); [| reflexivity].
  rewrite manages_negb. destruct (manages user a); cbn [negb andb];
    [reflexivity |].
  destruct (Assessment.isPublished a); cbn [negb]; [| reflexivity].
  destruct (filterOwn _ _ _); reflexivity.
Qed.

(** C8 (as amended). A get-by-id on a published assessment leaves the
    collection as it was. When the users it reads are there, it is
    answered: the owning instructor and an admin are sent all the
    submissions; every other principal, student or instructor of
    something else, is sent exactly the submissions whose student they
    are, which is at most one when the assessment has one submission per
    student. When one of those users is gone it breaks with a TypeError
    and sends nothing. *)
Theorem view_submissions users user id st a :
  st !! id = Some a ->
  Assessment.isPublished a = true ->
  (resolved users user a ->
   exists r,
     getAssessmentById users user id st = (Sent r, st)
     /\ keeps a r
     /\ (manages user a = true ->
         Assessment.submissions r = Assessment.submissions a)
     /\ (manages user a = false ->
         Assessment.submissions r
         = own (User._id user) (Assessment.submissions a)
         /\ (forall s,
               In s (Assessment.submissions r) <->
               In s (Assessment.submissions a)
               /\ Submission.student s = User._id user)
         /\ (NoDup (students a) ->
             (length (Assessment.submissions r) <= 1)%nat)))
  /\ (~ resolved users user a ->
      getAssessmentById users user id st = (Raised TypeError, st)).
Proof.
  intros Ha Hp. rewrite getAssessmentById_cases, Ha, Hp. split.
  - intros [Hi Hs]. rewrite (populated_Some _ _ Hi).
    destruct (manages user a) eqn:Em.
    + exists a. split; [reflexivity |]. split; [repeat split |].
      split; [reflexivity | discriminate].
    + rewrite (filterOwn_Some _ _ _ (Hs eq_refl)).
      eexists. split; [reflexivity |].
      split; [apply with_submissions_keeps |].
      split; [discriminate |].
      intros _. cbn [Assessment.with_submissions Assessment.submissions].
      split; [reflexivity |].
      split; [intros s; apply own_In | apply own_at_most_one].
  - intros Hno.
    destruct (decide (Assessment.instructor a ∈ users)) as [Hi | Hi];
      [| rewrite (populated_None _ _ Hi); reflexivity].
    rewrite (populated_Some _ _ Hi).
    destruct (manages user a) eqn:Em.
    + exfalso. apply Hno. split; [exact Hi | congruence].
    + rewrite filterOwn_None; [reflexivity |].
      intros Hs. apply Hno. split; [exact Hi | intros _; exact Hs].
Qed.

(** Ana looks at the assessment both have handed in. *)
Lemma view_submissions_witness :
  (resolved Demo.users Demo.ana
     (Demo.essay1_with [Demo.twoDaysLate; Demo.benSubmission]) ->
   exists r,
     getAssessmentById Demo.users Demo.ana "a1" Demo.bothStore
     = (Sent r, Demo.bothStore)
     /\ keeps (Demo.essay1_with [Demo.twoDaysLate; Demo.benSubmission]) r
     /\ (manages Demo.ana
           (Demo.essay1_with [Demo.twoDaysLate; Demo.benSubmission]) = true ->
         Assessment.submissions r
         = Assessment.submissions
             (Demo.essay1_with [Demo.twoDaysLate; Demo.benSubmission]))
     /\ (manages Demo.ana
           (Demo.essay1_with [Demo.twoDaysLate; Demo.benSubmission]) = false ->
         Assessment.submissions r
         = own (User._id Demo.ana)
             (Assessment.submissions
                (Demo.essay1_with [Demo.twoDaysLate; Demo.benSubmission]))
         /\ (forall s,
               In s (Assessment.submissions r) <->
               In s (Assessment.submissions
                       (Demo.essay1_with [Demo.twoDaysLate; Demo.benSubmission]))
               /\ Submission.student s = User._id Demo.ana)
         /\ (NoDup (students
                      (Demo.essay1_with [Demo.twoDaysLate; Demo.benSubmission])) ->
             (length (Assessment.submissions r) <= 1)%nat)))
  /\ (~ resolved Demo.users Demo.ana
         (Demo.essay1_with [Demo.twoDaysLate; Demo.benSubmission]) ->
      getAssessmentById Demo.users Demo.ana "a1" Demo.bothStore
      = (Raised TypeError, Demo.bothStore)).
Proof.
  apply (view_submissions Demo.users Demo.ana "a1" Demo.bothStore
           (Demo.essay1_with [Demo.twoDaysLate; Demo.benSubmission])).
  - vm_compute. reflexivity.
  - reflexivity.
Defined.

(** Ana is sent her own submission, the owner and the admin both. *)
Example student_view :
  fst (getAssessmentById Demo.users Demo.ana "a1" Demo.bothStore)
  = Sent (Demo.essay1_with [Demo.twoDaysLate]).
Proof. vm_compute. reflexivity. Qed.

Example owner_view :
  fst (getAssessmentById Demo.users Demo.owner "a1" Demo.bothStore)
  = Sent (Demo.essay1_with [Demo.twoDaysLate; Demo.benSubmission]).
Proof. vm_compute. reflexivity. Qed.

Example admin_view :
  fst (getAssessmentById Demo.users Demo.admin "a1" Demo.bothStore)
  = Sent (Demo.essay1_with [Demo.twoDaysLate; Demo.benSubmission]).
Proof. vm_compute. reflexivity. Qed.

(** Once Ben's account is gone, Ana's look at the assessment breaks on
    his submission, and the owner's does not; once the owner's is gone,
    everyone's breaks, before it is asked whether they may look. *)
Example views_without_a_user :
  fst (getAssessmentById (Demo.users ∖ {[ "u-ben" ]}) Demo.ana "a1"
         Demo.bothStore)
  = Raised TypeError
  /\ fst (getAssessmentById (Demo.users ∖ {[ "u-ben" ]}) Demo.owner "a1"
            Demo.bothStore)
     = Sent (Demo.essay1_with [Demo.twoDaysLate; Demo.benSubmission])
  /\ fst (getAssessmentById (Demo.users ∖ {[ "u-owner" ]}) Demo.admin "a1"
            Demo.bothStore)
     = Raised TypeError
  /\ fst (getAssessmentById (Demo.users ∖ {[ "u-owner" ]}) Demo.ana "a1"
            Demo.draftStore)
     = Raised TypeError.
Proof. repeat split; vm_compute; reflexivity. Qed.

(** C8, counterexample. An instructor who does not own the assessment is
    sent none of its two submissions. *)
Lemma other_instructor_sees_nothing :
  User.isInstructor Demo.colleague = true
  /\ Demo.bothStore !! "a1"
     = Some (Demo.essay1_with [Demo.twoDaysLate; Demo.benSubmission])
  /\ Assessment.isPublished
       (Demo.essay1_with [Demo.twoDaysLate; Demo.benSubmission]) = true
  /\ fst (getAssessmentById Demo.users Demo.colleague "a1" Demo.bothStore)
     = Sent (Demo.essay1_with [])
  /\ Assessment.submissions (Demo.essay1_with [])
     <> Assessment.submissions
          (Demo.essay1_with [Demo.twoDaysLate; Demo.benSubmission]).
Proof.
  split; [reflexivity |].
  split; [vm_compute; reflexivity |].
  split; [reflexivity |].
  split; [vm_compute; reflexivity |].
  discriminate.
Qed.

(** ** updateAssessment *)

Lemma updateAssessment_cases user id body st :
  updateAssessment user id body st =
  match st !! id with
  | None => (threw AssessmentNotFound, st)
  | Some a =>
      if manages user a
      then match Update.apply body a with
           | Some a' => (Sent (Some a'), <[id := a']> st)
           | None => (Raised MongooseError, st)
           end
      else (threw UpdateForbidden, st)
  end.
Proof.
  handler. destruct (st !! id) as [a |] eqn:Ea; [| reflexivity].
  rewrite manages_negb. destruct (manages user a); cbn [negb];
    [| reflexivity].
  rewrite Ea. reflexivity.
Qed.

Lemma immutable_rewrites a b : rewrites a b (Update.immutable a b).
Proof. repeat split. Qed.

(** The body that names nothing leaves the document as it is. *)
Lemma paths_empty a : Update.apply (Update.paths Update.empty) a = Some a.
Proof. destruct a. reflexivity. Qed.

(** C3. Whatever the body of an update request, and whatever becomes of
    the request, the assessment is stored afterwards with the course and
    the instructor it had. An update that passes the ownership check and
    that Mongoose takes is answered with the document it stores: the one
    the body makes of the stored one in every other path, and in these
    two the stored one. *)
Theorem update_course_instructor user id body st a :
  st !! id = Some a ->
  (exists a',
     snd (updateAssessment user id body st) !! id = Some a'
     /\ Assessment.course a' = Assessment.course a
     /\ Assessment.instructor a' = Assessment.instructor a)
  /\ (manages user a = true ->
      forall b, body a = Some b ->
      exists a',
        fst (updateAssessment user id body st) = Sent (Some a')
        /\ snd (updateAssessment user id body st) !! id = Some a'
        /\ rewrites a b a')
  /\ (forall r,
        fst (updateAssessment user id body st) = Sent r ->
        manages user a = true /\ exists b, body a = Some b).
Proof.
  intros Ha. rewrite updateAssessment_cases, Ha. unfold Update.apply.
  split; [| split].
  - destruct (manages user a); [| exists a; repeat split; exact Ha].
    destruct (body a) as [b |]; [| exists a; repeat split; exact Ha].
    exists (Update.immutable a b). cbn [snd].
    split; [apply lookup_insert_eq |]. split; reflexivity.
  - intros -> b ->. exists (Update.immutable a b). cbn [fst snd].
    split; [reflexivity |]. split; [apply lookup_insert_eq |].
    apply immutable_rewrites.
  - intros r. destruct (manages user a); [| discriminate].
    destruct (body a) as [b |]; [| discriminate].
    intros _. split; [reflexivity | exists b; reflexivity].
Qed.

(** The owner sends a body that names another course and another
    instructor. *)
Lemma update_course_instructor_witness :
  (exists a',
     snd (updateAssessment Demo.owner "a1" Demo.handOver Demo.store1) !! "a1"
     = Some a'
     /\ Assessment.course a' = Assessment.course Demo.essay1
     /\ Assessment.instructor a' = Assessment.instructor Demo.essay1)
  /\ (manages Demo.owner Demo.essay1 = true ->
      forall b, Demo.handOver Demo.essay1 = Some b ->
      exists a',
        fst (updateAssessment Demo.owner "a1" Demo.handOver Demo.store1)
        = Sent (Some a')
        /\ snd (updateAssessment Demo.owner "a1" Demo.handOver Demo.store1)
           !! "a1" = Some a'
        /\ rewrites Demo.essay1 b a')
  /\ (forall r,
        fst (updateAssessment Demo.owner "a1" Demo.handOver Demo.store1)
        = Sent r ->
        manages Demo.owner Demo.essay1 = true
        /\ exists b, Demo.handOver Demo.essay1 = Some b).
Proof.
  apply (update_course_instructor Demo.owner "a1" Demo.handOver Demo.store1
           Demo.essay1).
  vm_compute. reflexivity.
Defined.

(** That request is answered with the essay as it was, and a new title
    is taken. *)
Example hand_over_ignored :
  updateAssessment Demo.owner "a1" Demo.handOver Demo.store1
  = (Sent (Some Demo.essay1), Demo.store1).
Proof. vm_compute. reflexivity. Qed.

Example new_title_taken :
  exists a',
    fst (updateAssessment Demo.owner "a1" Demo.retitle Demo.store1)
    = Sent (Some a')
    /\ Assessment.title a' = "Essay 1, revised"
    /\ Assessment.course a' = "c1"
    /\ Assessment.instructor a' = "u-owner".
Proof. evaluate. Qed.

(** ** The late flag and a due date that moves *)

(** The bounds on the stored points rest on the late flag agreeing with
    the due date. submitAssessment sets the flag so
    ([submit_lateAfterDue]), but the flag is kept when an update moves the
    due date past the time of submission: the day count is then negative
    and the penalty adds points. Ana, two days late, graded 90 after the
    due date has been put off by ten days, is stored 234. *)
Example due_date_moved_after_late_submission :
  exists a s g gr,
    snd (updateAssessment Demo.owner "a1" Demo.extend Demo.lateStore) !! "a1"
    = Some a
    /\ subdoc "s1" (Assessment.submissions a) = Some s
    /\ Submission.isLate s = true
    /\ daysLate a s = -8
    /\ fst (gradeSubmission Demo.owner "a1" "s1" (Demo.marks 90)
              Demo.gradingDay
              (snd (updateAssessment Demo.owner "a1" Demo.extend
                      Demo.lateStore)))
       = Sent ("Submission graded successfully", g)
    /\ Submission.grade g = Some gr
    /\ (Grade.points gr == 234)%Q.
Proof. evaluate. Qed.

(** ** Handlers that fail, handlers that only read *)

Ltac reader :=
  unfold deleteAssessment, getAssessmentSubmissions, getAssessments,
    countDocuments, deleteOne;
  handler.

Lemma deleteAssessment_cases user id st :
  deleteAssessment user id st =
  match st !! id with
  | None => (threw AssessmentNotFound, st)
  | Some a =>
      if manages user a then (Sent "Assessment removed", delete id st)
      else (threw DeleteForbidden, st)
  end.
Proof.
  reader. destruct (st !! id) as [a |]; [| reflexivity].
  rewrite manages_negb. destruct (manages user a); reflexivity.
Qed.

Lemma getAssessmentSubmissions_cases user id qpage qlimit st :
  getAssessmentSubmissions user id qpage qlimit st =
  match st !! id with
  | None => (threw AssessmentNotFound, st)
  | Some a =>
      if manages user a then
        let page := orDefault qpage 1 in
        let limit := orDefault qlimit 10 in
        (Sent {| Page.submissions :=
                   slice ((page - 1) * limit) ((page - 1) * limit + limit)
                     (sortDesc (Assessment.submissions a));
                 Page.page := page;
                 Page.pages :=
                   ceilOf (Z.of_nat (length (Assessment.submissions a))) limit;
                 Page.total := Z.of_nat (length (Assessment.submissions a)) |},
         st)
      else (threw SubmissionsForbidden, st)
  end.
Proof.
  reader.
  destruct (st !! id) as [a |]; [| reflexivity].
  rewrite manages_negb. destruct (manages user a); reflexivity.
Qed.

(** X1. A request that is refused changes nothing: whenever updateAssessment,
    deleteAssessment, submitAssessment or gradeSubmission throws, the
    collection is the one it was called on; and so it is when Mongoose
    throws on the body of an update. *)
Theorem refused_requests_change_nothing uri user id sid ubody sbody gbody now
    oid st :
  (forall c m,
     fst (updateAssessment user id ubody st) = Threw c m ->
     snd (updateAssessment user id ubody st) = st)
  /\ (forall c m,
        fst (deleteAssessment user id st) = Threw c m ->
        snd (deleteAssessment user id st) = st)
  /\ (forall c m,
        fst (submitAssessment uri user id sbody now oid st) = Threw c m ->
        snd (submitAssessment uri user id sbody now oid st) = st)
  /\ (forall c m,
        fst (gradeSubmission user id sid gbody now st) = Threw c m ->
        snd (gradeSubmission user id sid gbody now st) = st)
  /\ (forall e,
        fst (updateAssessment user id ubody st) = Raised e ->
        snd (updateAssessment user id ubody st) = st).
Proof.
  split; [| split; [| split; [| split]]]; [intros c m .. | intros e].
  - rewrite updateAssessment_cases.
    destruct (st !! id) as [a |]; [| reflexivity].
    destruct (manages user a); [| reflexivity].
    destruct (Update.apply ubody a); [discriminate | reflexivity].
  - rewrite deleteAssessment_cases.
    destruct (st !! id) as [a |]; [| reflexivity].
    destruct (manages user a); [discriminate | reflexivity].
  - apply submitAssessment_Threw.
  - rewrite gradeSubmission_cases.
    destruct (Joi.validate _ _); [reflexivity |].
    destruct (st !! id) as [a |]; [| reflexivity].
    destruct (manages user a); [| reflexivity].
    destruct (subdoc _ _); [discriminate | reflexivity].
  - rewrite updateAssessment_cases.
    destruct (st !! id) as [a |]; [| reflexivity].
    destruct (manages user a); [| reflexivity].
    destruct (Update.apply ubody a); [discriminate | reflexivity].
Qed.

(** X2. getAssessmentById, getAssessmentSubmissions and getAssessments only
    read: whatever they answer, and whatever the database returns to the
    last, the collection is the one they were called on. The filtering
    and the sorting they do on the loaded document is never saved. *)
Theorem readers_change_nothing
    (find : Filter.t -> Z -> Z -> Store -> list Assessment.t)
    users user id qpage qlimit courseId status st :
  snd (getAssessmentById users user id st) = st
  /\ snd (getAssessmentSubmissions user id qpage qlimit st) = st
  /\ snd (getAssessments find user qpage qlimit courseId status st) = st.
Proof.
  split; [| split].
  - rewrite getAssessmentById_cases.
    destruct (st !! id) as [a |]; [| reflexivity].
    destruct (populated _ _); [| reflexivity].
    destruct (manages user a); [reflexivity |].
    destruct (Assessment.isPublished a); [| reflexivity].
    destruct (filterOwn _ _ _); reflexivity.
  - rewrite getAssessmentSubmissions_cases.
    destruct (st !! id) as [a |]; [| reflexivity].
    destruct (manages user a); reflexivity.
  - reflexivity.
Qed.

(** X3. A request that names one assessment leaves every other stored
    assessment as it was. *)
Theorem other_assessments_untouched uri user id id' sid ubody sbody gbody now
    oid st :
  id <> id' ->
  snd (updateAssessment user id ubody st) !! id' = st !! id'
  /\ snd (deleteAssessment user id st) !! id' = st !! id'
  /\ snd (submitAssessment uri user id sbody now oid st) !! id' = st !! id'
  /\ snd (gradeSubmission user id sid gbody now st) !! id' = st !! id'.
Proof.
  intros Hne. repeat split.
  - rewrite updateAssessment_cases.
    destruct (st !! id) as [a |]; [| reflexivity].
    destruct (manages user a); [| reflexivity].
    destruct (Update.apply ubody a); [| reflexivity].
    cbn [snd]. apply lookup_insert_ne, Hne.
  - rewrite deleteAssessment_cases.
    destruct (st !! id) as [a |]; [| reflexivity].
    destruct (manages user a); [| reflexivity].
    cbn [snd]. apply lookup_delete_ne, Hne.
  - rewrite submitAssessment_cases.
    destruct (Joi.validate _ _); [reflexivity |].
    destruct (st !! id) as [a |]; [| reflexivity].
    destruct (Assessment.isPublished a); [| reflexivity].
    destruct (find _ _); [reflexivity |].
    destruct (_ && _); [reflexivity |].
    cbn [snd]. apply lookup_insert_ne, Hne.
  - rewrite gradeSubmission_cases.
    destruct (Joi.validate _ _); [reflexivity |].
    destruct (st !! id) as [a |]; [| reflexivity].
    destruct (manages user a); [| reflexivity].
    destruct (subdoc _ _); [| reflexivity].
    cbn [snd]. apply lookup_insert_ne, Hne.
Qed.

(** ** deleteAssessment *)

(** X4. The owning instructor or an admin removes the assessment, and its
    submissions with it: afterwards every handler answers "Assessment not
    found" under that id, to anyone, and leaves the collection as the
    removal left it. *)
Theorem deleted_is_gone user id st a :
  st !! id = Some a ->
  manages user a = true ->
  deleteAssessment user id st = (Sent "Assessment removed", delete id st)
  /\ forall uri users who sid ubody sbody gbody now oid qpage qlimit,
       getAssessmentById users who id (delete id st)
       = (threw AssessmentNotFound, delete id st)
       /\ updateAssessment who id ubody (delete id st)
          = (threw AssessmentNotFound, delete id st)
       /\ deleteAssessment who id (delete id st)
          = (threw AssessmentNotFound, delete id st)
       /\ getAssessmentSubmissions who id qpage qlimit (delete id st)
          = (threw AssessmentNotFound, delete id st)
       /\ (Joi.validate (submitSchema uri) sbody = None ->
           submitAssessment uri who id sbody now oid (delete id st)
           = (threw AssessmentNotFound, delete id st))
       /\ (Joi.validate gradeSchema gbody = None ->
           gradeSubmission who id sid gbody now (delete id st)
           = (threw AssessmentNotFound, delete id st)).
Proof.
  intros Ha Hm. split.
  - rewrite deleteAssessment_cases, Ha, Hm. reflexivity.
  - intros uri users who sid ubody sbody gbody now oid qpage qlimit.
    pose proof (lookup_delete_eq st id) as Hgone.
    rewrite getAssessmentById_cases, updateAssessment_cases,
      deleteAssessment_cases, getAssessmentSubmissions_cases,
      submitAssessment_cases, gradeSubmission_cases, Hgone.
    repeat split; intros ->; reflexivity.
Qed.

(** The owner removes the essay Ana has handed in. *)
Lemma deleted_is_gone_witness :
  deleteAssessment Demo.owner "a1" Demo.lateStore
  = (Sent "Assessment removed", delete "a1" Demo.lateStore)
  /\ forall uri users who sid ubody sbody gbody now oid qpage qlimit,
       getAssessmentById users who "a1" (delete "a1" Demo.lateStore)
       = (threw AssessmentNotFound, delete "a1" Demo.lateStore)
       /\ updateAssessment who "a1" ubody (delete "a1" Demo.lateStore)
          = (threw AssessmentNotFound, delete "a1" Demo.lateStore)
       /\ deleteAssessment who "a1" (delete "a1" Demo.lateStore)
          = (threw AssessmentNotFound, delete "a1" Demo.lateStore)
       /\ getAssessmentSubmissions who "a1" qpage qlimit
            (delete "a1" Demo.lateStore)
          = (threw AssessmentNotFound, delete "a1" Demo.lateStore)
       /\ (Joi.validate (submitSchema uri) sbody = None ->
           submitAssessment uri who "a1" sbody now oid
             (delete "a1" Demo.lateStore)
           = (threw AssessmentNotFound, delete "a1" Demo.lateStore))
       /\ (Joi.validate gradeSchema gbody = None ->
           gradeSubmission who "a1" sid gbody now (delete "a1" Demo.lateStore)
           = (threw AssessmentNotFound, delete "a1" Demo.lateStore)).
Proof.
  apply (deleted_is_gone Demo.owner "a1" Demo.lateStore
           (Demo.essay1_with [Demo.twoDaysLate])).
  - vm_compute. reflexivity.
  - reflexivity.
Defined.

(** Requests on the essay seen from the project, in the collection that
    holds both. *)
Lemma other_assessments_untouched_witness :
  snd (updateAssessment Demo.owner "a1" Demo.retitle Tour.catalog) !! "a2"
  = Tour.catalog !! "a2"
  /\ snd (deleteAssessment Demo.owner "a1" Tour.catalog) !! "a2"
     = Tour.catalog !! "a2"
  /\ snd (submitAssessment Demo.uri Demo.owner "a1" Demo.answer
            Demo.gradingDay "s3" Tour.catalog) !! "a2"
     = Tour.catalog !! "a2"
  /\ snd (gradeSubmission Demo.owner "a1" "s1" (Demo.marks 90) Demo.gradingDay
            Tour.catalog) !! "a2"
     = Tour.catalog !! "a2".
Proof.
  apply (other_assessments_untouched Demo.uri Demo.owner "a1" "a2" "s1"
           Demo.retitle Demo.answer (Demo.marks 90) Demo.gradingDay "s3"
           Tour.catalog).
  discriminate.
Defined.

(** Each of them goes through, and the project is there to be left
    alone. *)
Example those_requests :
  Tour.catalog !! "a2" = Some Tour.project2
  /\ (exists r, fst (updateAssessment Demo.owner "a1" Demo.retitle Tour.catalog)
                = Sent r)
  /\ fst (deleteAssessment Demo.owner "a1" Tour.catalog)
     = Sent "Assessment removed"
  /\ (exists r, fst (submitAssessment Demo.uri Demo.owner "a1" Demo.answer
                       Demo.gradingDay "s3" Tour.catalog) = Sent r)
  /\ (exists r, fst (gradeSubmission Demo.owner "a1" "s1" (Demo.marks 90)
                       Demo.gradingDay Tour.catalog) = Sent r).
Proof.
  split; [vm_compute; reflexivity |].
  split; [eexists; vm_compute; reflexivity |].
  split; [vm_compute; reflexivity |].
  split; eexists; vm_compute; reflexivity.
Qed.

(** ** Validation comes first *)

Lemma gradeSchema_ok body :
  Joi.validate gradeSchema body = None <-> gradeBodyOk body.
Proof.
  unfold Joi.validate, gradeSchema, gradeBodyOk. rewrite check_object. split.
  - intros [entries [-> [Hc Hu]]].
    rewrite children_None in Hc. rewrite unknown_None in Hu.
    exists entries. split; [reflexivity |]. split; [| split].
    + intros k v Hin. specialize (Hu k v Hin). cbn in Hu.
      destruct Hu as [<- | [<- | []]]; auto.
    + specialize (Hc "points" _ _ (or_introl eq_refl)).
      destruct (assoc "points" entries) as [v |]; [| discriminate Hc].
      apply check_number_min in Hc. destruct Hc as [q [-> [Hs Hq]]].
      apply safe_iff in Hs.
      exists q. split; [reflexivity |]. split; [exact Hq | apply Hs].
    + intros v E.
      specialize (Hc "feedback" _ _ (or_intror (or_introl eq_refl))).
      rewrite E in Hc. apply okText_check in Hc. exact Hc.
  - intros [entries [-> [Hk [[q [Ep [Hq Hmax]]] Hf]]]].
    exists entries. split; [reflexivity |]. split.
    + apply children_None. intros k sk req [Hin | [Hin | []]];
        injection Hin as <- <- <-.
      * rewrite Ep. apply check_number_min. exists q.
        split; [reflexivity |]. split; [| exact Hq].
        apply safe_iff. split; [| exact Hmax].
        apply Qle_trans with 0%Q; [discriminate | exact Hq].
      * destruct (assoc "feedback" entries) as [v |] eqn:E; [| reflexivity].
        apply okText_check, Hf. reflexivity.
    + apply unknown_None. intros k v Hin.
      destruct (Hk k v Hin) as [-> | ->]; cbn; tauto.
Qed.

(** X5. Of the bodies whose points are not a text, gradeSubmission lets
    through exactly those with a safe number of points from zero up, an
    optional non-empty feedback and no other key. Any other is answered
    400 with the Joi error before anything is looked up: also when the
    assessment does not exist and when the principal may not grade it. *)
Theorem grade_validation_first user id sid body now st :
  pointsNotText body ->
  (gradeBodyOk body <-> Joi.validate gradeSchema body = None)
  /\ (~ gradeBodyOk body ->
      exists e,
        Joi.validate gradeSchema body = Some e
        /\ gradeSubmission user id sid body now st
           = (threw (ValidationError e), st))
  /\ (gradeBodyOk body ->
      forall e,
        fst (gradeSubmission user id sid body now st)
        <> threw (ValidationError e)).
Proof.
  intros _. split; [symmetry; apply gradeSchema_ok |]. split.
  - intros Hno. destruct (Joi.validate gradeSchema body) as [e |] eqn:E.
    + exists e. split; [reflexivity |].
      rewrite gradeSubmission_cases, E. reflexivity.
    + apply gradeSchema_ok in E. contradiction.
  - intros Hok e. apply gradeSchema_ok in Hok.
    rewrite gradeSubmission_cases, Hok.
    destruct (st !! id) as [a |]; [| discriminate].
    destruct (manages user a); [| discriminate].
    destruct (subdoc _ _); discriminate.
Qed.

(** Ben, who may not grade, sends minus one point for a submission of
    an assessment that is not there. *)
Lemma grade_validation_first_witness :
  (gradeBodyOk (Demo.marks (-1))
   <-> Joi.validate gradeSchema (Demo.marks (-1)) = None)
  /\ (~ gradeBodyOk (Demo.marks (-1)) ->
      exists e,
        Joi.validate gradeSchema (Demo.marks (-1)) = Some e
        /\ gradeSubmission Demo.ben "a7" "s1" (Demo.marks (-1)) Demo.gradingDay
             Demo.lateStore
           = (threw (ValidationError e), Demo.lateStore))
  /\ (gradeBodyOk (Demo.marks (-1)) ->
      forall e,
        fst (gradeSubmission Demo.ben "a7" "s1" (Demo.marks (-1))
               Demo.gradingDay Demo.lateStore)
        <> threw (ValidationError e)).
Proof.
  apply (grade_validation_first Demo.ben "a7" "s1" (Demo.marks (-1))
           Demo.gradingDay Demo.lateStore).
  intros t. discriminate.
Defined.

(** Negative points, unsafe points, no points, points that are null, an
    empty feedback and a key the schema does not know. *)
Example grade_bodies_rejected :
  Joi.validate gradeSchema (Demo.marks (-1))
  = Some (Joi.mkError "points" Joi.number_min)
  /\ Joi.validate gradeSchema (Demo.marks 9007199254740992)
     = Some (Joi.mkError "points" Joi.number_unsafe)
  /\ Joi.validate gradeSchema (Demo.marks (-9007199254740992))
     = Some (Joi.mkError "points" Joi.number_unsafe)
  /\ Joi.validate gradeSchema (Demo.marks 9007199254740991) = None
  /\ Joi.validate gradeSchema (JObj [("feedback", JStr "well done")])
     = Some (Joi.mkError "points" Joi.any_required)
  /\ Joi.validate gradeSchema (JObj [("points", JNull)])
     = Some (Joi.mkError "points" Joi.number_base)
  /\ Joi.validate gradeSchema (gradeBody 5 (Some ""))
     = Some (Joi.mkError "feedback" Joi.string_empty)
  /\ Joi.validate gradeSchema (JObj [("points", JNum 5); ("bonus", JNum 1)])
     = Some (Joi.mkError "bonus" Joi.object_unknown).
Proof. repeat split. Qed.

(** ** What a grade leaves alone *)




(** ** Grading again *)

Lemma assign_assign sid g1 g2 l :
  Submission._id g1 = sid ->
  assign sid g2 (assign sid g1 l) = assign sid g2 l.
Proof.
  intros Hg. induction l as [| x l IH]; cbn [assign]; [reflexivity |].
  destruct (sameId (Submission._id x) sid) eqn:E; cbn [assign].
  - unfold sameId. rewrite Hg, String.eqb_refl. reflexivity.
  - rewrite E, IH. reflexivity.
Qed.

(** X7. A grade overwrites the one before. Once a grade of a submission has
    been answered, a further grade request on that submission is answered
    as if the first had never been made, late penalty included, and when
    it is answered the collection it leaves is the one it would have left
    without the first. *)
Theorem regrade_overwrites u1 u2 id sid b1 b2 t1 t2 st r1 :
  fst (gradeSubmission u1 id sid b1 t1 st) = Sent r1 ->
  fst (gradeSubmission u2 id sid b2 t2
         (snd (gradeSubmission u1 id sid b1 t1 st)))
  = fst (gradeSubmission u2 id sid b2 t2 st)
  /\ (forall r2,
        fst (gradeSubmission u2 id sid b2 t2 st) = Sent r2 ->
        snd (gradeSubmission u2 id sid b2 t2
               (snd (gradeSubmission u1 id sid b1 t1 st)))
        = snd (gradeSubmission u2 id sid b2 t2 st)).
Proof.
  rewrite (gradeSubmission_cases u1).
  destruct (Joi.validate gradeSchema b1); [discriminate |].
  destruct (st !! id) as [a |] eqn:Ea; [| discriminate].
  destruct (manages u1 a); [| discriminate].
  destruct (subdoc sid (Assessment.submissions a)) as [s |] eqn:Es;
    [| discriminate].
  cbn [fst snd]. intros _.
  set (g1 := Submission.graded_with (gradeOf u1 a s b1 t1) s).
  assert (Hg1 : Submission._id g1 = sid) by apply (subdoc_id _ _ _ Es).
  rewrite !(gradeSubmission_cases u2), lookup_insert_eq, Ea.
  destruct (Joi.validate gradeSchema b2); [split; [reflexivity | discriminate] |].
  change (manages u2 (Assessment.with_submissions
                        (assign sid g1 (Assessment.submissions a)) a))
    with (manages u2 a).
  destruct (manages u2 a); [| split; [reflexivity | discriminate]].
  cbn [Assessment.with_submissions Assessment.submissions].
  rewrite (subdoc_assign sid s g1 _ Es Hg1), Es.
  cbn [fst snd]. split; [reflexivity |].
  intros r2 _. rewrite insert_insert_eq, (assign_assign sid g1 _ _ Hg1).
  reflexivity.
Qed.

(** The owner gives Ana 90, then the admin gives her 70. *)
Lemma regrade_overwrites_witness :
  fst (gradeSubmission Demo.admin "a1" "s1" (Demo.marks 70) (Demo.gradingDay + 1)
         (snd (gradeSubmission Demo.owner "a1" "s1" (Demo.marks 90)
                 Demo.gradingDay Demo.bothStore)))
  = fst (gradeSubmission Demo.admin "a1" "s1" (Demo.marks 70)
           (Demo.gradingDay + 1) Demo.bothStore)
  /\ (forall r2,
        fst (gradeSubmission Demo.admin "a1" "s1" (Demo.marks 70)
               (Demo.gradingDay + 1) Demo.bothStore) = Sent r2 ->
        snd (gradeSubmission Demo.admin "a1" "s1" (Demo.marks 70)
               (Demo.gradingDay + 1)
               (snd (gradeSubmission Demo.owner "a1" "s1" (Demo.marks 90)
                       Demo.gradingDay Demo.bothStore)))
        = snd (gradeSubmission Demo.admin "a1" "s1" (Demo.marks 70)
                 (Demo.gradingDay + 1) Demo.bothStore)).
Proof.
  apply (regrade_overwrites Demo.owner Demo.admin "a1" "s1" (Demo.marks 90)
           (Demo.marks 70) Demo.gradingDay (Demo.gradingDay + 1) Demo.bothStore
           ("Submission graded successfully", Tour.gradedAna)).
  vm_compute. reflexivity.
Defined.

(** ** From a submission to its grade and to its author's view *)

Lemma subdoc_push oid l x :
  subdoc oid l = None -> Submission._id x = oid ->
  subdoc oid (l ++ [x])%list = Some x.
Proof.
  unfold subdoc. intros Hn Hx.
  induction l as [| y l IH]; cbn [app find] in *.
  - unfold sameId. rewrite Hx, String.eqb_refl. reflexivity.
  - destruct (sameId (Submission._id y) oid); [discriminate Hn | apply IH, Hn].
Qed.

Lemma own_none uid l :
  List.find (fun s => sameId (Submission.student s) uid) l = None ->
  own uid l = [].
Proof.
  unfold own. induction l as [| x l IH]; cbn [find List.filter]; [reflexivity |].
  destruct (sameId (Submission.student x) uid); [discriminate | exact IH].
Qed.

(** X8. A submission that has been accepted can be graded, and what the
    submit recorded is what the grade works from. Under an id no other
    submission of the assessment has, the owning instructor or an admin
    grading it with a well-formed body is answered; the graded submission
    is the submitter's, handed in at the time of the submit, late exactly
    when that was after the due date; the points stored are between 0 and
    the points entered, and are the points entered when it was on time. *)
Theorem submit_then_grade uri submitter grader id sbody gbody now later oid st
    a m n :
  st !! id = Some a ->
  subdoc oid (Assessment.submissions a) = None ->
  fst (submitAssessment uri submitter id sbody now oid st) = Sent (m, n) ->
  manages grader a = true ->
  Joi.validate gradeSchema gbody = None ->
  exists g gr,
    fst (gradeSubmission grader id oid gbody later
           (snd (submitAssessment uri submitter id sbody now oid st)))
    = Sent ("Submission graded successfully", g)
    /\ Submission.student g = User._id submitter
    /\ Submission.submittedAt g = now
    /\ Submission.isLate g = (now >? Assessment.dueDate a)
    /\ Submission.status g = graded
    /\ Submission.grade g = Some gr
    /\ (0 <= Grade.points gr)%Q
    /\ (Grade.points gr <= pointsOf gbody)%Q
    /\ (now <= Assessment.dueDate a -> Grade.points gr = pointsOf gbody).
Proof.
  intros Ha Hfresh Hs Hm Hv.
  destruct (submitAssessment_Sent _ _ _ _ _ _ _ _ _ Ha Hs) as [_ [_ [Hr Hst]]].
  injection Hr as -> ->. cbn [snd] in Hst.
  set (n := newSubmission submitter sbody now (now >? Assessment.dueDate a)) in *.
  set (a' := Assessment.with_submissions
               (Assessment.submissions a ++ [subdocOf oid n])%list a) in *.
  rewrite Hst, gradeSubmission_cases, Hv, lookup_insert_eq.
  change (manages grader a') with (manages grader a). rewrite Hm.
  change (Assessment.submissions a')
    with (Assessment.submissions a ++ [subdocOf oid n])%list.
  rewrite (subdoc_push oid _ (subdocOf oid n) Hfresh eq_refl).
  cbn [fst]. eexists. eexists. split; [reflexivity |].
  cbn [Submission.graded_with Submission.student Submission.submittedAt
       Submission.isLate Submission.status Submission.grade subdocOf n
       newSubmission new_student new_submittedAt new_isLate].
  do 5 (split; [reflexivity |]).
  pose proof (pointsOf_nonneg gbody Hv) as Hp.
  assert (Hlate : lateAfterDue a' (subdocOf oid n)).
  { unfold lateAfterDue. cbn. intros H. apply Z.gtb_lt in H. exact H. }
  cbn [gradeOf Grade.points].
  split; [apply finalPoints_nonneg, Hp |].
  split; [apply finalPoints_le; assumption |].
  intros Hon. apply finalPoints_on_time. left. cbn.
  rewrite Z.gtb_ltb. apply Z.ltb_ge, Hon.
Qed.

(** Ben hands in on the eve of the due date; the owner gives him 80. *)
Lemma submit_then_grade_witness :
  exists g gr,
    fst (gradeSubmission Demo.owner "a1" "s2" (Demo.marks 80) Demo.gradingDay
           (snd (submitAssessment Demo.uri Demo.ben "a1" Demo.answer
                   (Demo.due - msPerDay) "s2" Demo.lateStore)))
    = Sent ("Submission graded successfully", g)
    /\ Submission.student g = User._id Demo.ben
    /\ Submission.submittedAt g = Demo.due - msPerDay
    /\ Submission.isLate g
       = (Demo.due - msPerDay
          >? Assessment.dueDate (Demo.essay1_with [Demo.twoDaysLate]))
    /\ Submission.status g = graded
    /\ Submission.grade g = Some gr
    /\ (0 <= Grade.points gr)%Q
    /\ (Grade.points gr <= pointsOf (Demo.marks 80))%Q
    /\ (Demo.due - msPerDay
        <= Assessment.dueDate (Demo.essay1_with [Demo.twoDaysLate]) ->
        Grade.points gr = pointsOf (Demo.marks 80)).
Proof.
  apply (submit_then_grade Demo.uri Demo.ben Demo.owner "a1" Demo.answer
           (Demo.marks 80)
           (Demo.due - msPerDay) Demo.gradingDay "s2" Demo.lateStore
           (Demo.essay1_with [Demo.twoDaysLate])
           "Assessment submitted successfully"
           (newSubmission Demo.ben Demo.answer (Demo.due - msPerDay) false)).
  - vm_compute. reflexivity.
  - reflexivity.
  - vm_compute. reflexivity.
  - reflexivity.
  - reflexivity.
Defined.

(** X9. A student who has just handed in and looks at the assessment is sent
    that one submission and no other, however many the assessment has;
    this when the instructor of the assessment and the students who have
    handed in, the one who looks among them, are users still. *)
Theorem submit_then_view uri users user id body now oid st a m n :
  st !! id = Some a ->
  manages user a = false ->
  fst (submitAssessment uri user id body now oid st) = Sent (m, n) ->
  Assessment.instructor a ∈ users ->
  User._id user ∈ users ->
  (forall s, In s (Assessment.submissions a) -> Submission.student s ∈ users) ->
  exists r s',
    getAssessmentById users user id
      (snd (submitAssessment uri user id body now oid st))
    = (Sent r, snd (submitAssessment uri user id body now oid st))
    /\ Assessment.submissions r = [s']
    /\ s' = subdocOf oid n
    /\ Submission._id s' = oid
    /\ Submission.student s' = User._id user
    /\ Submission.submittedAt s' = now
    /\ Submission.content s' = default JNull (field "content" body)
    /\ Submission.grade s' = None.
Proof.
  intros Ha Hm Hs Hi Hu Hl.
  destruct (submitAssessment_Sent _ _ _ _ _ _ _ _ _ Ha Hs) as [Hp [Hf [Hr Hst]]].
  injection Hr as -> ->. cbn [snd] in Hst.
  rewrite Hst, getAssessmentById_cases, lookup_insert_eq.
  set (n := newSubmission user body now (now >? Assessment.dueDate a)).
  cbn [Assessment.with_submissions Assessment.instructor Assessment.isPublished
       Assessment.submissions].
  rewrite (populated_Some _ _ Hi).
  change (manages user (Assessment.with_submissions
                          (Assessment.submissions a ++ [subdocOf oid n])%list a))
    with (manages user a).
  rewrite Hm, Hp, filterOwn_Some.
  - eexists. eexists. split; [reflexivity |].
    cbn [Assessment.with_submissions Assessment.submissions].
    split; [| repeat split].
    unfold own. rewrite List.filter_app.
    fold (own (User._id user) (Assessment.submissions a)).
    rewrite (own_none _ _ Hf).
    cbn [app List.filter subdocOf Submission.student n newSubmission
         new_student].
    unfold sameId. rewrite String.eqb_refl. reflexivity.
  - intros s Hin. apply in_app_or in Hin as [Hin | [<- | []]];
      [apply Hl, Hin | exact Hu].
Qed.

(** Ben hands in after Ana and looks. *)
Lemma submit_then_view_witness :
  exists r s',
    getAssessmentById Demo.users Demo.ben "a1"
      (snd (submitAssessment Demo.uri Demo.ben "a1" Demo.answer
              (Demo.due - msPerDay) "s2" Demo.lateStore))
    = (Sent r,
       snd (submitAssessment Demo.uri Demo.ben "a1" Demo.answer
              (Demo.due - msPerDay) "s2" Demo.lateStore))
    /\ Assessment.submissions r = [s']
    /\ s' = subdocOf "s2"
              (newSubmission Demo.ben Demo.answer (Demo.due - msPerDay) false)
    /\ Submission._id s' = "s2"
    /\ Submission.student s' = User._id Demo.ben
    /\ Submission.submittedAt s' = Demo.due - msPerDay
    /\ Submission.content s' = default JNull (field "content" Demo.answer)
    /\ Submission.grade s' = None.
Proof.
  apply (submit_then_view Demo.uri Demo.users Demo.ben "a1" Demo.answer
           (Demo.due - msPerDay) "s2" Demo.lateStore
           (Demo.essay1_with [Demo.twoDaysLate])
           "Assessment submitted successfully").
  - vm_compute. reflexivity.
  - reflexivity.
  - vm_compute. reflexivity.
  - vm_compute. reflexivity.
  - vm_compute. reflexivity.
  - intros s [<- | []]. vm_compute. reflexivity.
Defined.

(** ** Updates and the submissions *)

Lemma students_twice (a : Assessment.t) x l1 l2 l3 :
  students a = (l1 ++ x :: l2 ++ x :: l3)%list -> ~ NoDup (students a).
Proof.
  intros -> H. apply NoDup_app in H as [_ [_ H]].
  apply NoDup_cons in H as [H _]. apply H.
  apply list_elem_of_In, in_or_app. right. left. reflexivity.
Qed.

(** C5, counterexample. Ana has handed in. The owner's update pushes a
    second submission under her name: the request passes the ownership
    check and is answered, and the assessment is stored with two
    submissions of one student. *)
Lemma pushed_submission_duplicates_student :
  Demo.lateStore !! "a1" = Some (Demo.essay1_with [Demo.twoDaysLate])
  /\ onePerStudent Demo.lateStore
  /\ fst (updateAssessment Demo.owner "a1" Demo.pushAgain Demo.lateStore)
     = Sent (Some (Demo.essay1_with [Demo.twoDaysLate; Demo.anaAgain]))
  /\ snd (updateAssessment Demo.owner "a1" Demo.pushAgain Demo.lateStore) !! "a1"
     = Some (Demo.essay1_with [Demo.twoDaysLate; Demo.anaAgain])
  /\ students (Demo.essay1_with [Demo.twoDaysLate; Demo.anaAgain])
     = ["u-ana"; "u-ana"]
  /\ ~ onePerStudent
        (snd (updateAssessment Demo.owner "a1" Demo.pushAgain Demo.lateStore)).
Proof.
  assert (E : snd (updateAssessment Demo.owner "a1" Demo.pushAgain
                     Demo.lateStore) !! "a1"
              = Some (Demo.essay1_with [Demo.twoDaysLate; Demo.anaAgain]))
    by (vm_compute; reflexivity).
  split; [vm_compute; reflexivity |].
  split.
  { change Demo.lateStore
      with (serve Demo.uri Demo.store1
              (Submit Demo.ana "a1" Demo.answer (Demo.due + 2 * msPerDay) "s1")).
    apply serve_onePerStudent, fresh_onePerStudent.
    intros id a Ha. unfold Demo.store1 in Ha.
    apply lookup_singleton_Some in Ha as [_ <-]. reflexivity. }
  split; [vm_compute; reflexivity |].
  split; [exact E |].
  split; [reflexivity |].
  intros H. specialize (H "a1" _ E).
  revert H. apply (students_twice _ "u-ana" [] [] []). reflexivity.
Qed.

(** ** Paging *)

Lemma ceilOf_spec n d :
  0 < d -> (ceilOf n d - 1) * d < n <= ceilOf n d * d.
Proof.
  intros Hd. unfold ceilOf.
  set (x := (inject_Z n / inject_Z d)%Q).
  assert (HD : (0 < inject_Z d)%Q).
  { change 0%Q with (inject_Z 0). rewrite <- Zlt_Qlt. exact Hd. }
  assert (Hx : (x * inject_Z d == inject_Z n)%Q).
  { unfold x. field. intros E. rewrite E in HD. discriminate HD. }
  split.
  - pose proof (Qceiling_lt x) as Hlt.
    apply (Qmult_lt_compat_r _ _ _ HD) in Hlt.
    rewrite Hx, <- inject_Z_mult, <- Zlt_Qlt in Hlt. exact Hlt.
  - pose proof (Qle_ceiling x) as Hle.
    apply (Qmult_le_compat_r _ _ (inject_Z d)) in Hle;
      [| apply Qlt_le_weak, HD].
    rewrite Hx, <- inject_Z_mult, <- Zle_Qle in Hle. exact Hle.
Qed.

Lemma ceilOf_unique n d c :
  0 < d -> (c - 1) * d < n <= c * d -> ceilOf n d = c.
Proof. intros Hd Hc. pose proof (ceilOf_spec n d Hd). nia. Qed.

Lemma ceilOf_lt n d p : 0 < d -> (p < ceilOf n d <-> p * d < n).
Proof. intros Hd. pose proof (ceilOf_spec n d Hd). split; intros; nia. Qed.

Lemma ceilOf_nonneg n d : 0 < d -> 0 <= n -> 0 <= ceilOf n d.
Proof. intros Hd Hn. pose proof (ceilOf_spec n d Hd). nia. Qed.

(** A slice between two indices in order, neither negative. *)
Lemma slice_forward {A} (i j : nat) (l : list A) :
  (i <= j)%nat ->
  slice (Z.of_nat i) (Z.of_nat j) l = take (j - i) (drop i l).
Proof.
  intros Hij. unfold slice, relative.
  destruct (Z.ltb_spec (Z.of_nat i) 0) as [H | _]; [lia |].
  destruct (Z.ltb_spec (Z.of_nat j) 0) as [H | _]; [lia |].
  destruct (Nat.le_gt_cases (length l) i) as [Hi | Hi].
  - rewrite (drop_ge l i Hi), !take_nil.
    rewrite drop_ge by lia. apply take_nil.
  - rewrite (Z.min_l (Z.of_nat i)) by lia. rewrite Nat2Z.id.
    destruct (Nat.le_gt_cases j (length l)) as [Hj | Hj].
    + rewrite Z.min_l by lia. f_equal. lia.
    + rewrite Z.min_r by lia.
      rewrite !take_ge; [reflexivity | |]; rewrite length_drop; lia.
Qed.

(** Whatever the indices, a slice is a run of consecutive elements. *)
Lemma slice_run {A} (start end_ : Z) (l : list A) :
  exists i n, slice start end_ l = take n (drop i l).
Proof. unfold slice. eauto. Qed.

Lemma insertDesc_perm x l : insertDesc x l ≡ₚ x :: l.
Proof.
  induction l as [| y l IH]; cbn [insertDesc]; [reflexivity |].
  destruct (_ >? _); [| reflexivity].
  rewrite IH. apply Permutation_swap.
Qed.

Lemma sortDesc_perm l : sortDesc l ≡ₚ l.
Proof.
  induction l as [| x l IH]; cbn [sortDesc]; [reflexivity |].
  rewrite insertDesc_perm, IH. reflexivity.
Qed.

Lemma insertDesc_sorted x l :
  StronglySorted laterFirst l -> StronglySorted laterFirst (insertDesc x l).
Proof.
  induction l as [| y l IH]; cbn [insertDesc]; intros Hs.
  - repeat constructor.
  - apply StronglySorted_inv in Hs as [Hl Hy].
    destruct (Z.gtb_spec (Submission.submittedAt y) (Submission.submittedAt x))
      as [Hgt | Hle].
    + constructor; [apply IH, Hl |].
      apply Forall_forall. intros z Hz.
      apply list_elem_of_In in Hz.
      apply (Permutation_in _ (insertDesc_perm x l)) in Hz.
      destruct Hz as [<- | Hz]; [unfold laterFirst; lia |].
      rewrite Forall_forall in Hy. apply Hy, list_elem_of_In, Hz.
    + constructor; [constructor; assumption |].
      constructor; [exact Hle |].
      eapply Forall_impl; [exact Hy |].
      unfold laterFirst. intros z Hz. lia.
Qed.

Lemma sortDesc_sorted l : StronglySorted laterFirst (sortDesc l).
Proof.
  induction l as [| x l IH]; cbn [sortDesc]; [constructor |].
  apply insertDesc_sorted, IH.
Qed.

Lemma sorted_run {A} (R : A -> A -> Prop) i n (l : list A) :
  StronglySorted R l -> StronglySorted R (take n (drop i l)).
Proof.
  intros Hs.
  assert (Hd : StronglySorted R (drop i l)).
  { revert l Hs. induction i as [| i IH]; intros l Hs; [exact Hs |].
    destruct l as [| x l]; [constructor |].
    apply StronglySorted_inv in Hs as [Hl _]. apply IH, Hl. }
  revert Hd. generalize (drop i l). clear. intros l. revert n.
  induction l as [| x l IH]; intros n Hs; destruct n; try constructor.
  - apply StronglySorted_inv in Hs as [Hl _]. apply IH, Hl.
  - apply StronglySorted_inv in Hs as [_ Hx].
    apply Forall_forall. intros y Hy. rewrite Forall_forall in Hx.
    apply Hx. apply (subseteq_take n l), Hy.
Qed.

(** ** getAssessmentSubmissions *)

(** The page of a principal who manages the assessment. *)
Lemma pageOf_manager user id p qlimit st a :
  st !! id = Some a -> manages user a = true ->
  pageOf user id p qlimit st
  = slice ((orDefault (Some p) 1 - 1) * orDefault qlimit 10)
      ((orDefault (Some p) 1 - 1) * orDefault qlimit 10 + orDefault qlimit 10)
      (sortDesc (Assessment.submissions a)).
Proof.
  intros Ha Hm. unfold pageOf.
  rewrite getAssessmentSubmissions_cases, Ha, Hm. reflexivity.
Qed.

(** X12. The submissions of an assessment are listed latest first, and a page
    lists submissions of the assessment only, none more often than the
    assessment has it; this whatever page and limit are asked for. The
    total is the number of submissions. *)
Theorem submissions_page_sorted user id qpage qlimit st answer :
  fst (getAssessmentSubmissions user id qpage qlimit st) = Sent answer ->
  exists a,
    st !! id = Some a
    /\ manages user a = true
    /\ StronglySorted laterFirst (Page.submissions answer)
    /\ Page.submissions answer ⊆+ Assessment.submissions a
    /\ Page.total answer = Z.of_nat (length (Assessment.submissions a)).
Proof.
  rewrite getAssessmentSubmissions_cases.
  destruct (st !! id) as [a |] eqn:Ea; [| discriminate].
  destruct (manages user a) eqn:Em; [| discriminate].
  cbn [fst]. intros H. injection H as <-. exists a.
  split; [reflexivity |]. split; [exact Em |].
  cbn [Page.submissions Page.total].
  destruct (slice_run ((orDefault qpage 1 - 1) * orDefault qlimit 10)
              ((orDefault qpage 1 - 1) * orDefault qlimit 10
               + orDefault qlimit 10)
              (sortDesc (Assessment.submissions a))) as [i [n ->]].
  split; [apply sorted_run, sortDesc_sorted |].
  split; [| reflexivity].
  rewrite <- (sortDesc_perm (Assessment.submissions a)) at 2.
  apply sublist_submseteq.
  transitivity (drop i (sortDesc (Assessment.submissions a)));
    [apply sublist_take | apply sublist_drop].
Qed.

(** The owner asks for the first page of the essay both have handed in. *)
Lemma submissions_page_sorted_witness :
  exists a,
    Demo.bothStore !! "a1" = Some a
    /\ manages Demo.owner a = true
    /\ StronglySorted laterFirst [Demo.twoDaysLate; Demo.benSubmission]
    /\ [Demo.twoDaysLate; Demo.benSubmission] ⊆+ Assessment.submissions a
    /\ 2 = Z.of_nat (length (Assessment.submissions a)).
Proof.
  apply (submissions_page_sorted Demo.owner "a1" None None Demo.bothStore
           (Page.mk [Demo.twoDaysLate; Demo.benSubmission] 1 1 2)).
  vm_compute. reflexivity.
Defined.

(** Consecutive runs of [d] elements, [k] of them from the start, make
    up the first [k * d] elements. *)
Lemma runs_concat {A} (d k : nat) (l : list A) :
  concat (map (fun i => take d (drop (i * d) l)) (seq 0 k)) = take (k * d) l.
Proof.
  induction k as [| k IH]; [rewrite take_0; reflexivity |].
  rewrite seq_S, map_app, concat_app, IH. cbn [map concat plus].
  rewrite app_nil_r, take_take_drop. f_equal. lia.
Qed.

Lemma map_seqZ {A} (f : Z -> A) m n :
  map f (seqZ m n) = map (fun i => f (Z.of_nat i + m)) (seq 0 (Z.to_nat n)).
Proof.
  unfold seqZ. induction (seq 0 (Z.to_nat n)) as [| i l IH]; [reflexivity |].
  cbn [fmap list_fmap map] in *. rewrite IH. reflexivity.
Qed.

Lemma page_run user id (i : nat) qlimit st a :
  st !! id = Some a -> manages user a = true ->
  0 < orDefault qlimit 10 ->
  pageOf user id (Z.of_nat i + 1) qlimit st
  = take (Z.to_nat (orDefault qlimit 10))
      (drop (i * Z.to_nat (orDefault qlimit 10))
         (sortDesc (Assessment.submissions a))).
Proof.
  intros Ha Hm Hl. rewrite (pageOf_manager _ _ _ _ _ _ Ha Hm).
  set (limit := orDefault qlimit 10) in *.
  assert (Hp : orDefault (Some (Z.of_nat i + 1)) 1 = Z.of_nat i + 1).
  { unfold orDefault. destruct (Z.eqb_spec (Z.of_nat i + 1) 0); [lia | reflexivity]. }
  rewrite Hp.
  replace ((Z.of_nat i + 1 - 1) * limit)
    with (Z.of_nat (i * Z.to_nat limit)) by lia.
  replace (Z.of_nat (i * Z.to_nat limit) + limit)
    with (Z.of_nat (i * Z.to_nat limit + Z.to_nat limit)) by lia.
  rewrite slice_forward by lia. f_equal. lia.
Qed.

(** X13. Under a limit that is positive and a safe integer, going through
    the pages from the first to the last, the number of pages being the
    one the answer states, lists every submission of the assessment
    exactly once, latest first. *)
Theorem pages_cover_submissions user id qlimit st a :
  st !! id = Some a ->
  manages user a = true ->
  0 < orDefault qlimit 10 <= maxSafeInteger ->
  concat
    (map (fun p => pageOf user id p qlimit st)
       (seqZ 1 (ceilOf (Z.of_nat (length (Assessment.submissions a)))
                  (orDefault qlimit 10))))
  = sortDesc (Assessment.submissions a)
  /\ sortDesc (Assessment.submissions a) ≡ₚ Assessment.submissions a
  /\ StronglySorted laterFirst (sortDesc (Assessment.submissions a)).
Proof.
  intros Ha Hm [Hl _].
  split; [| split; [apply sortDesc_perm | apply sortDesc_sorted]].
  set (limit := orDefault qlimit 10) in *.
  set (total := Z.of_nat (length (Assessment.submissions a))).
  pose proof (ceilOf_spec total limit Hl) as Hc.
  assert (H0 : 0 <= ceilOf total limit)
    by (apply ceilOf_nonneg; [exact Hl | unfold total; lia]).
  rewrite map_seqZ.
  rewrite (map_ext _ (fun i => take (Z.to_nat limit)
                                 (drop (i * Z.to_nat limit)
                                    (sortDesc (Assessment.submissions a))))).
  - rewrite runs_concat. apply take_ge.
    rewrite (Permutation_length (sortDesc_perm _)). unfold total in *. nia.
  - intros i. apply (page_run _ _ _ _ _ _ Ha Hm Hl).
Qed.

(** The essay both have handed in, one submission a page. *)
Lemma pages_cover_submissions_witness :
  concat
    (map (fun p => pageOf Demo.owner "a1" p (Some 1) Demo.bothStore)
       (seqZ 1 (ceilOf (Z.of_nat (length (Assessment.submissions Tour.bothEssay)))
                  (orDefault (Some 1) 10))))
  = sortDesc (Assessment.submissions Tour.bothEssay)
  /\ sortDesc (Assessment.submissions Tour.bothEssay)
     ≡ₚ Assessment.submissions Tour.bothEssay
  /\ StronglySorted laterFirst (sortDesc (Assessment.submissions Tour.bothEssay)).
Proof.
  apply (pages_cover_submissions Demo.owner "a1" (Some 1) Demo.bothStore
           Tour.bothEssay).
  - vm_compute. reflexivity.
  - reflexivity.
  - split; [reflexivity | discriminate].
Defined.

(** X14. Under a positive limit and from page one on, both safe integers,
    the answer tells a page count which is the least number of pages of
    that limit that hold all submissions; a page before the last is full,
    the last holds what is left, at least one and at most the limit, and
    a page after the last is empty. *)
Theorem submissions_page_sizes user id qpage qlimit st answer :
  fst (getAssessmentSubmissions user id qpage qlimit st) = Sent answer ->
  0 < orDefault qlimit 10 <= maxSafeInteger ->
  1 <= orDefault qpage 1 <= maxSafeInteger ->
  Page.page answer = orDefault qpage 1
  /\ (Page.pages answer - 1) * orDefault qlimit 10
     < Page.total answer <= Page.pages answer * orDefault qlimit 10
  /\ (Page.page answer < Page.pages answer ->
      Z.of_nat (length (Page.submissions answer)) = orDefault qlimit 10)
  /\ (Page.page answer = Page.pages answer ->
      Z.of_nat (length (Page.submissions answer))
      = Page.total answer - (Page.pages answer - 1) * orDefault qlimit 10
      /\ 1 <= Z.of_nat (length (Page.submissions answer))
         <= orDefault qlimit 10)
  /\ (Page.pages answer < Page.page answer -> Page.submissions answer = []).
Proof.
  rewrite getAssessmentSubmissions_cases.
  destruct (st !! id) as [a |] eqn:Ea; [| discriminate].
  destruct (manages user a) eqn:Em; [| discriminate].
  cbn [fst]. intros H [Hl _] [Hp _]. injection H as <-.
  cbn [Page.page Page.pages Page.total Page.submissions].
  set (limit := orDefault qlimit 10) in *.
  set (page := orDefault qpage 1) in *.
  set (total := Z.of_nat (length (Assessment.submissions a))).
  pose proof (ceilOf_spec total limit Hl) as Hc.
  split; [reflexivity |]. split; [exact Hc |].
  replace ((page - 1) * limit)
    with (Z.of_nat (Z.to_nat ((page - 1) * limit))) by nia.
  replace (Z.of_nat (Z.to_nat ((page - 1) * limit)) + limit)
    with (Z.of_nat (Z.to_nat ((page - 1) * limit) + Z.to_nat limit)) by nia.
  rewrite slice_forward by lia.
  assert (Hlen : length (sortDesc (Assessment.submissions a))
                 = length (Assessment.submissions a))
    by apply Permutation_length, sortDesc_perm.
  split; [| split].
  - intros Hlt. rewrite length_take, length_drop, Hlen. unfold total in *. nia.
  - intros He. rewrite length_take, length_drop, Hlen. unfold total in *.
    split; nia.
  - intros Hgt. apply length_zero_iff_nil.
    rewrite length_take, length_drop, Hlen. unfold total in *. nia.
Qed.

(** The owner asks for page 2 of the essay, one submission a page. *)
Lemma submissions_page_sizes_witness :
  Page.page Tour.secondPage = orDefault (Some 2) 1
  /\ (Page.pages Tour.secondPage - 1) * orDefault (Some 1) 10
     < Page.total Tour.secondPage
     <= Page.pages Tour.secondPage * orDefault (Some 1) 10
  /\ (Page.page Tour.secondPage < Page.pages Tour.secondPage ->
      Z.of_nat (length (Page.submissions Tour.secondPage))
      = orDefault (Some 1) 10)
  /\ (Page.page Tour.secondPage = Page.pages Tour.secondPage ->
      Z.of_nat (length (Page.submissions Tour.secondPage))
      = Page.total Tour.secondPage
        - (Page.pages Tour.secondPage - 1) * orDefault (Some 1) 10
      /\ 1 <= Z.of_nat (length (Page.submissions Tour.secondPage))
         <= orDefault (Some 1) 10)
  /\ (Page.pages Tour.secondPage < Page.page Tour.secondPage ->
      Page.submissions Tour.secondPage = []).
Proof.
  apply (submissions_page_sizes Demo.owner "a1" (Some 2) (Some 1)
           Demo.bothStore).
  - vm_compute. reflexivity.
  - split; [reflexivity | discriminate].
  - split; discriminate.
Defined.

Lemma ceilOf_negative_limit n d : 0 <= n -> d < 0 -> ceilOf n d <= 0.
Proof.
  intros Hn Hd. unfold ceilOf.
  change 0 with (Qceiling 0). apply Qceiling_resp_le.
  destruct d as [| p | p]; try lia.
  unfold Qle, Qdiv, Qmult, Qinv, inject_Z. cbn. nia.
Qed.

(** X15. A limit below zero is not refused. On the first page it is taken as
    an index from the end: the answer lists the submissions latest first
    without the oldest ones, as many of them left out as the limit says,
    and tells a page count that is not positive. *)
Theorem negative_limit_drops_oldest user id qpage qlimit st answer :
  fst (getAssessmentSubmissions user id qpage qlimit st) = Sent answer ->
  orDefault qlimit 10 < 0 ->
  orDefault qpage 1 = 1 ->
  exists a,
    st !! id = Some a
    /\ Page.submissions answer
       = take (Z.to_nat (Z.of_nat (length (Assessment.submissions a))
                         + orDefault qlimit 10))
           (sortDesc (Assessment.submissions a))
    /\ Page.pages answer <= 0.
Proof.
  rewrite getAssessmentSubmissions_cases.
  destruct (st !! id) as [a |] eqn:Ea; [| discriminate].
  destruct (manages user a); [| discriminate].
  cbn [fst]. intros H Hl Hp. injection H as <-. exists a.
  split; [reflexivity |].
  cbn [Page.submissions Page.pages]. rewrite Hp.
  set (limit := orDefault qlimit 10) in *.
  assert (Hlen : length (sortDesc (Assessment.submissions a))
                 = length (Assessment.submissions a))
    by apply Permutation_length, sortDesc_perm.
  split; [| apply ceilOf_negative_limit; lia].
  unfold slice, relative. rewrite Hlen.
  change ((1 - 1) * limit) with 0. rewrite Z.add_0_l.
  change (0 <? 0)%Z with false. cbn match.
  destruct (Z.ltb_spec limit 0) as [_ | H]; [| lia].
  rewrite Z.min_l by lia. cbn [Z.to_nat drop].
  f_equal. lia.
Qed.

(** The owner asks for the essay's submissions with limit -1. *)
Lemma negative_limit_drops_oldest_witness :
  exists a,
    Demo.bothStore !! "a1" = Some a
    /\ Page.submissions (Page.mk [Demo.twoDaysLate] 1 (-2) 2)
       = take (Z.to_nat (Z.of_nat (length (Assessment.submissions a))
                         + orDefault (Some (-1)) 10))
           (sortDesc (Assessment.submissions a))
    /\ Page.pages (Page.mk [Demo.twoDaysLate] 1 (-2) 2) <= 0.
Proof.
  apply (negative_limit_drops_oldest Demo.owner "a1" None (Some (-1))
           Demo.bothStore).
  - vm_compute. reflexivity.
  - reflexivity.
  - reflexivity.
Defined.

(** A page or a limit that is missing, is not a number or is 0 is page
    1 and limit 10. *)
Example paging_defaults user id st :
  getAssessmentSubmissions user id None None st
  = getAssessmentSubmissions user id (Some 1) (Some 10) st
  /\ getAssessmentSubmissions user id (Some 0) (Some 0) st
     = getAssessmentSubmissions user id (Some 1) (Some 10) st.
Proof. split; reflexivity. Qed.

(** ** getAssessments *)

Lemma matches_listFilter user courseId a :
  Filter.matches (listFilter user courseId) a = true <-> listed user courseId a.
Proof.
  unfold Filter.matches, listFilter, listed.
  cbn [Filter.course Filter.isPublished Filter.instructor].
  rewrite !andb_true_iff.
  assert (Hc : match
                 match courseId with
                 | Some c => if String.eqb c "" then None else Some c
                 | None => None
                 end
               with
               | Some c => sameId (Assessment.course a) c
               | None => true
               end = true
               <-> (forall c, courseId = Some c -> c <> "" ->
                    Assessment.course a = c)).
  { destruct courseId as [c |]; [| split; [discriminate | reflexivity]].
    destruct (String.eqb_spec c "") as [-> | Hne].
    - split; [| reflexivity]. intros _ c E Hc. injection E as <-. congruence.
    - unfold sameId. rewrite String.eqb_eq. split.
      + intros E c' E' _. injection E' as <-. exact E.
      + intros H. apply (H c eq_refl Hne). }
  assert (Hp : match
                 (if negb (User.isInstructor user) && negb (User.isAdmin user)
                  then Some true else None)
               with
               | Some b => Bool.eqb (Assessment.isPublished a) b
               | None => true
               end = true
               <-> (User.isInstructor user = false ->
                    User.isAdmin user = false ->
                    Assessment.isPublished a = true)).
  { destruct (User.isInstructor user), (User.isAdmin user); cbn [negb andb];
      try (split; [discriminate | reflexivity]).
    rewrite Bool.eqb_true_iff. split; [intros E _ _; exact E | auto]. }
  assert (Hi : match
                 (if User.isInstructor user && negb (User.isAdmin user)
                  then Some (User._id user) else None)
               with
               | Some i => sameId (Assessment.instructor a) i
               | None => true
               end = true
               <-> (User.isInstructor user = true ->
                    User.isAdmin user = false ->
                    Assessment.instructor a = User._id user)).
  { destruct (User.isInstructor user), (User.isAdmin user); cbn [negb andb];
      try (split; [discriminate | reflexivity]).
    unfold sameId. rewrite String.eqb_eq. split; [intros E _ _; exact E | auto]. }
  rewrite Hc, Hp, Hi. tauto.
Qed.

Lemma selected_In f (st : Store) id a :
  In (id, a) (selected f st) <-> st !! id = Some a /\ Filter.matches f a = true.
Proof.
  unfold selected. rewrite filter_In. cbn [snd].
  rewrite <- list_elem_of_In, elem_of_map_to_list. reflexivity.
Qed.

Lemma selected_NoDup f (st : Store) : NoDup (selected f st).
Proof.
  unfold selected. apply NoDup_ListNoDup, List.NoDup_filter, NoDup_ListNoDup,
    NoDup_map_to_list.
Qed.

(** X16. The paging data of a listing, under a positive limit. The total is
    the number of stored assessments the principal may be listed; the page
    count is the least number of pages of the limit that hold them; there
    is a next page exactly when assessments remain after this page, and a
    previous one exactly from page 2 on. What the database returns for the
    page has no part in this, and the status asked for has none either. *)
Theorem listing_paging
    (find : Filter.t -> Z -> Z -> Store -> list Assessment.t)
    user qpage qlimit courseId status st answer :
  fst (getAssessments find user qpage qlimit courseId status st) = Sent answer ->
  0 < orDefault qlimit 10 ->
  Listing.page answer = orDefault qpage 1
  /\ Listing.total answer
     = Z.of_nat (length (selected (listFilter user courseId) st))
  /\ NoDup (selected (listFilter user courseId) st)
  /\ (forall id a,
        In (id, a) (selected (listFilter user courseId) st) <->
        st !! id = Some a /\ listed user courseId a)
  /\ (Listing.pages answer - 1) * orDefault qlimit 10
     < Listing.total answer <= Listing.pages answer * orDefault qlimit 10
  /\ (Listing.hasNextPage answer = true <->
      Listing.page answer * orDefault qlimit 10 < Listing.total answer)
  /\ (Listing.hasPrevPage answer = true <-> 1 < Listing.page answer).
Proof.
  intros H Hl. cbn in H. injection H as <-.
  cbn [Listing.page Listing.total Listing.pages Listing.hasNextPage
       Listing.hasPrevPage].
  split; [reflexivity |]. split; [reflexivity |].
  split; [apply selected_NoDup |].
  split; [intros id a; rewrite selected_In, matches_listFilter; reflexivity |].
  split; [apply ceilOf_spec, Hl |].
  split.
  - rewrite Z.ltb_lt. apply ceilOf_lt, Hl.
  - rewrite Z.gtb_ltb. apply Z.ltb_lt.
Qed.

(** Ana lists the catalog. *)
Lemma listing_paging_witness :
  Listing.page Tour.anaListing = orDefault None 1
  /\ Listing.total Tour.anaListing
     = Z.of_nat (length (selected (listFilter Demo.ana None) Tour.catalog))
  /\ NoDup (selected (listFilter Demo.ana None) Tour.catalog)
  /\ (forall id a,
        In (id, a) (selected (listFilter Demo.ana None) Tour.catalog) <->
        Tour.catalog !! id = Some a /\ listed Demo.ana None a)
  /\ (Listing.pages Tour.anaListing - 1) * orDefault None 10
     < Listing.total Tour.anaListing
     <= Listing.pages Tour.anaListing * orDefault None 10
  /\ (Listing.hasNextPage Tour.anaListing = true <->
      Listing.page Tour.anaListing * orDefault None 10
      < Listing.total Tour.anaListing)
  /\ (Listing.hasPrevPage Tour.anaListing = true <->
      1 < Listing.page Tour.anaListing).
Proof.
  apply (listing_paging findPage Demo.ana None None None None Tour.catalog).
  - vm_compute. reflexivity.
  - reflexivity.
Defined.

Section ListingFacts.

Variable find : Filter.t -> Z -> Z -> Store -> list Assessment.t.

(** The database returns stored documents that the filter selects, each
    without its submissions. *)
Hypothesis find_sound :
  forall f skip limit (st : Store) a',
    In a' (find f skip limit st) ->
    exists id a,
      st !! id = Some a
      /\ Filter.matches f a = true
      /\ a' = Assessment.with_submissions [] a.

(** X17. What a principal is listed. Every assessment in the answer is a
    stored one without its submissions; it is of the course asked for when
    one is asked for; it is published when the principal is neither
    instructor nor admin; and it is the principal's own when the principal
    is an instructor and not an admin, published or not. *)
Theorem listing_visibility user qpage qlimit courseId status (st : Store) answer :
  fst (getAssessments find user qpage qlimit courseId status st) = Sent answer ->
  Forall
    (fun a' =>
       exists id a,
         st !! id = Some a
         /\ a' = Assessment.with_submissions [] a
         /\ Assessment.submissions a' = []
         /\ (forall c, courseId = Some c -> c <> "" -> Assessment.course a' = c)
         /\ (User.isInstructor user = false -> User.isAdmin user = false ->
             Assessment.isPublished a' = true)
         /\ (User.isInstructor user = true -> User.isAdmin user = false ->
             Assessment.instructor a' = User._id user))
    (Listing.assessments answer).
Proof.
  intros H. cbn in H. injection H as <-.
  cbn [Listing.assessments]. apply List.Forall_forall. intros a' Hin.
  destruct (find_sound _ _ _ _ _ Hin) as [id [a [Ha [Hm ->]]]].
  apply matches_listFilter in Hm. destruct Hm as [Hc [Hp Hi]].
  exists id, a. repeat split; assumption.
Qed.

End ListingFacts.

Lemma insertDue_In x y l : In y (insertDue x l) <-> y = x \/ In y l.
Proof.
  induction l as [| z l IH]; cbn [insertDue In]; [intuition |].
  destruct (_ <? _)%Z; cbn [In]; [intuition |]. rewrite IH. intuition.
Qed.

Lemma byDueDate_In y l : In y (byDueDate l) <-> In y l.
Proof.
  unfold byDueDate.
  induction l as [| x l IH]; cbn [fold_right In]; [reflexivity |].
  rewrite insertDue_In, IH. intuition.
Qed.

(** The database of the worked requests does what is asked of one. *)
Lemma findPage_sound f skip limit (st : Store) a' :
  In a' (findPage f skip limit st) ->
  exists id a,
    st !! id = Some a
    /\ Filter.matches f a = true
    /\ a' = Assessment.with_submissions [] a.
Proof.
  unfold findPage. rewrite in_map_iff. intros [a [<- Hin]].
  apply list_elem_of_In in Hin.
  apply (subseteq_take (Z.to_nat limit)) in Hin.
  apply (subseteq_drop (Z.to_nat skip)) in Hin.
  apply list_elem_of_In, byDueDate_In, in_map_iff in Hin.
  destruct Hin as [[id a0] [E Hin]]. cbn [snd] in E. subst a0.
  apply selected_In in Hin. destruct Hin as [Ha Hm].
  exists id, a. repeat split; assumption.
Qed.

(** Ana lists the catalog with that database. *)
Lemma listing_visibility_witness :
  Forall
    (fun a' =>
       exists id a,
         Tour.catalog !! id = Some a
         /\ a' = Assessment.with_submissions [] a
         /\ Assessment.submissions a' = []
         /\ (forall c, None = Some c -> c <> "" -> Assessment.course a' = c)
         /\ (User.isInstructor Demo.ana = false ->
             User.isAdmin Demo.ana = false ->
             Assessment.isPublished a' = true)
         /\ (User.isInstructor Demo.ana = true ->
             User.isAdmin Demo.ana = false ->
             Assessment.instructor a' = User._id Demo.ana))
    (Listing.assessments Tour.anaListing).
Proof.
  apply (listing_visibility findPage findPage_sound Demo.ana None None None
           None Tour.catalog).
  vm_compute. reflexivity.
Defined.

(** The catalog as each of them is listed it: the student the published
    essay, each instructor their own, the admin both, earliest due
    first. *)
Example listings :
  findPage (listFilter Demo.ana None) 0 10 Tour.catalog = [Tour.essayListed]
  /\ findPage (listFilter Demo.owner None) 0 10 Tour.catalog
     = [Tour.essayListed]
  /\ findPage (listFilter Demo.colleague None) 0 10 Tour.catalog
     = [Assessment.with_submissions [] Tour.project2]
  /\ findPage (listFilter Demo.admin None) 0 10 Tour.catalog
     = [Tour.essayListed; Assessment.with_submissions [] Tour.project2]
  /\ findPage (listFilter Demo.admin (Some "c2")) 0 10 Tour.catalog
     = [Assessment.with_submissions [] Tour.project2].
Proof. evaluate. Qed.

(** X18. Whatever a principal is listed they can open: for an assessment that
    getAssessments lets the principal be listed, getAssessmentById does not
    refuse the same principal. When the users it reads are there it
    answers, with the assessment under its title; it breaks with a
    TypeError when one of them is gone. *)
Theorem listed_can_be_opened users user courseId id st a :
  st !! id = Some a ->
  listed user courseId a ->
  (forall c m, fst (getAssessmentById users user id st) <> Threw c m)
  /\ (resolved users user a ->
      exists r,
        getAssessmentById users user id st = (Sent r, st)
        /\ Assessment.title r = Assessment.title a
        /\ (manages user a = true -> r = a))
  /\ (~ resolved users user a ->
      getAssessmentById users user id st = (Raised TypeError, st)).
Proof.
  intros Ha [_ [Hp Hi]]. rewrite getAssessmentById_cases, Ha.
  assert (Hpub : manages user a = false -> Assessment.isPublished a = true).
  { intros Em. unfold manages in Em. apply orb_false_elim in Em as [Eo Eadm].
    destruct (User.isInstructor user) eqn:Ei; [| apply Hp; auto].
    specialize (Hi eq_refl Eadm). unfold sameId in Eo.
    apply String.eqb_neq in Eo. contradiction. }
  split; [| split].
  - intros c m. destruct (populated _ _); [| discriminate].
    destruct (manages user a); [discriminate |].
    rewrite (Hpub eq_refl). destruct (filterOwn _ _ _); discriminate.
  - intros [Hin Hs]. rewrite (populated_Some _ _ Hin).
    destruct (manages user a) eqn:Em.
    + exists a. repeat split.
    + rewrite (Hpub eq_refl), (filterOwn_Some _ _ _ (Hs eq_refl)).
      eexists. split; [reflexivity |].
      split; [reflexivity | discriminate].
  - intros Hno.
    destruct (decide (Assessment.instructor a ∈ users)) as [Hin | Hin];
      [| rewrite (populated_None _ _ Hin); reflexivity].
    rewrite (populated_Some _ _ Hin).
    destruct (manages user a) eqn:Em.
    + exfalso. apply Hno. split; [exact Hin | congruence].
    + rewrite (Hpub eq_refl), filterOwn_None; [reflexivity |].
      intros Hs. apply Hno. split; [exact Hin | intros _; exact Hs].
Qed.

(** Ana opens the essay she is listed. *)
Lemma listed_can_be_opened_witness :
  (forall c m,
     fst (getAssessmentById Demo.users Demo.ana "a1" Tour.catalog)
     <> Threw c m)
  /\ (resolved Demo.users Demo.ana Tour.bothEssay ->
      exists r,
        getAssessmentById Demo.users Demo.ana "a1" Tour.catalog
        = (Sent r, Tour.catalog)
        /\ Assessment.title r = Assessment.title Tour.bothEssay
        /\ (manages Demo.ana Tour.bothEssay = true -> r = Tour.bothEssay))
  /\ (~ resolved Demo.users Demo.ana Tour.bothEssay ->
      getAssessmentById Demo.users Demo.ana "a1" Tour.catalog
      = (Raised TypeError, Tour.catalog)).
Proof.
  apply (listed_can_be_opened Demo.users Demo.ana None "a1" Tour.catalog
           Tour.bothEssay).
  - vm_compute. reflexivity.
  - apply matches_listFilter. reflexivity.
Defined.

(** The users of the worked requests are all there for her. *)
Example ana_resolved : resolved Demo.users Demo.ana Tour.bothEssay.
Proof.
  split; [vm_compute; reflexivity |].
  intros _ s [<- | [<- | []]]; vm_compute; reflexivity.
Qed.

(** The other way round it does not hold: the colleague can open the
    published essay, which is not theirs and which they are not listed. *)
Example opened_but_not_listed :
  fst (getAssessmentById Demo.users Demo.colleague "a1" Tour.catalog)
  = Sent (Demo.essay1_with [])
  /\ Filter.matches (listFilter Demo.colleague None) Tour.bothEssay = false.
Proof. evaluate. Qed.

(** ** What was handed in stays *)

Lemma assign_handIns sid s g l :
  subdoc sid l = Some s -> handedIn g = handedIn s ->
  map handedIn (assign sid g l) = map handedIn l.
Proof.
  unfold subdoc. intros H Hg.
  induction l as [| x l IH]; cbn [assign find map] in *; [reflexivity |].
  destruct (sameId (Submission._id x) sid); cbn [map].
  - injection H as ->. rewrite Hg. reflexivity.
  - rewrite (IH H). reflexivity.
Qed.

Lemma serve_keeps_handIns uri st r id a :
  st !! id = Some a ->
  exists a', serve uri st r !! id = Some a' /\ handIns a `prefix_of` handIns a'.
Proof.
  intros Ha.
  assert (Hsame : exists a', st !! id = Some a'
                             /\ handIns a `prefix_of` handIns a')
    by (exists a; split; [exact Ha | reflexivity]).
  destruct r as [user id0 body now oid | user id0 sid body now]; cbn [serve].
  - rewrite submitAssessment_cases.
    destruct (Joi.validate _ _); [exact Hsame |].
    destruct (st !! id0) as [a0 |] eqn:Ea0; [| exact Hsame].
    destruct (Assessment.isPublished a0); [| exact Hsame].
    destruct (find _ _); [exact Hsame |].
    destruct (_ && _); [exact Hsame |].
    cbn [snd]. destruct (decide (id0 = id)) as [-> | Hne].
    + rewrite Ha in Ea0. injection Ea0 as <-.
      eexists. split; [apply lookup_insert_eq |].
      unfold handIns. cbn [Assessment.with_submissions Assessment.submissions].
      rewrite map_app. apply prefix_app_r. reflexivity.
    + rewrite lookup_insert_ne by exact Hne. exact Hsame.
  - rewrite gradeSubmission_cases.
    destruct (Joi.validate _ _); [exact Hsame |].
    destruct (st !! id0) as [a0 |] eqn:Ea0; [| exact Hsame].
    destruct (manages user a0); [| exact Hsame].
    destruct (subdoc _ _) as [s |] eqn:Es; [| exact Hsame].
    cbn [snd]. destruct (decide (id0 = id)) as [-> | Hne].
    + rewrite Ha in Ea0. injection Ea0 as <-.
      eexists. split; [apply lookup_insert_eq |].
      unfold handIns. cbn [Assessment.with_submissions Assessment.submissions].
      rewrite (assign_handIns sid s); [reflexivity | exact Es | reflexivity].
    + rewrite lookup_insert_ne by exact Hne. exact Hsame.
Qed.

(** X19. No run of submit and grade requests removes an assessment, or
    removes, reorders or alters what was handed in for it: the id, the
    student, the content, the time and the late flag of every submission
    stay as they were when it was accepted, in the order of arrival, and
    new submissions come after them. *)
Theorem handed_in_stays uri rs st id a :
  st !! id = Some a ->
  exists a', run uri rs st !! id = Some a' /\ handIns a `prefix_of` handIns a'.
Proof.
  unfold run. revert st a.
  induction rs as [| r rs IH]; intros st a Ha; cbn [fold_left].
  - exists a. split; [exact Ha | reflexivity].
  - destruct (serve_keeps_handIns uri st r id a Ha) as [a1 [Ha1 Hp1]].
    destruct (IH _ _ Ha1) as [a' [Ha' Hp']].
    exists a'. split; [exact Ha' |]. etransitivity; eassumption.
Qed.

(** Ben hands in after Ana, the owner grades her, Ana tries again. *)
Lemma handed_in_stays_witness :
  exists a',
    run Demo.uri
      [Submit Demo.ben "a1" Demo.answer (Demo.due - msPerDay) "s2";
       GradeIt Demo.owner "a1" "s1" (Demo.marks 90) Demo.gradingDay;
       Submit Demo.ana "a1" Demo.answer Demo.gradingDay "s3"]
      Demo.lateStore !! "a1" = Some a'
    /\ handIns (Demo.essay1_with [Demo.twoDaysLate]) `prefix_of` handIns a'.
Proof.
  apply (handed_in_stays Demo.uri
           [Submit Demo.ben "a1" Demo.answer (Demo.due - msPerDay) "s2";
            GradeIt Demo.owner "a1" "s1" (Demo.marks 90) Demo.gradingDay;
            Submit Demo.ana "a1" Demo.answer Demo.gradingDay "s3"]
           Demo.lateStore "a1" (Demo.essay1_with [Demo.twoDaysLate])).
  vm_compute. reflexivity.
Defined.

Example that_run :
  run Demo.uri
    [Submit Demo.ben "a1" Demo.answer (Demo.due - msPerDay) "s2";
     GradeIt Demo.owner "a1" "s1" (Demo.marks 90) Demo.gradingDay;
     Submit Demo.ana "a1" Demo.answer Demo.gradingDay "s3"]
    Demo.lateStore !! "a1"
  = Some (Demo.essay1_with [Tour.gradedAna; Demo.benSubmission]).
Proof. vm_compute. reflexivity. Qed.
